(** * Order validation and dispatch of the Binance futures trading bot

    A shallow embedding of [utils.py] (the validators) and [orders.py]
    (the [OrderExecutor] methods), and the properties of the order
    dispatcher that follow from it.

    Python values are modelled as the code uses them:
    - a [float] is a binary64 number, Rocq's primitive [float], so that
      [/], [<=] and NaN behave as they do in Python;
    - an [int] is an unbounded [Z]; converting one to a float, or dividing two
      of them with [/], rounds to nearest-even and raises [OverflowError]
      beyond the binary64 range;
    - a [str] is a [string] of ASCII characters;
    - a [dict] with string keys is an association list in insertion order;
    - exceptions are values of [exn], and a computation that may raise
      returns a [result];
    - the exchange client is a function of the request and of what happened
      before; [time.sleep] returns after the delay or raises at once, as a
      function of the delay says; the logger and the console are taken to
      return normally; what they are given is recorded as an event. *)

From Stdlib Require Import ZArith List String Ascii Bool Lia.
From Stdlib Require Import Floats.
Import ListNotations.

Set Warnings "-inexact-float,-register-all".

Local Open Scope string_scope.
Local Open Scope list_scope.
Local Open Scope Z_scope.

(** ** Exceptions and results *)

Inductive exn : Type :=
| ValueError (msg : string)
| KeyError (key : string)
| OverflowError (msg : string)
| ZeroDivisionError (msg : string)
| BinanceAPIException (code : Z) (message : string)
| OtherException (name msg : string).

Inductive result (A : Type) : Type :=
| Return (a : A)
| Raise (e : exn).

Arguments Return {A} a.
Arguments Raise {A} e.

(** [InvalidInput] of the specification is Python's [ValueError]. *)
Definition is_invalid_input (e : exn) : bool :=
  match e with
  | ValueError _ => true
  | _ => false
  end.

Definition raises_invalid_input {A : Type} (r : result A) : bool :=
  match r with
  | Raise e => is_invalid_input e
  | Return _ => false
  end.

(** ** Strings: [str.upper], [str.strip], [len] on ASCII text *)

Definition is_lower (c : ascii) : bool :=
  let n := nat_of_ascii c in (97 <=? n)%nat && (n <=? 122)%nat.

Definition upper_char (c : ascii) : ascii :=
  if is_lower c then ascii_of_nat (nat_of_ascii c - 32) else c.

Fixpoint upper (s : string) : string :=
  match s with
  | EmptyString => EmptyString
  | String c rest => String (upper_char c) (upper rest)
  end.

(** The ASCII characters for which [str.isspace] holds: tab, line feed,
    vertical tab, form feed, carriage return, the four separators
    0x1c-0x1f, and the space. *)
Definition is_space (c : ascii) : bool :=
  let n := nat_of_ascii c in
  ((9 <=? n)%nat && (n <=? 13)%nat) || ((28 <=? n)%nat && (n <=? 32)%nat).

Fixpoint lstrip (s : string) : string :=
  match s with
  | EmptyString => EmptyString
  | String c rest => if is_space c then lstrip rest else s
  end.

(** [rstrip] drops the trailing run of whitespace: a character is kept when
    it is not a space or when something is kept after it. *)
Fixpoint rstrip (s : string) : string :=
  match s with
  | EmptyString => EmptyString
  | String c rest =>
      match rstrip rest with
      | EmptyString => if is_space c then EmptyString else String c EmptyString
      | kept => String c kept
      end
  end.

Definition strip (s : string) : string := rstrip (lstrip s).

Definition len (s : string) : Z := Z.of_nat (String.length s).

(** ** Numbers *)

Local Open Scope float_scope.

(** [float(n)] for an int [n]: the nearest binary64 number, ties to even;
    [OverflowError] when that is beyond the largest finite float. *)
Definition float_of_int (n : Z) : result float :=
  match binary_normalize prec emax n 0%Z false with
  | S754_infinity _ => Raise (OverflowError "int too large to convert to float")
  | f => Return (SF2Prim f)
  end.

(** [a / b] on two ints (true division): the correctly rounded quotient. *)
Definition int_truediv (a b : Z) : result float :=
  if (b =? 0)%Z then Raise (ZeroDivisionError "division by zero")
  else if (a =? 0)%Z then Return (if (b <? 0)%Z then neg_zero else zero)
  else
    let '(q, e, loc) := SFdiv_core_binary prec emax (Z.abs a) 0%Z (Z.abs b) 0%Z in
    match binary_round_aux prec emax (xorb (a <? 0)%Z (b <? 0)%Z) q e loc with
    | S754_infinity _ =>
        Raise (OverflowError "integer division result too large for a float")
    | f => Return (SF2Prim f)
    end.

(** [x / n] for a float [x] and an int [n]: the int is converted first. *)
Definition float_div_int (x : float) (n : Z) : result float :=
  match float_of_int n with
  | Raise e => Raise e
  | Return y =>
      if (n =? 0)%Z then Raise (ZeroDivisionError "float division by zero")
      else Return (x / y)
  end.

(** ** utils.py: the validators *)

(** [validate_symbol]. The argument is typed as a string, so the
    [isinstance] test holds and [not symbol] is the test for the empty
    string. *)
Definition validate_symbol (symbol : string) : result string :=
  match symbol with
  | EmptyString => Raise (ValueError "Symbol must be a non-empty string")
  | _ =>
      let symbol := strip (upper symbol) in
      if (len symbol <? 6)%Z
      then Raise (ValueError "Symbol too short. Example: BTCUSDT")
      else Return symbol
  end.

(** The handler [except (TypeError, ValueError)] of both numeric validators:
    it replaces a [ValueError] (a [TypeError] cannot arise on a float) by a
    [ValueError] with the given message and lets anything else through. *)
Definition reraise_invalid {A : Type} (msg : string) (r : result A) : result A :=
  match r with
  | Raise (ValueError _) => Raise (ValueError msg)
  | other => other
  end.

(** [validate_quantity]. The argument is a float, as every caller passes
    one; [float(quantity)] is then the identity. *)
Definition validate_quantity (quantity : float) : result float :=
  reraise_invalid "Invalid quantity. Must be a positive number"
    (let qty := quantity in
     if qty <=? 0 then Raise (ValueError "Quantity must be greater than 0")
     else Return qty).

Definition validate_price (price : float) : result float :=
  reraise_invalid "Invalid price. Must be a positive number"
    (let p := price in
     if p <=? 0 then Raise (ValueError "Price must be greater than 0")
     else Return p).

(** ** Python values and dicts *)

Inductive pyval : Type :=
| PyNone
| PyBool (b : bool)
| PyInt (n : Z)
| PyFloat (x : float)
| PyStr (s : string)
| PyList (items : list pyval)
| PyDict (items : list (string * pyval)).

(** A dict with string keys, in insertion order. *)
Definition dict : Type := list (string * pyval).

Fixpoint dict_get (d : dict) (key : string) : option pyval :=
  match d with
  | [] => None
  | (k, v) :: rest => if String.eqb k key then Some v else dict_get rest key
  end.

(** [d[key]] *)
Definition getitem (d : dict) (key : string) : result pyval :=
  match dict_get d key with
  | Some v => Return v
  | None => Raise (KeyError key)
  end.

(** ** The remote endpoint, the console, the log and the clock *)

(** The keyword arguments of [client.futures_create_order]. *)
Record request : Type := mkRequest {
  req_symbol : string;
  req_side : string;
  req_type : string;
  req_timeInForce : option string;
  req_quantity : float;
  req_price : option float;
  req_stopPrice : option float
}.

(** What the call does: it returns the order, or it raises. *)
Inductive reply : Type :=
| Returned (order : dict)
| Raised (e : exn).

(** The messages of the f-strings, with the interpolated values as
    arguments (the formatting of numbers as text is not modelled). *)
Inductive message : Type :=
| MsgPlacing (kind side : string) (quantity : float) (symbol : string)
             (prices : list float)
| MsgPlaced (kind : string) (orderId : option pyval)
| MsgTable (table : string)
| MsgApiError (msg : string) (code : Z)
| MsgUnexpected (what : string) (e : exn)
| MsgOcoNote
| MsgStopLegFailed
| MsgOcoPlaced
| MsgTwapStarting (side : string) (total : float) (symbol : string)
                  (intervals duration : Z)
| MsgTwapPlan (total : float) (symbol : string) (intervals duration : Z)
              (minutes quantity_per_order wait_time : float)
| MsgTwapSlice (number intervals : Z)
| MsgTwapOrderFailed (number : Z)
| MsgTwapWaiting (wait_time : float)
| MsgTwapCompleted (executed : nat) (intervals : Z).

Inductive level : Type := INFO | SUCCESS | WARNING | ERROR | PLAIN.

(** What a run does to the outside world, in order. *)
Inductive event : Type :=
| Logged (l : level) (m : message)
| Printed (l : level) (m : message)
| CreateOrder (req : request) (rep : reply)
| Slept (seconds : float).

Definition history : Type := list event.

(** ** Computations: they read the history, emit events, and return or raise *)

Definition M (A : Type) : Type := history -> result A * list event.

Definition ret {A : Type} (a : A) : M A := fun _ => (Return a, []).

Definition raise {A : Type} (e : exn) : M A := fun _ => (Raise e, []).

Definition lift {A : Type} (r : result A) : M A := fun _ => (r, []).

Definition bind {A B : Type} (m : M A) (k : A -> M B) : M B :=
  fun h =>
    match m h with
    | (Return a, out) => let '(r, out') := k a (h ++ out) in (r, out ++ out')
    | (Raise e, out) => (Raise e, out)
    end.

(** [try: body  except Exception as e: handler e] *)
Definition try_except {A : Type} (body : M A) (handler : exn -> M A) : M A :=
  fun h =>
    match body h with
    | (Return a, out) => (Return a, out)
    | (Raise e, out) => let '(r, out') := handler e (h ++ out) in (r, out ++ out')
    end.

Definition emit (e : event) : M unit := fun _ => (Return tt, [e]).

Notation "x <- m ;; k" := (bind m (fun x => k))
  (at level 61, m at next level, right associativity).
Notation "m ;; k" := (bind m (fun _ => k))
  (at level 61, right associativity).

Definition logger_info (m : message) : M unit := emit (Logged INFO m).
Definition logger_error (m : message) : M unit := emit (Logged ERROR m).
Definition print_info (m : message) : M unit := emit (Printed INFO m).
Definition print_success (m : message) : M unit := emit (Printed SUCCESS m).
Definition print_warning (m : message) : M unit := emit (Printed WARNING m).
Definition print_error (m : message) : M unit := emit (Printed ERROR m).
Definition print (m : message) : M unit := emit (Printed PLAIN m).

(** [range(n)] *)
Definition range (n : Z) : list Z := map Z.of_nat (seq 0 (Z.to_nat n)).

(** ** orders.py: the order dispatcher *)

Section OrderExecutor.

(** [self.client]: what [futures_create_order] answers to a request, given
    everything that happened before. *)
Variable client : history -> request -> reply.

(** The library part of [format_order_details] ([tabulate] over the rows
    read from the order, the time through [datetime.fromtimestamp]): it
    yields the table or raises. *)
Variable tabulate : dict -> result string.

(** [time.sleep]: the exception it raises for a delay, if it raises one.
    The interpreter refuses some delays before it waits (a negative one, a
    NaN, one beyond what its clock counts); which ones depends on its
    version and on the platform. *)
Variable time_sleep : float -> option exn.

Definition sleep (seconds : float) : M unit :=
  fun _ =>
    match time_sleep seconds with
    | None => (Return tt, [Slept seconds])
    | Some e => (Raise e, [])
    end.

Definition futures_create_order (req : request) : M dict :=
  fun h =>
    let rep := client h req in
    (match rep with
     | Returned order => Return order
     | Raised e => Raise e
     end, [CreateOrder req rep]).

Definition format_order_details (order_data : dict) : result string :=
  match order_data with
  | [] => Return "No order data available"
  | _ => tabulate order_data
  end.

(** The two handlers that close the single-order methods:
    [except BinanceAPIException] and then [except Exception]. *)
Definition order_failed (what : string) (e : exn) : M (option dict) :=
  match e with
  | BinanceAPIException code msg =>
      logger_error (MsgApiError msg code) ;;
      print_error (MsgApiError msg code) ;;
      ret None
  | _ =>
      logger_error (MsgUnexpected what e) ;;
      print_error (MsgUnexpected what e) ;;
      ret None
  end.

(** The handler [except Exception] of the two composite methods. *)
Definition unexpected {A : Type} (what : string) (e : exn) : M (option A) :=
  logger_error (MsgUnexpected what e) ;;
  print_error (MsgUnexpected what e) ;;
  ret None.

(** What every single-order method does with the order it was given back. *)
Definition report_placed (kind : string) (order : dict) : M (option dict) :=
  order_id <- lift (getitem order "orderId") ;;
  logger_info (MsgPlaced kind (Some order_id)) ;;
  print_success (MsgPlaced kind None) ;;
  table <- lift (format_order_details order) ;;
  print (MsgTable table) ;;
  ret (Some order).

Definition place_market_order_body (symbol side : string) (quantity : float)
  : M (option dict) :=
  quantity <- lift (validate_quantity quantity) ;;
  let side := upper side in
  logger_info (MsgPlacing "MARKET" side quantity symbol []) ;;
  print_info (MsgPlacing "MARKET" side quantity symbol []) ;;
  order <- futures_create_order
             (mkRequest symbol side "MARKET" None quantity None None) ;;
  report_placed "Market" order.

Definition place_market_order (symbol side : string) (quantity : float)
  : M (option dict) :=
  try_except (place_market_order_body symbol side quantity)
             (order_failed "placing market order").

Definition place_limit_order_body (symbol side : string) (quantity price : float)
  : M (option dict) :=
  quantity <- lift (validate_quantity quantity) ;;
  price <- lift (validate_price price) ;;
  let side := upper side in
  logger_info (MsgPlacing "LIMIT" side quantity symbol [price]) ;;
  print_info (MsgPlacing "LIMIT" side quantity symbol [price]) ;;
  order <- futures_create_order
             (mkRequest symbol side "LIMIT" (Some "GTC") quantity (Some price) None) ;;
  report_placed "Limit" order.

Definition place_limit_order (symbol side : string) (quantity price : float)
  : M (option dict) :=
  try_except (place_limit_order_body symbol side quantity price)
             (order_failed "placing limit order").

Definition place_stop_limit_order_body (symbol side : string)
  (quantity stop_price limit_price : float) : M (option dict) :=
  quantity <- lift (validate_quantity quantity) ;;
  stop_price <- lift (validate_price stop_price) ;;
  limit_price <- lift (validate_price limit_price) ;;
  let side := upper side in
  logger_info (MsgPlacing "STOP_LIMIT" side quantity symbol [stop_price; limit_price]) ;;
  print_info (MsgPlacing "STOP_LIMIT" side quantity symbol [stop_price; limit_price]) ;;
  order <- futures_create_order
             (mkRequest symbol side "STOP" (Some "GTC") quantity
                        (Some limit_price) (Some stop_price)) ;;
  report_placed "Stop-limit" order.

Definition place_stop_limit_order (symbol side : string)
  (quantity stop_price limit_price : float) : M (option dict) :=
  try_except (place_stop_limit_order_body symbol side quantity stop_price limit_price)
             (order_failed "placing stop-limit order").

(** The dict that [place_oco_order] builds when both legs are placed. *)
Definition combined (limit_order stop_order : dict) : dict :=
  [("oco_type", PyStr "MANUAL_OCO");
   ("limit_order", PyDict limit_order);
   ("stop_order", PyDict stop_order)].

(** The tests [if not limit_order:] and [if not stop_order:] hold for
    [None] and for the empty dict; past the second one the limit order is
    returned as it is. *)
Definition place_oco_order_body (symbol side : string)
  (quantity price stop_price stop_limit_price : float) : M (option dict) :=
  quantity <- lift (validate_quantity quantity) ;;
  price <- lift (validate_price price) ;;
  stop_price <- lift (validate_price stop_price) ;;
  stop_limit_price <- lift (validate_price stop_limit_price) ;;
  let side := upper side in
  logger_info (MsgPlacing "OCO" side quantity symbol
                          [price; stop_price; stop_limit_price]) ;;
  print_info (MsgPlacing "OCO" side quantity symbol
                         [price; stop_price; stop_limit_price]) ;;
  print_warning MsgOcoNote ;;
  limit_order <- place_limit_order symbol side (quantity / 2) price ;;
  match limit_order with
  | Some ((_ :: _) as limit_order) =>
      stop_order <- place_stop_limit_order symbol side (quantity / 2)
                                           stop_price stop_limit_price ;;
      match stop_order with
      | Some ((_ :: _) as stop_order) =>
          let result := combined limit_order stop_order in
          logger_info MsgOcoPlaced ;;
          print_success MsgOcoPlaced ;;
          ret (Some result)
      | _ =>
          print_warning MsgStopLegFailed ;;
          ret (Some limit_order)
      end
  | _ => ret None
  end.

Definition place_oco_order (symbol side : string)
  (quantity price stop_price stop_limit_price : float) : M (option dict) :=
  try_except
    (place_oco_order_body symbol side quantity price stop_price stop_limit_price)
    (unexpected "placing OCO order").

(** The [for i in range(intervals)] loop of [place_twap_order], over the
    indices still to run; [orders] is the list being appended to. The test
    [if order:] holds for a dict that is not empty; [None] and the empty
    dict take the [else] branch, which ends the loop. *)
Fixpoint twap_loop (symbol side : string) (quantity_per_order wait_time : float)
  (intervals : Z) (indices : list Z) (orders : list dict) : M (list dict) :=
  match indices with
  | [] => ret orders
  | i :: rest =>
      print_info (MsgTwapSlice (i + 1) intervals) ;;
      order <- place_market_order symbol side quantity_per_order ;;
      match order with
      | Some (item :: items) =>
          let orders := orders ++ [item :: items] in
          (if (i <? intervals - 1)%Z
           then print_info (MsgTwapWaiting wait_time) ;; sleep wait_time
           else ret tt) ;;
          twap_loop symbol side quantity_per_order wait_time intervals rest orders
      | _ =>
          print_error (MsgTwapOrderFailed (i + 1)) ;;
          ret orders
      end
  end.

Definition place_twap_order_body (symbol side : string) (total_quantity : float)
  (intervals duration : Z) : M (option (list dict)) :=
  total_quantity <- lift (validate_quantity total_quantity) ;;
  let side := upper side in
  (if (intervals <=? 0)%Z
   then raise (ValueError "Intervals must be greater than 0") else ret tt) ;;
  (if (duration <=? 0)%Z
   then raise (ValueError "Duration must be greater than 0") else ret tt) ;;
  quantity_per_order <- lift (float_div_int total_quantity intervals) ;;
  wait_time <- lift (int_truediv duration intervals) ;;
  logger_info (MsgTwapStarting side total_quantity symbol intervals duration) ;;
  minutes <- lift (int_truediv duration 60) ;;
  print_info (MsgTwapPlan total_quantity symbol intervals duration
                          minutes quantity_per_order wait_time) ;;
  orders <- twap_loop symbol side quantity_per_order wait_time intervals
                      (range intervals) [] ;;
  logger_info (MsgTwapCompleted (List.length orders) intervals) ;;
  print_success (MsgTwapCompleted (List.length orders) intervals) ;;
  ret (Some orders).

Definition place_twap_order (symbol side : string) (total_quantity : float)
  (intervals duration : Z) : M (option (list dict)) :=
  try_except (place_twap_order_body symbol side total_quantity intervals duration)
             (unexpected "in TWAP order").

(** What a reply is worth to the method that got it: the order, when it
    was returned and then reported without an exception; nothing otherwise. *)
Definition taken (rep : reply) : option dict :=
  match rep with
  | Returned order =>
      match getitem order "orderId", format_order_details order with
      | Return _, Return _ => Some order
      | _, _ => None
      end
  | Raised _ => None
  end.

(** The orders placed in a run: request type and order of every taken reply. *)
Definition placed (out : list event) : list (string * dict) :=
  flat_map (fun e => match e with
                     | CreateOrder req rep =>
                         match taken rep with
                         | Some order => [(req_type req, order)]
                         | None => []
                         end
                     | _ => []
                     end) out.

(** Whether a leg of the given request type was placed in a run. *)
Definition leg_placed (kind : string) (out : list event) : bool :=
  existsb (fun leg => String.eqb (fst leg) kind) (placed out).

End OrderExecutor.

(** ** What a run shows from outside *)

Definition remote_calls (out : list event) : list request :=
  flat_map (fun e => match e with CreateOrder req _ => [req] | _ => [] end) out.

Definition sleeps (out : list event) : list float :=
  flat_map (fun e => match e with Slept seconds => [seconds] | _ => [] end) out.

(** The sub-orders announced as failed: the numbers [i+1] of the messages
    "Order {i+1} failed. Stopping TWAP execution." *)
Definition failed_suborders (out : list event) : list Z :=
  flat_map (fun e => match e with
                     | Printed ERROR (MsgTwapOrderFailed number) => [number]
                     | _ => []
                     end) out.

Definition is_prefix_of {A : Type} (l full : list A) : Prop :=
  exists rest, full = l ++ rest.

(** ** Exchanges and inputs used in the examples *)

Definition new_order (id : Z) (req : request) : dict :=
  [("orderId", PyInt id);
   ("symbol", PyStr (req_symbol req));
   ("side", PyStr (req_side req));
   ("type", PyStr (req_type req));
   ("origQty", PyFloat (req_quantity req));
   ("status", PyStr "NEW")].

Definition next_id (h : history) : Z := Z.of_nat (List.length (remote_calls h)) + 1.

(** An exchange that takes every order. *)
Definition accepting : history -> request -> reply :=
  fun h req => Returned (new_order (next_id h) req).

(** An exchange that takes orders until the call numbered [k], and rejects
    that one and all later ones. *)
Definition rejecting_from (k : Z) : history -> request -> reply :=
  fun h req =>
    if (k <=? next_id h)%Z
    then Raised (BinanceAPIException (-2019) "Margin is insufficient.")
    else Returned (new_order (next_id h) req).

(** An exchange that takes every order but stop orders. *)
Definition rejecting_stops : history -> request -> reply :=
  fun h req =>
    if String.eqb (req_type req) "STOP"
    then Raised (BinanceAPIException (-4045) "Reach max stop order limit.")
    else Returned (new_order (next_id h) req).

(** A [tabulate] that renders every order. *)
Definition grid : dict -> result string := fun _ => Return "+---+".

(** A clock for the examples, after [time.sleep] of CPython 3 on a POSIX
    system: the delay is counted in nanoseconds in a signed 64-bit integer;
    a NaN, a delay beyond that range and a negative delay are refused. *)
Definition posix_sleep (seconds : float) : option exn :=
  if is_nan seconds then Some (ValueError "Invalid value NaN (not a number)")
  else if (0x1p63 <=? seconds * 1e9) || (seconds * 1e9 <? -0x1p63)
  then Some (OverflowError "timestamp too large to convert to C _PyTime_t")
  else if seconds <? 0 then Some (ValueError "sleep length must be non-negative")
  else None.

(** A time-sliced order of five sub-orders of 1.0, and one of three, on an
    exchange that rejects the third call. *)
Definition third_of_five_fails : result (option (list dict)) * list event :=
  place_twap_order (rejecting_from 3) grid posix_sleep "BTCUSDT" "BUY" 5 5 300 [].

Definition third_of_three_fails : result (option (list dict)) * list event :=
  place_twap_order (rejecting_from 3) grid posix_sleep "BTCUSDT" "BUY" 3 3 300 [].

(** An OCO order on an exchange that rejects the stop order, and the limit
    order of its first leg placed on its own. *)
Definition oco_without_stop : result (option dict) * list event :=
  place_oco_order rejecting_stops grid "BTCUSDT" "SELL" 1 100 90 89 [].

Definition limit_alone : result (option dict) * list event :=
  place_limit_order rejecting_stops grid "BTCUSDT" "SELL" (1 / 2) 100 [].

(** The request of the limit leg and of the stop-limit leg of an OCO order. *)
Definition limit_leg (symbol side : string) (quantity price : float) : request :=
  mkRequest symbol (upper side) "LIMIT" (Some "GTC") (quantity / 2) (Some price) None.

Definition stop_leg (symbol side : string)
  (quantity stop_price stop_limit_price : float) : request :=
  mkRequest symbol (upper side) "STOP" (Some "GTC") (quantity / 2)
            (Some stop_limit_price) (Some stop_price).

(** ** The order of what a time-sliced run does *)

(** What matters for pacing: an order sent to the exchange, or a delay. *)
Inductive effect : Type := Ordered | Paused.

Definition effects (out : list event) : list effect :=
  flat_map (fun e => match e with
                     | CreateOrder _ _ => [Ordered]
                     | Slept _ => [Paused]
                     | _ => []
                     end) out.

(** [k] orders with a delay between each two of them. *)
Fixpoint paced (k : nat) : list effect :=
  match k with
  | O => []
  | S O => [Ordered]
  | S k' => Ordered :: Paused :: paced k'
  end.

(** An exchange that takes every order and answers without an order id. *)
Definition forgetful : history -> request -> reply :=
  fun _ req =>
    Returned [("symbol", PyStr (req_symbol req)); ("status", PyStr "NEW")].

(** ** A console session: bot.py, and the methods of orders.py and
    utils.py that need more than the placing of orders *)

(** [str.lower] on ASCII text. *)
Definition is_upper_letter (c : ascii) : bool :=
  let n := nat_of_ascii c in (65 <=? n)%nat && (n <=? 90)%nat.

Definition lower_char (c : ascii) : ascii :=
  if is_upper_letter c then ascii_of_nat (nat_of_ascii c + 32) else c.

Fixpoint lower (s : string) : string :=
  match s with
  | EmptyString => EmptyString
  | String c rest => String (lower_char c) (lower rest)
  end.

(** [x in [a, b]] on strings. *)
Definition one_of (x a b : string) : bool := String.eqb x a || String.eqb x b.

(** Truth value of a float: zero, of either sign, is false. *)
Definition float_truthy (x : float) : bool := negb (x =? 0).

Definition TypeError (msg : string) : exn := OtherException "TypeError" msg.
Definition EOFError : exn := OtherException "EOFError" "EOF when reading a line".

Module Bot.

(** A value shown in a line of text. *)
Inductive shown : Type :=
| ShownStr (s : string)
| ShownInt (n : Z)
| ShownFloat (x : float)
| ShownValue (v : pyval).

(** What the console is asked to show. *)
Inductive text : Type :=
| Header (title : string)
| Note (words : string)
| Line (label : string) (values : list shown)
| InvalidInput (e : exn)
| Failed (what : string) (e : exn)
| Bare (e : exn).

(** The questions of [get_user_confirmation]. *)
Inductive question : Type :=
| ConfirmOrder
| ConfirmTwap
| ConfirmCancel (order_id : Z).

Inductive prompt : Type :=
| Enter (words : string)
| Confirm (q : question).

(** What a session does, in order: what the dispatcher does when it
    places orders ([Core]), a line read from the console after a prompt
    ([None] at the end of the input), a text printed or logged, and the
    other calls to the exchange. *)
Inductive cli_event : Type :=
| Core (e : event)
| Asked (p : prompt) (line : option string)
| Said (l : level) (t : text)
| Noted (l : level) (t : text)
| Ticker (symbol : string) (rep : reply)
| GetOrder (symbol : string) (order_id : Z) (rep : reply)
| CancelOrder (symbol : string) (order_id : Z) (rep : reply)
| Account (rep : reply).

(** The endpoints of the exchange client, each a function of what it is
    asked and of the session so far. *)
Record exchange : Type := mkExchange {
  on_create_order : list cli_event -> request -> reply;
  on_symbol_ticker : list cli_event -> string -> reply;
  on_get_order : list cli_event -> string -> Z -> reply;
  on_cancel_order : list cli_event -> string -> Z -> reply;
  on_account : list cli_event -> reply
}.

(** A computation of the session: it reads lines of the input that is
    left and the session so far, and gives a result, the input it left and
    the events it added. *)
Definition S (A : Type) : Type :=
  list string -> list cli_event -> (result A * list string) * list cli_event.

Definition ret {A : Type} (a : A) : S A := fun inp _ => ((Return a, inp), []).

Definition raise {A : Type} (e : exn) : S A := fun inp _ => ((Raise e, inp), []).

Definition lift {A : Type} (r : result A) : S A := fun inp _ => ((r, inp), []).

Definition bind {A B : Type} (m : S A) (k : A -> S B) : S B :=
  fun inp h =>
    match m inp h with
    | ((Return a, inp'), out) =>
        let '((r, inp''), out') := k a inp' (h ++ out) in ((r, inp''), out ++ out')
    | ((Raise e, inp'), out) => ((Raise e, inp'), out)
    end.

Definition try_except {A : Type} (body : S A) (handler : exn -> S A) : S A :=
  fun inp h =>
    match body inp h with
    | ((Return a, inp'), out) => ((Return a, inp'), out)
    | ((Raise e, inp'), out) =>
        let '((r, inp''), out') := handler e inp' (h ++ out) in ((r, inp''), out ++ out')
    end.

Definition emit (e : cli_event) : S unit := fun inp _ => ((Return tt, inp), [e]).

Declare Scope session_scope.
Delimit Scope session_scope with session.
Notation "x <- m ;; k" := (bind m (fun x => k))
  (at level 61, m at next level, right associativity) : session_scope.
Notation "m ;; k" := (bind m (fun _ => k))
  (at level 61, right associativity) : session_scope.
Local Open Scope session_scope.

Definition print_header (title : string) : S unit := emit (Said PLAIN (Header title)).
Definition print_info (t : text) : S unit := emit (Said INFO t).
Definition print_success (t : text) : S unit := emit (Said SUCCESS t).
Definition print_warning (t : text) : S unit := emit (Said WARNING t).
Definition print_error (t : text) : S unit := emit (Said ERROR t).
Definition print (t : text) : S unit := emit (Said PLAIN t).
Definition logger_error (t : text) : S unit := emit (Noted ERROR t).
Definition logger_info (t : text) : S unit := emit (Noted INFO t).

(** [input(prompt)]: the next line, or [EOFError] when none is left. *)
Definition input (p : prompt) : S string :=
  fun inp _ =>
    match inp with
    | [] => ((Raise EOFError, []), [Asked p None])
    | line :: rest => ((Return line, rest), [Asked p (Some line)])
    end.

(** utils.py, [get_user_confirmation]: the loop [while True] ends at the
    first line that is an answer, or with the input. *)
Fixpoint get_user_confirmation (q : question) (inp : list string)
  (h : list cli_event) : (result bool * list string) * list cli_event :=
  match inp with
  | [] => ((Raise EOFError, []), [Asked (Confirm q) None])
  | line :: rest =>
      let response := strip (lower line) in
      if one_of response "yes" "y" then
        ((Return true, rest), [Asked (Confirm q) (Some line)])
      else if one_of response "no" "n" then
        ((Return false, rest), [Asked (Confirm q) (Some line)])
      else
        let said := [Asked (Confirm q) (Some line);
                     Said WARNING (Note "Please enter 'yes' or 'no'")] in
        let '((r, inp'), out) := get_user_confirmation q rest (h ++ said) in
        ((r, inp'), said ++ out)
  end.

Section Session.

Variable client : exchange.
Variable tabulate : dict -> result string.

(** [float(s)] and [int(s)] on a string: the number, or [ValueError]. *)
Variable parse_float : string -> option float.
Variable parse_int : string -> option Z.

(** [time.sleep], as the dispatcher has it. *)
Variable time_sleep : float -> option exn.

Definition float_of_str (s : string) : result float :=
  match parse_float s with
  | Some x => Return x
  | None => Raise (ValueError "could not convert string to float")
  end.

Definition int_of_str (s : string) : result Z :=
  match parse_int s with
  | Some n => Return n
  | None => Raise (ValueError "invalid literal for int() with base 10")
  end.

(** [float(v)] on a value. *)
Definition float_of_value (v : pyval) : result float :=
  match v with
  | PyFloat x => Return x
  | PyInt n => float_of_int n
  | PyBool b => Return (if b then 1 else 0)
  | PyStr s => float_of_str s
  | _ => Raise (TypeError "float() argument must be a string or a real number")
  end.

(** A method of [self.order_executor] that places orders, run in the
    session: its client answers from the session so far and from what the
    method has done, and its events are the session's. *)
Definition order_executor {A : Type}
  (method : (history -> request -> reply) -> (dict -> result string) -> M A) : S A :=
  fun inp h =>
    let '(r, out) :=
      method (fun done req => on_create_order client (h ++ map Core done) req)
             tabulate [] in
    ((r, inp), map Core out).

(** The handlers of an API call, as the methods of orders.py have them. *)
Definition api_failed {A : Type} (what : string) (e : exn) : S (option A) :=
  match e with
  | BinanceAPIException code msg =>
      emit (Core (Logged ERROR (MsgApiError msg code))) ;;
      emit (Core (Printed ERROR (MsgApiError msg code))) ;;
      ret None
  | _ =>
      emit (Core (Logged ERROR (MsgUnexpected what e))) ;;
      emit (Core (Printed ERROR (MsgUnexpected what e))) ;;
      ret None
  end.

Definition call (rep : reply) (e : cli_event) : S dict :=
  fun inp _ =>
    ((match rep with
      | Returned d => Return d
      | Raised ex => Raise ex
      end, inp), [e]).

Definition futures_get_order (symbol : string) (order_id : Z) : S dict :=
  fun inp h =>
    let rep := on_get_order client h symbol order_id in
    call rep (GetOrder symbol order_id rep) inp h.

Definition futures_cancel_order (symbol : string) (order_id : Z) : S dict :=
  fun inp h =>
    let rep := on_cancel_order client h symbol order_id in
    call rep (CancelOrder symbol order_id rep) inp h.

Definition futures_symbol_ticker (symbol : string) : S dict :=
  fun inp h =>
    let rep := on_symbol_ticker client h symbol in
    call rep (Ticker symbol rep) inp h.

(** orders.py, [get_order_status] *)
Definition get_order_status (symbol : string) (order_id : Z) : S (option dict) :=
  try_except
    (order <- futures_get_order symbol order_id ;;
     table <- lift (format_order_details tabulate order) ;;
     emit (Core (Printed PLAIN (MsgTable table))) ;;
     ret (Some order))
    (api_failed "getting order status").

(** orders.py, [cancel_order] *)
Definition cancel_order (symbol : string) (order_id : Z) : S (option dict) :=
  try_except
    (result <- futures_cancel_order symbol order_id ;;
     logger_info (Line "Order cancelled successfully" [ShownInt order_id]) ;;
     print_success (Line "Order cancelled successfully" [ShownInt order_id]) ;;
     ret (Some result))
    (api_failed "cancelling order").

(** bot.py, [get_current_price] *)
Definition get_current_price (symbol : string) : S (option float) :=
  try_except
    (ticker <- futures_symbol_ticker symbol ;;
     value <- lift (getitem ticker "price") ;;
     price <- lift (float_of_value value) ;;
     print_info (Line "Current price" [ShownStr symbol; ShownFloat price]) ;;
     ret (Some price))
    (fun e =>
       logger_error (Failed "Failed to get current price" e) ;;
       print_error (Failed "Failed to get current price" e) ;;
       ret None).

(** The two [except] clauses that close every handler of an order. *)
Definition handler_failed (what : string) (e : exn) : S unit :=
  match e with
  | ValueError _ => print_error (InvalidInput e)
  | _ => print_error (Failed what e)
  end.

(** [input(words).strip().upper()] and [validate_symbol] *)
Definition ask_symbol (words : string) : S string :=
  line <- input (Enter words) ;;
  let symbol := upper (strip line) in
  lift (validate_symbol symbol).

(** [float(input(words).strip())] and [int(input(words).strip())] *)
Definition ask_float (words : string) : S float :=
  line <- input (Enter words) ;;
  lift (float_of_str (strip line)).

Definition ask_int (words : string) : S Z :=
  line <- input (Enter words) ;;
  lift (int_of_str (strip line)).

(** The side is read and tested; the rest of the handler runs for BUY and
    SELL only, and the handler returns after the error otherwise. *)
Definition with_side (rest : string -> S unit) : S unit :=
  line <- input (Enter "Enter side (BUY/SELL): ") ;;
  let side := upper (strip line) in
  if negb (one_of side "BUY" "SELL")
  then print_error (Note "Side must be BUY or SELL")
  else rest side.

(** [if current_price: print(...)] *)
Definition show_current_price (current_price : option float) : S unit :=
  match current_price with
  | Some price =>
      if float_truthy price then print (Line "Current Price" [ShownFloat price])
      else ret tt
  | None => ret tt
  end.

(** [if get_user_confirmation(...): place  else: print_warning(...)] *)
Definition confirmed (q : question) (place : S unit) (declined : string) : S unit :=
  yes <- get_user_confirmation q ;;
  if yes then place else print_warning (Note declined).

Definition handle_price_command : S unit :=
  try_except
    (symbol <- ask_symbol "Enter symbol (e.g., BTCUSDT): " ;;
     get_current_price symbol ;;
     ret tt)
    (fun e => match e with
              | ValueError _ => print_error (Bare e)
              | _ => print_error (Failed "Error getting price" e)
              end).

Definition handle_market_order : S unit :=
  try_except
    (print_header "MARKET ORDER" ;;
     symbol <- ask_symbol "Enter symbol (e.g., BTCUSDT): " ;;
     with_side (fun side =>
       quantity <- ask_float "Enter quantity: " ;;
       current_price <- get_current_price symbol ;;
       match current_price with
       | Some price =>
           if float_truthy price then
             print_info (Note "Order Summary:") ;;
             print (Line "Type" [ShownStr "MARKET"]) ;;
             print (Line "Symbol" [ShownStr symbol]) ;;
             print (Line "Side" [ShownStr side]) ;;
             print (Line "Quantity" [ShownFloat quantity]) ;;
             print (Line "Estimated Price" [ShownFloat price]) ;;
             confirmed ConfirmOrder
               (order_executor (fun c t => place_market_order c t symbol side quantity) ;;
                ret tt)
               "Order cancelled"
           else ret tt
       | None => ret tt
       end))
    (handler_failed "Error placing market order").

Definition handle_limit_order : S unit :=
  try_except
    (print_header "LIMIT ORDER" ;;
     symbol <- ask_symbol "Enter symbol (e.g., BTCUSDT): " ;;
     with_side (fun side =>
       quantity <- ask_float "Enter quantity: " ;;
       price <- ask_float "Enter limit price: " ;;
       current_price <- get_current_price symbol ;;
       print_info (Note "Order Summary:") ;;
       print (Line "Type" [ShownStr "LIMIT"]) ;;
       print (Line "Symbol" [ShownStr symbol]) ;;
       print (Line "Side" [ShownStr side]) ;;
       print (Line "Quantity" [ShownFloat quantity]) ;;
       print (Line "Limit Price" [ShownFloat price]) ;;
       show_current_price current_price ;;
       confirmed ConfirmOrder
         (order_executor (fun c t => place_limit_order c t symbol side quantity price) ;;
          ret tt)
         "Order cancelled"))
    (handler_failed "Error placing limit order").

Definition handle_stop_limit_order : S unit :=
  try_except
    (print_header "STOP-LIMIT ORDER" ;;
     symbol <- ask_symbol "Enter symbol (e.g., BTCUSDT): " ;;
     with_side (fun side =>
       quantity <- ask_float "Enter quantity: " ;;
       stop_price <- ask_float "Enter stop price (trigger price): " ;;
       limit_price <- ask_float "Enter limit price (execution price): " ;;
       current_price <- get_current_price symbol ;;
       print_info (Note "Order Summary:") ;;
       print (Line "Type" [ShownStr "STOP-LIMIT"]) ;;
       print (Line "Symbol" [ShownStr symbol]) ;;
       print (Line "Side" [ShownStr side]) ;;
       print (Line "Quantity" [ShownFloat quantity]) ;;
       print (Line "Stop Price" [ShownFloat stop_price]) ;;
       print (Line "Limit Price" [ShownFloat limit_price]) ;;
       show_current_price current_price ;;
       confirmed ConfirmOrder
         (order_executor
            (fun c t => place_stop_limit_order c t symbol side quantity
                                               stop_price limit_price) ;;
          ret tt)
         "Order cancelled"))
    (handler_failed "Error placing stop-limit order").

Definition handle_oco_order : S unit :=
  try_except
    (print_header "OCO ORDER (One-Cancels-Other)" ;;
     print_info (Note "This creates a limit order and a stop-limit order") ;;
     symbol <- ask_symbol "Enter symbol (e.g., BTCUSDT): " ;;
     with_side (fun side =>
       quantity <- ask_float "Enter total quantity: " ;;
       price <- ask_float "Enter limit order price: " ;;
       stop_price <- ask_float "Enter stop trigger price: " ;;
       stop_limit_price <- ask_float "Enter stop-limit price: " ;;
       current_price <- get_current_price symbol ;;
       print_info (Note "Order Summary:") ;;
       print (Line "Type" [ShownStr "OCO (One-Cancels-Other)"]) ;;
       print (Line "Symbol" [ShownStr symbol]) ;;
       print (Line "Side" [ShownStr side]) ;;
       print (Line "Total Quantity" [ShownFloat quantity]) ;;
       print (Line "Limit Price" [ShownFloat price]) ;;
       print (Line "Stop Price" [ShownFloat stop_price]) ;;
       print (Line "Stop-Limit Price" [ShownFloat stop_limit_price]) ;;
       show_current_price current_price ;;
       confirmed ConfirmOrder
         (order_executor
            (fun c t => place_oco_order c t symbol side quantity price
                                        stop_price stop_limit_price) ;;
          ret tt)
         "Order cancelled"))
    (handler_failed "Error placing OCO order").

Definition handle_twap_order : S unit :=
  try_except
    (print_header "TWAP ORDER (Time-Weighted Average Price)" ;;
     print_info (Note "Splits your order into multiple smaller orders over time") ;;
     symbol <- ask_symbol "Enter symbol (e.g., BTCUSDT): " ;;
     with_side (fun side =>
       total_quantity <- ask_float "Enter total quantity: " ;;
       intervals <- ask_int "Enter number of intervals (orders): " ;;
       duration <- ask_int "Enter total duration in seconds: " ;;
       current_price <- get_current_price symbol ;;
       print_info (Note "Order Summary:") ;;
       print (Line "Type" [ShownStr "TWAP"]) ;;
       print (Line "Symbol" [ShownStr symbol]) ;;
       print (Line "Side" [ShownStr side]) ;;
       print (Line "Total Quantity" [ShownFloat total_quantity]) ;;
       print (Line "Intervals" [ShownInt intervals]) ;;
       minutes <- lift (int_truediv duration 60) ;;
       print (Line "Duration" [ShownInt duration; ShownFloat minutes]) ;;
       share <- lift (float_div_int total_quantity intervals) ;;
       print (Line "Quantity per order" [ShownFloat share]) ;;
       wait <- lift (int_truediv duration intervals) ;;
       print (Line "Time between orders" [ShownFloat wait]) ;;
       show_current_price current_price ;;
       confirmed ConfirmTwap
         (order_executor
            (fun c t => place_twap_order c t time_sleep symbol side total_quantity
                                         intervals duration) ;;
          ret tt)
         "Order cancelled"))
    (handler_failed "Error placing TWAP order").

Definition handle_order_status : S unit :=
  try_except
    (print_header "CHECK ORDER STATUS" ;;
     symbol <- ask_symbol "Enter symbol (e.g., BTCUSDT): " ;;
     order_id <- ask_int "Enter order ID: " ;;
     get_order_status symbol order_id ;;
     ret tt)
    (handler_failed "Error checking order status").

Definition handle_cancel_order : S unit :=
  try_except
    (print_header "CANCEL ORDER" ;;
     symbol <- ask_symbol "Enter symbol (e.g., BTCUSDT): " ;;
     order_id <- ask_int "Enter order ID: " ;;
     confirmed (ConfirmCancel order_id)
       (cancel_order symbol order_id ;; ret tt)
       "Cancellation aborted")
    (handler_failed "Error cancelling order").

End Session.

(** *** The balance of the account *)

Definition AttributeError (msg : string) : exn := OtherException "AttributeError" msg.

(** Truth value of a value: [None], [False], zero, and the empty string,
    list and dict are false. *)
Definition truthy (v : pyval) : bool :=
  match v with
  | PyNone => false
  | PyBool b => b
  | PyInt n => negb (n =? 0)%Z
  | PyFloat x => float_truthy x
  | PyStr s => negb (String.eqb s "")
  | PyList items => match items with [] => false | _ => true end
  | PyDict items => match items with [] => false | _ => true end
  end.

(** [for b in v]: the items of a list, the keys of a dict, the characters
    of a string; nothing else can be iterated. *)
Definition iterate (v : pyval) : result (list pyval) :=
  match v with
  | PyList items => Return items
  | PyDict items => Return (map (fun kv => PyStr (fst kv)) items)
  | PyStr s => Return (map (fun c => PyStr (String c EmptyString)) (list_ascii_of_string s))
  | _ => Raise (TypeError "object is not iterable")
  end.

(** [b[key]] with a string for key: a dict has items of that kind. *)
Definition subscript (b : pyval) (key : string) : result pyval :=
  match b with
  | PyDict items => getitem items key
  | PyStr _ => Raise (TypeError "string indices must be integers")
  | PyList _ => Raise (TypeError "list indices must be integers or slices, not str")
  | _ => Raise (TypeError "object is not subscriptable")
  end.

Definition and_then {A B : Type} (r : result A) (k : A -> result B) : result B :=
  match r with
  | Return a => k a
  | Raise e => Raise e
  end.

Section Balance.

Variable client : exchange.
Variable parse_float : string -> option float.

(** [f"{x:.8f}"], and [tabulate(rows, headers=headers, tablefmt="grid")]. *)
Variable fixed8 : float -> string.
Variable tabulate_rows : list (list pyval) -> list string -> result string.

(** [float(b[key])] *)
Definition float_at (b : pyval) (key : string) : result float :=
  and_then (subscript b key) (float_of_value parse_float).

(** One turn of the comprehension of [format_balance]: the condition, and
    the row when it holds. *)
Definition balance_row (b : pyval) : result (option (list pyval)) :=
  and_then (float_at b "balance") (fun x =>
  if 0 <? x then
    and_then (subscript b "asset") (fun asset =>
    and_then (float_at b "balance") (fun balance =>
    and_then (float_at b "availableBalance") (fun available =>
    Return (Some [asset; PyStr (fixed8 balance); PyStr (fixed8 available)]))))
  else Return None).

Fixpoint balance_rows (items : list pyval) : result (list (list pyval)) :=
  match items with
  | [] => Return []
  | b :: rest =>
      and_then (balance_row b) (fun row =>
      and_then (balance_rows rest) (fun rows =>
      Return match row with
             | Some r => r :: rows
             | None => rows
             end))
  end.

(** utils.py, [format_balance] *)
Definition format_balance (balance_data : pyval) : result string :=
  if negb (truthy balance_data) then Return "No balance data available"
  else
    and_then (iterate balance_data) (fun items =>
    and_then (balance_rows items) (fun filtered_balances =>
    match filtered_balances with
    | [] => Return "No non-zero balances found"
    | _ => tabulate_rows filtered_balances ["Asset"; "Balance"; "Available"]
    end)).

Definition futures_account : S dict :=
  fun inp h =>
    let rep := on_account client h in
    call rep (Account rep) inp h.

(** [key in d] and [d.get(key, default)] *)
Definition contains (d : dict) (key : string) : bool :=
  match dict_get d key with
  | Some _ => true
  | None => false
  end.

Definition get_or (d : dict) (key : string) (default : pyval) : pyval :=
  match dict_get d key with
  | Some v => v
  | None => default
  end.

(** The entry made of one of [account['positions']]. *)
Definition position_balance (pos : pyval) : result pyval :=
  match pos with
  | PyDict items =>
      Return (PyDict [("asset", get_or items "asset" (PyStr "USDT"));
                      ("balance", get_or items "initialMargin" (PyStr "0"));
                      ("availableBalance", get_or items "availableBalance" (PyStr "0"))])
  | _ => Raise (AttributeError "object has no attribute 'get'")
  end.

Fixpoint position_balances (positions : list pyval) : result (list pyval) :=
  match positions with
  | [] => Return []
  | pos :: rest =>
      and_then (position_balance pos) (fun b =>
      and_then (position_balances rest) (fun bs => Return (b :: bs)))
  end.

(** The three shapes of the account that [get_account_balance] reads. *)
Definition balances_of (account : dict) : result pyval :=
  if contains account "assets" then getitem account "assets"
  else if contains account "positions" then
    and_then (getitem account "positions") (fun positions =>
    and_then (iterate positions) (fun items =>
    and_then (position_balances items) (fun balances => Return (PyList balances))))
  else
    let total_balance :=
      get_or account "totalWalletBalance"
             (get_or account "totalMarginBalance" (PyStr "0")) in
    let available :=
      get_or account "availableBalance"
             (get_or account "maxWithdrawAmount" (PyStr "0")) in
    Return (PyList [PyDict [("asset", PyStr "USDT");
                            ("balance", total_balance);
                            ("availableBalance", available)]]).

(** bot.py, [get_account_balance] *)
Definition get_account_balance : S (option pyval) :=
  try_except
    (account <- futures_account ;;
     balances <- lift (balances_of account) ;;
     print_header "ACCOUNT BALANCE" ;;
     table <- lift (format_balance balances) ;;
     print (Note table) ;;
     print (Line "Total Wallet Balance"
                 [ShownValue (get_or account "totalWalletBalance" (PyStr "N/A"))]) ;;
     print (Line "Available Balance"
                 [ShownValue (get_or account "availableBalance" (PyStr "N/A"))]) ;;
     ret (Some balances))
    (fun e =>
       logger_error (Failed "Failed to get account balance" e) ;;
       print_error (Failed "Failed to get account balance" e) ;;
       try_except
         (print_warning (Note "Debug: Fetching account data...") ;;
          account <- futures_account ;;
          print (Line "Account keys available"
                      [ShownValue (PyList (map (fun kv => PyStr (fst kv)) account))]) ;;
          (if contains account "totalWalletBalance" then
             account_total <- lift (getitem account "totalWalletBalance") ;;
             print (Line "Total Wallet Balance" [ShownValue account_total])
           else ret tt) ;;
          (if contains account "availableBalance" then
             account_available <- lift (getitem account "availableBalance") ;;
             print (Line "Available Balance" [ShownValue account_available])
           else ret tt))
         (fun debug_error => print_error (Failed "Debug error" debug_error)) ;;
       ret None).

End Balance.

(** The rows that [format_balance] is meant to show: the entries with a
    balance above zero, formatted. *)
Definition balance_above_zero (parse_float : string -> option float) (b : dict) : bool :=
  match and_then (getitem b "balance") (float_of_value parse_float) with
  | Return x => 0 <? x
  | Raise _ => false
  end.

(** An entry with its three keys, and numbers for the two amounts. *)
Definition well_formed (parse_float : string -> option float) (b : dict)
  (asset : pyval) (balance available : float) : Prop :=
  dict_get b "asset" = Some asset /\
  and_then (getitem b "balance") (float_of_value parse_float) = Return balance /\
  and_then (getitem b "availableBalance") (float_of_value parse_float) = Return available.

(** *** config.py *)

(** The settings that are read from the environment; a variable that is
    not set gives [None]. *)
Record Config : Type := mkConfig {
  API_KEY : option string;
  API_SECRET : option string;
  TESTNET : bool
}.

(** [not s] on a setting. *)
Definition unset (s : option string) : bool :=
  match s with
  | None => true
  | Some EmptyString => true
  | Some _ => false
  end.

(** [Config.validate] *)
Definition validate (cls : Config) : result bool :=
  if unset (API_KEY cls) || unset (API_SECRET cls)
  then Raise (ValueError "API credentials not found! Please set BINANCE_API_KEY and BINANCE_API_SECRET in your .env file")
  else Return true.

(** [s[:n]] and [s[-n:]] for a positive [n] *)
Definition first_chars (n : nat) (s : string) : string := substring 0 n s.

Definition last_chars (n : nat) (s : string) : string :=
  substring (String.length s - n) n s.

(** The line of the key in [Config.display]: the slice of the key is taken
    before the key is tested. *)
Definition key_line (key : option string) : result string :=
  match key with
  | None => Raise (TypeError "'NoneType' object is not subscriptable")
  | Some k =>
      Return ("API Key: " ++ first_chars 8 k ++ "..." ++
              (if unset key then "NOT SET" else last_chars 4 k))%string
  end.

(** [Config.display] *)
Definition display (cls : Config) : S unit :=
  print (Note "============================================================") ;;
  print (Note "CONFIGURATION") ;;
  print (Note "============================================================") ;;
  print (Line "Testnet Mode" [ShownValue (PyBool (TESTNET cls))]) ;;
  line <- lift (key_line (API_KEY cls)) ;;
  print (Note line) ;;
  print (Line "Default Symbol" [ShownStr "BTCUSDT"]) ;;
  print (Line "Default Quantity" [ShownFloat 0.001]) ;;
  print (Note "============================================================").

(** *** The loop of commands *)

Section Commands.

Variable client : exchange.
Variable tabulate : dict -> result string.
Variable parse_float : string -> option float.
Variable parse_int : string -> option Z.
Variable time_sleep : float -> option exn.
Variable fixed8 : float -> string.
Variable tabulate_rows : list (list pyval) -> list string -> result string.
Variable cls : Config.

(** bot.py, [show_help] *)
Definition show_help : S unit :=
  print_header "AVAILABLE COMMANDS" ;;
  print (Note "ACCOUNT COMMANDS: balance, price, config. ORDER COMMANDS: market, limit, stop-limit, oco, twap. ORDER MANAGEMENT: status, cancel. GENERAL: help, exit/quit.").

(** The chain of [elif] of [run_cli], after the test for exit and quit. *)
Definition dispatch (command : string) : S unit :=
  if String.eqb command "help" then show_help
  else if String.eqb command "balance" then
    get_account_balance client parse_float fixed8 tabulate_rows ;; ret tt
  else if String.eqb command "price" then handle_price_command client parse_float
  else if String.eqb command "market" then handle_market_order client tabulate parse_float
  else if String.eqb command "limit" then handle_limit_order client tabulate parse_float
  else if String.eqb command "stop-limit" then
    handle_stop_limit_order client tabulate parse_float
  else if String.eqb command "oco" then handle_oco_order client tabulate parse_float
  else if String.eqb command "twap" then
    handle_twap_order client tabulate parse_float parse_int time_sleep
  else if String.eqb command "status" then handle_order_status client tabulate parse_int
  else if String.eqb command "cancel" then handle_cancel_order client parse_int
  else if String.eqb command "config" then display cls
  else print_error (Line "Unknown command" [ShownStr command]).

(** One turn of the loop [while True]; it returns whether the loop is left.
    An interrupt from the keyboard is outside of what is modelled. *)
Definition turn : S bool :=
  try_except
    (print (Note "------------------------------------------------------------") ;;
     line <- input (Enter "Enter command: ") ;;
     let command := lower (strip line) in
     if one_of command "exit" "quit" then
       print_info (Note "Shutting down bot...") ;; ret true
     else
       dispatch command ;; ret false)
    (fun e =>
       print_error (Failed "Error" e) ;;
       logger_error (Failed "CLI error" e) ;;
       ret false).

(** The loop, for at most [fuel] turns: [None] when they are used up. *)
Fixpoint cli_loop (fuel : nat) (inp : list string) (h : list cli_event) :
  option (result unit * list string) * list cli_event :=
  match fuel with
  | O => (None, [])
  | Datatypes.S fuel' =>
      match turn inp h with
      | ((Return true, inp'), out) => (Some (Return tt, inp'), out)
      | ((Return false, inp'), out) =>
          let '(r, out') := cli_loop fuel' inp' (h ++ out) in (r, out ++ out')
      | ((Raise e, inp'), out) => (Some (Raise e, inp'), out)
      end
  end.

Definition greeting : list cli_event :=
  [Said PLAIN (Header "BINANCE FUTURES TRADING BOT");
   Said INFO (Note "Type 'help' for available commands or 'exit' to quit")].

(** bot.py, [run_cli] *)
Definition run_cli (fuel : nat) (inp : list string) (h : list cli_event) :
  option (result unit * list string) * list cli_event :=
  let '(r, out) := cli_loop fuel inp (h ++ greeting) in (r, greeting ++ out).

End Commands.

(** What a turn adds at the end of the input. *)
Definition stuck_turn : list cli_event :=
  [Said PLAIN (Note "------------------------------------------------------------");
   Asked (Enter "Enter command: ") None;
   Said ERROR (Failed "Error" EOFError);
   Noted ERROR (Failed "CLI error" EOFError)].

(** The amount that an entry has under [key], and the row shown for it. *)
Definition amount (parse_float : string -> option float) (b : dict) (key : string) : float :=
  match and_then (getitem b key) (float_of_value parse_float) with
  | Return x => x
  | Raise _ => 0
  end.

Definition shown_row (parse_float : string -> option float) (fixed8 : float -> string)
  (b : dict) : list pyval :=
  [get_or b "asset" PyNone;
   PyStr (fixed8 (amount parse_float b "balance"));
   PyStr (fixed8 (amount parse_float b "availableBalance"))].

(** *** What a session shows from outside *)

(** A line that [get_user_confirmation] takes for a yes. *)
Definition affirmative (line : string) : bool :=
  one_of (strip (lower line)) "yes" "y".

(** A line that it takes for an answer at all. *)
Definition answers (line : string) : bool :=
  affirmative line || one_of (strip (lower line)) "no" "n".

(** The events that change something at the exchange: an order sent, an
    order cancelled. *)
Definition acts (e : cli_event) : bool :=
  match e with
  | Core (CreateOrder _ _) => true
  | CancelOrder _ _ _ => true
  | _ => false
  end.

Definition actions (out : list cli_event) : list cli_event := filter acts out.

(** Every call to the exchange, of any kind. *)
Definition calls (e : cli_event) : bool :=
  match e with
  | Core (CreateOrder _ _) => true
  | Ticker _ _ | GetOrder _ _ _ | CancelOrder _ _ _ | Account _ => true
  | _ => false
  end.

Definition remote (out : list cli_event) : list cli_event := filter calls out.

(** A yes given to a confirmation. *)
Definition consents (e : cli_event) : bool :=
  match e with
  | Asked (Confirm _) (Some line) => affirmative line
  | _ => false
  end.

(** Whether every action of a run comes after a yes; [consented] tells
    whether one was given before the run. *)
Fixpoint guarded (consented : bool) (out : list cli_event) : bool :=
  match out with
  | [] => true
  | e :: rest =>
      (negb (acts e) || consented) && guarded (consented || consents e) rest
  end.

(** Every action of a run comes after a yes to a confirmation of that run. *)
Definition after_consent (out : list cli_event) : Prop :=
  forall pre e post,
    out = pre ++ e :: post -> acts e = true ->
    exists q line, In (Asked (Confirm q) (Some line)) pre /\ affirmative line = true.

(** A computation that never acts, and one whose actions are guarded. *)
Definition OrderFree {A : Type} (m : S A) : Prop :=
  forall inp h, actions (snd (m inp h)) = [].

Definition Guarded {A : Type} (m : S A) : Prop :=
  forall inp h, guarded false (snd (m inp h)) = true.

(** The warnings of the lines that were no answer. *)
Definition asked_again (q : question) (lines : list string) : list cli_event :=
  flat_map (fun line => [Asked (Confirm q) (Some line);
                         Said WARNING (Note "Please enter 'yes' or 'no'")]) lines.

(** An event that asks for a confirmation. *)
Definition asks_consent (e : cli_event) : bool :=
  match e with
  | Asked (Confirm _) _ => true
  | _ => false
  end.

(** A run that neither acts nor asks for a confirmation. *)
Definition idle (out : list cli_event) : bool :=
  forallb (fun e => negb (acts e) && negb (asks_consent e)) out.

Definition IdleOn {A : Type} (inp : list string) (m : S A) : Prop :=
  forall h, idle (snd (m inp h)) = true.

(** A computation that reads no line. *)
Definition Still {A : Type} (m : S A) : Prop :=
  forall inp h, snd (fst (m inp h)) = inp.

(** A reply of the ticker that gives [get_current_price] no price that
    counts as true: the call fails, the reply has no price, the price is no
    number, or it is zero. *)
Definition priceless (parse_float : string -> option float) (rep : reply) : bool :=
  match rep with
  | Raised _ => true
  | Returned ticker =>
      match getitem ticker "price" with
      | Return value =>
          match float_of_value parse_float value with
          | Return price => negb (float_truthy price)
          | Raise _ => true
          end
      | Raise _ => true
      end
  end.

(** The events of the dispatcher among those of a session. *)
Definition cores (h : list cli_event) : history :=
  flat_map (fun e => match e with Core c => [c] | _ => [] end) h.

(** The requests for an order that a run sends to the exchange. *)
Definition orders (out : list cli_event) : list request := remote_calls (cores out).

Definition SendsOn {A : Type} (Q : list request -> Prop) (inp : list string)
  (m : S A) : Prop :=
  forall h, Q (orders (snd (m inp h))).

(** What the first lines of [inp] were taken for: a symbol that
    [validate_symbol] returned, a side among BUY and SELL, and the numbers
    that [float] read from the lines after them; [rest] is what follows. *)
Definition entered (parse_float : string -> option float) (inp : list string)
  (symbol side : string) (numbers : list float) (rest : list string) : Prop :=
  exists symbol_line side_line lines,
    inp = symbol_line :: side_line :: lines ++ rest /\
    validate_symbol (upper (strip symbol_line)) = Return symbol /\
    side = upper (strip side_line) /\
    one_of side "BUY" "SELL" = true /\
    map (fun line => parse_float (strip line)) lines = map Some numbers.

(** *** A console and an exchange for the examples *)

Definition digit (c : ascii) : option Z :=
  let n := Z.of_nat (nat_of_ascii c) in
  if ((48 <=? n) && (n <=? 57))%Z then Some (n - 48)%Z else None.

Fixpoint digits (acc : Z) (s : string) : option Z :=
  match s with
  | EmptyString => Some acc
  | String c rest =>
      match digit c with
      | Some d => digits (10 * acc + d)%Z rest
      | None => None
      end
  end.

(** [int(s)] on the decimal numerals, and [float(s)] on the same. *)
Definition read_int (s : string) : option Z :=
  match s with
  | EmptyString => None
  | String "-" EmptyString => None
  | String "-" rest => option_map Z.opp (digits 0 rest)
  | _ => digits 0 s
  end.

Definition read_whole (s : string) : option float :=
  match read_int s with
  | Some n =>
      match float_of_int n with
      | Return x => Some x
      | Raise _ => None
      end
  | None => None
  end.

(** An exchange that takes every order and every cancellation, and quotes
    every symbol at [price]. *)
Definition desk (price : pyval) : exchange :=
  {| on_create_order := fun h req => accepting (cores h) req;
     on_symbol_ticker := fun _ symbol =>
       Returned [("symbol", PyStr symbol); ("price", price)];
     on_get_order := fun _ symbol order_id =>
       Returned [("orderId", PyInt order_id); ("symbol", PyStr symbol);
                 ("status", PyStr "NEW")];
     on_cancel_order := fun _ symbol order_id =>
       Returned [("orderId", PyInt order_id); ("symbol", PyStr symbol);
                 ("status", PyStr "CANCELED")];
     on_account := fun _ => Returned [] |}.

(** A formatter and a table maker for the examples. *)
Definition eight_places : float -> string :=
  fun x => if x =? 1 then "1.00000000" else if x =? 2 then "2.00000000" else "?".

Definition row_count : list (list pyval) -> list string -> result string :=
  fun rows _ =>
    Return match rows with
           | [_] => "one row"
           | [_; _] => "two rows"
           | _ => "rows"
           end.

End Bot.

(** * Properties *)

(** ** The validators *)

Lemma upper_char_idempotent (c : ascii) : upper_char (upper_char c) = upper_char c.
Proof.
  destruct c as [[] [] [] [] [] [] [] []]; reflexivity.
Qed.

Lemma upper_idempotent (s : string) : upper (upper s) = upper s.
Proof.
  induction s as [|c s IH]; simpl.
  - reflexivity.
  - now rewrite upper_char_idempotent, IH.
Qed.

Lemma validate_quantity_cases (q : float) :
  validate_quantity q =
  if q <=? 0 then Raise (ValueError "Invalid quantity. Must be a positive number")
  else Return q.
Proof.
  unfold validate_quantity; simpl. now destruct (q <=? 0).
Qed.

Lemma validate_price_cases (p : float) :
  validate_price p =
  if p <=? 0 then Raise (ValueError "Invalid price. Must be a positive number")
  else Return p.
Proof.
  unfold validate_price; simpl. now destruct (p <=? 0).
Qed.

(** Every value that is at most zero is rejected as invalid input. *)
Lemma validate_quantity_rejects_nonpositive (q : float) :
  (q <=? 0) = true -> raises_invalid_input (validate_quantity q) = true.
Proof.
  intros H. rewrite validate_quantity_cases, H. reflexivity.
Qed.

Lemma validate_price_rejects_nonpositive (p : float) :
  (p <=? 0) = true -> raises_invalid_input (validate_price p) = true.
Proof.
  intros H. rewrite validate_price_cases, H. reflexivity.
Qed.

(** What passes the test [x <= 0] of the validators: the positive numbers,
    and NaN, which compares false with everything. *)
Lemma not_leb_zero (x : float) :
  (x <=? 0) = false <-> (0 <? x) = true \/ is_nan x = true.
Proof.
  rewrite leb_spec, ltb_spec.
  assert (Hnan : is_nan x = true <-> Prim2SF x = S754_nan).
  { split; intros H.
    - unfold Prim2SF. now rewrite H.
    - rewrite <- (SF2Prim_Prim2SF x), H. reflexivity. }
  rewrite Hnan.
  change (Prim2SF 0) with (S754_zero false).
  destruct (Prim2SF x) as [s | s | | s m e]; try destruct s; cbn;
    intuition (discriminate || auto).
Qed.

(** ** The claims about the validators *)

(** C8, as amended. [validate_symbol] fails with [InvalidInput] exactly when
    the symbol is empty or, once put in upper case and stripped of
    surrounding whitespace, shorter than six characters; every other
    symbol is returned in upper case and stripped. *)
Theorem validate_symbol_checks_stripped_length (symbol : string) :
  (raises_invalid_input (validate_symbol symbol) = true <->
   symbol = "" \/ (len (strip (upper symbol)) < 6)%Z) /\
  (validate_symbol symbol = Return (strip (upper symbol)) <->
   symbol <> "" /\ (6 <= len (strip (upper symbol)))%Z).
Proof.
  unfold validate_symbol.
  destruct symbol as [|c rest].
  - cbn. intuition (discriminate || congruence).
  - generalize (strip (upper (String c rest))); intros t.
    destruct (len t <? 6)%Z eqn:Hlen;
      [apply Z.ltb_lt in Hlen | apply Z.ltb_ge in Hlen]; cbn;
      intuition (discriminate || lia || auto).
Qed.

(** C8, as stated, fails: the symbol "BTC" followed by three spaces is not
    empty and is six characters long in upper case, and is rejected. *)
Lemma validate_symbol_rejects_padded_symbol :
  "BTC   " <> "" /\
  len (upper "BTC   ") = 6%Z /\
  raises_invalid_input (validate_symbol "BTC   ") = true.
Proof.
  repeat split; try reflexivity. discriminate.
Qed.

(** C9, the input on which the code departs from the claim: NaN is not a
    positive number, and both validators return it. *)
Theorem validators_accept_nan :
  (0 <? nan) = false /\
  validate_quantity nan = Return nan /\
  validate_price nan = Return nan.
Proof.
  repeat split; reflexivity.
Qed.

(** Apart from NaN the validators do as C9 says: a value is returned,
    unchanged, exactly when it is a positive number. *)
Lemma validate_quantity_accepts (q : float) :
  validate_quantity q = Return q <-> (0 <? q) = true \/ is_nan q = true.
Proof.
  rewrite <- not_leb_zero, validate_quantity_cases.
  destruct (q <=? 0); split; intros H; auto; discriminate.
Qed.

Lemma validate_price_accepts (p : float) :
  validate_price p = Return p <-> (0 <? p) = true \/ is_nan p = true.
Proof.
  rewrite <- not_leb_zero, validate_price_cases.
  destruct (p <=? 0); split; intros H; auto; discriminate.
Qed.

(** ** Reading a run *)

Arguments float_of_int : simpl never.
Arguments int_truediv : simpl never.
Arguments range : simpl never.

Lemma remote_calls_app (a b : list event) :
  remote_calls (a ++ b) = remote_calls a ++ remote_calls b.
Proof. apply flat_map_app. Qed.

Lemma sleeps_app (a b : list event) : sleeps (a ++ b) = sleeps a ++ sleeps b.
Proof. apply flat_map_app. Qed.

Lemma failed_suborders_app (a b : list event) :
  failed_suborders (a ++ b) = failed_suborders a ++ failed_suborders b.
Proof. apply flat_map_app. Qed.

Lemma placed_app (tabulate : dict -> result string) (a b : list event) :
  placed tabulate (a ++ b) = placed tabulate a ++ placed tabulate b.
Proof. apply flat_map_app. Qed.

Ltac read_run :=
  repeat rewrite ?remote_calls_app, ?sleeps_app, ?failed_suborders_app,
    ?placed_app, ?length_app, ?app_nil_r; cbn.

(** A run that announces one failed sub-order can be cut at the announcement
    in one way only. *)
Lemma cut_at_failure (pre post pre' post' : list event) (k k' : Z) :
  pre ++ Printed ERROR (MsgTwapOrderFailed k) :: post =
  pre' ++ Printed ERROR (MsgTwapOrderFailed k') :: post' ->
  failed_suborders pre' = [] -> failed_suborders post' = [] ->
  pre = pre' /\ k = k' /\ post = post'.
Proof.
  revert pre'. induction pre as [|e pre IH]; intros [|e' pre'] Heq Hpre Hpost;
    simpl in Heq.
  - now inversion Heq.
  - inversion Heq; subst e'. discriminate Hpre.
  - inversion Heq; subst e post'.
    rewrite failed_suborders_app in Hpost. simpl in Hpost.
    now destruct (failed_suborders pre).
  - inversion Heq; subst e'.
    destruct (IH pre' H1) as (-> & -> & ->); auto.
    unfold failed_suborders in Hpre; simpl in Hpre.
    now apply app_eq_nil in Hpre.
Qed.

Section Dispatcher.

Variable client : history -> request -> reply.
Variable tabulate : dict -> result string.
Variable time_sleep : float -> option exn.

(** A dict that holds ["orderId"] is not empty, hence true in a test. *)
Lemma taken_not_empty (rep : reply) (order : dict) :
  taken tabulate rep = Some order -> exists item items, order = item :: items.
Proof.
  destruct rep as [[|item items]|e]; simpl; try discriminate.
  intros H. exists item, items.
  destruct (getitem (item :: items) "orderId"); try discriminate.
  destruct (tabulate (item :: items)); now inversion H.
Qed.

(** Case analysis on everything a single-order method branches on. *)
Ltac run_order :=
  repeat match goal with
         | |- context [if ?b then _ else _] => destruct b eqn:?
         | |- context [client ?h ?r] => destruct (client h r) as [[|? ?]|[]] eqn:?
         | |- context [getitem ?d ?k] => destruct (getitem d k) eqn:?
         | |- context [tabulate ?d] => destruct (tabulate d) eqn:?
         | |- context [match ?e with ValueError _ => _ | _ => _ end] => destruct e
         | _ => progress (cbn in * )
         | _ => discriminate
         end.

Ltac recall :=
  cbn;
  repeat match goal with
         | H : getitem _ _ = _ |- _ => rewrite H
         | H : tabulate _ = _ |- _ => rewrite H
         end;
  cbn.

(** One market order: it never raises and never sleeps; it calls the
    exchange at most once, with the quantity it was given; it returns the
    order exactly when the reply was taken. *)
Lemma place_market_order_run (symbol side : string) (q : float) (h : history) :
  exists r out,
    place_market_order client tabulate symbol side q h = (Return r, out) /\
    sleeps out = [] /\ failed_suborders out = [] /\
    ((r = None /\ placed tabulate out = []) \/
     (exists item items, r = Some (item :: items) /\
                         placed tabulate out = [("MARKET", item :: items)])) /\
    ((remote_calls out = [] /\ r = None /\ (q <=? 0) = true) \/
     (remote_calls out = [mkRequest symbol (upper side) "MARKET" None q None None]
      /\ (q <=? 0) = false)).
Proof.
  unfold place_market_order, place_market_order_body, try_except, bind, lift,
    futures_create_order, report_placed, order_failed, logger_info, logger_error,
    print_info, print_error, print_success, print, emit, ret.
  rewrite validate_quantity_cases.
  run_order; eexists _, _; (split; [reflexivity|]); recall; eauto 10.
Qed.

(** One limit order and one stop-limit order, read the same way. *)
Lemma place_limit_order_run (symbol side : string) (q p : float) (h : history) :
  exists r out,
    place_limit_order client tabulate symbol side q p h = (Return r, out) /\
    sleeps out = [] /\
    ((r = None /\ placed tabulate out = []) \/
     (exists item items, r = Some (item :: items) /\
                         placed tabulate out = [("LIMIT", item :: items)])) /\
    ((remote_calls out = [] /\ r = None /\ ((q <=? 0) = true \/ (p <=? 0) = true)) \/
     (remote_calls out =
      [mkRequest symbol (upper side) "LIMIT" (Some "GTC") q (Some p) None] /\
      (q <=? 0) = false /\ (p <=? 0) = false)).
Proof.
  unfold place_limit_order, place_limit_order_body, try_except, bind, lift,
    futures_create_order, report_placed, order_failed, logger_info, logger_error,
    print_info, print_error, print_success, print, emit, ret.
  rewrite validate_quantity_cases, validate_price_cases.
  run_order; eexists _, _; (split; [reflexivity|]); recall; eauto 10.
Qed.

Lemma place_stop_limit_order_run (symbol side : string) (q sp lp : float) (h : history) :
  exists r out,
    place_stop_limit_order client tabulate symbol side q sp lp h = (Return r, out) /\
    sleeps out = [] /\
    ((r = None /\ placed tabulate out = []) \/
     (exists item items, r = Some (item :: items) /\
                         placed tabulate out = [("STOP", item :: items)])) /\
    ((remote_calls out = [] /\ r = None /\
      ((q <=? 0) = true \/ (sp <=? 0) = true \/ (lp <=? 0) = true)) \/
     (remote_calls out =
      [mkRequest symbol (upper side) "STOP" (Some "GTC") q (Some lp) (Some sp)] /\
      (q <=? 0) = false /\ (sp <=? 0) = false /\ (lp <=? 0) = false)).
Proof.
  unfold place_stop_limit_order, place_stop_limit_order_body, try_except, bind, lift,
    futures_create_order, report_placed, order_failed, logger_info, logger_error,
    print_info, print_error, print_success, print, emit, ret.
  rewrite validate_quantity_cases, !validate_price_cases.
  run_order; eexists _, _; (split; [reflexivity|]); recall; eauto 15.
Qed.

(** The three ways [place_oco_order] ends: nothing placed and [None]; the
    limit leg alone, returned as it is after the warning; both legs, in
    the combined dict. The exchange is called for the limit leg first and
    for the stop-limit leg only after the limit leg was placed. *)
Lemma place_oco_order_run (symbol side : string) (q p sp slp : float) (h : history) :
  exists r out,
    place_oco_order client tabulate symbol side q p sp slp h = (Return r, out) /\
    sleeps out = [] /\
    ((r = None /\ placed tabulate out = [] /\
      (remote_calls out = [] \/ remote_calls out = [limit_leg symbol side q p])) \/
     (exists limit_order,
         r = Some limit_order /\
         placed tabulate out = [("LIMIT", limit_order)] /\
         (remote_calls out = [limit_leg symbol side q p] \/
          remote_calls out = [limit_leg symbol side q p; stop_leg symbol side q sp slp]) /\
         exists before, out = before ++ [Printed WARNING MsgStopLegFailed]) \/
     (exists limit_order stop_order,
         r = Some (combined limit_order stop_order) /\
         placed tabulate out = [("LIMIT", limit_order); ("STOP", stop_order)] /\
         remote_calls out = [limit_leg symbol side q p; stop_leg symbol side q sp slp])).
Proof.
  unfold place_oco_order, place_oco_order_body, try_except, unexpected, limit_leg,
    stop_leg, bind, lift, logger_info, logger_error, print_info, print_error,
    print_warning, print_success, emit, ret.
  rewrite validate_quantity_cases, !validate_price_cases.
  destruct (q <=? 0); [eexists _, _; split; [reflexivity|]; cbn; auto 10|].
  destruct (p <=? 0); [eexists _, _; split; [reflexivity|]; cbn; auto 10|].
  destruct (sp <=? 0); [eexists _, _; split; [reflexivity|]; cbn; auto 10|].
  destruct (slp <=? 0); [eexists _, _; split; [reflexivity|]; cbn; auto 10|].
  cbv beta iota zeta.
  match goal with
  | |- context [place_limit_order _ _ ?s ?sd ?q' ?p' ?h'] =>
      destruct (place_limit_order_run s sd q' p' h') as (rl & outl & Hl & Hsl & Hpl & Hcl)
  end.
  rewrite Hl. cbv beta iota zeta. rewrite upper_idempotent in Hcl.
  destruct Hpl as [[-> Hpl] | (item & items & -> & Hpl)]; cbv beta iota zeta.
  { eexists _, _; split; [reflexivity|]. read_run. rewrite Hsl, Hpl. cbn.
    split; auto. left. repeat split; auto.
    destruct Hcl as [(-> & _) | (-> & _)]; cbn; auto. }
  destruct Hcl as [(_ & Hcl & _) | (Hcl & _)]; [discriminate|].
  match goal with
  | |- context [place_stop_limit_order _ _ ?s ?sd ?q' ?sp' ?lp' ?h'] =>
      destruct (place_stop_limit_order_run s sd q' sp' lp' h')
        as (rs & outs & Hs & Hss & Hps & Hcs)
  end.
  rewrite Hs. cbv beta iota zeta. rewrite upper_idempotent in Hcs.
  destruct Hps as [[-> Hps] | (item' & items' & -> & Hps)]; cbv beta iota zeta.
  { eexists _, _; split; [reflexivity|]. read_run. rewrite Hsl, Hpl, Hss, Hps, Hcl. cbn.
    split; auto. right; left. exists (item :: items). repeat split; auto.
    - destruct Hcs as [(-> & _) | (-> & _)]; cbn; auto.
    - rewrite ?app_assoc, !app_comm_cons. eexists. reflexivity. }
  destruct Hcs as [(_ & Hcs & _) | (Hcs & _)]; [discriminate|].
  eexists _, _; split; [reflexivity|]. read_run. rewrite Hsl, Hpl, Hss, Hps, Hcl, Hcs. cbn.
  split; auto. right; right. exists (item :: items), (item' :: items'). auto.
Qed.


(** The [else] branch of the loop: when the market order of sub-order
    [i+1] comes back as [None], the loop announces the failure and ends with
    the list it had, whatever indices were left. *)
Lemma twap_loop_breaks_on_failure (symbol side : string) (qpo wait : float) (n i : Z)
  (rest : list Z) (orders : list dict) (h : history) (out : list event) :
  place_market_order client tabulate symbol side qpo
    (h ++ [Printed INFO (MsgTwapSlice (i + 1) n)]) = (Return None, out) ->
  twap_loop client tabulate time_sleep symbol side qpo wait n (i :: rest) orders h =
  (Return orders,
   [Printed INFO (MsgTwapSlice (i + 1) n)] ++ out ++
   [Printed ERROR (MsgTwapOrderFailed (i + 1))]).
Proof.
  intros Hfail. cbn [twap_loop].
  unfold bind at 1 2. unfold print_info at 1, emit. rewrite Hfail. reflexivity.
Qed.

(** The slicing loop over the indices [a, a+m) of [range(intervals)],
    entered with [orders]. It ends in one of three ways. It places all [m]
    orders and returns them after [orders]; or it announces the sub-order
    that failed as its last event and returns what it had, having placed
    and slept once for each index before that one; or the clock refuses
    the delay after the first order it placed, and the exception leaves
    the loop. A delay is only taken by a clock that accepts it. *)
Lemma twap_loop_run (symbol side : string) (qpo wait : float) (n : Z) (m : nat) :
  forall (a : nat) (orders : list dict) (h : history),
    (Z.of_nat (a + m) <= n)%Z ->
    exists r out,
      twap_loop client tabulate time_sleep symbol side qpo wait n
                (map Z.of_nat (seq a m)) orders h = (r, out) /\
      Forall (eq (mkRequest symbol (upper side) "MARKET" None qpo None None))
             (remote_calls out) /\
      Forall (eq wait) (sleeps out) /\
      (sleeps out = [] \/ time_sleep wait = None) /\
      ((r = Return (orders ++ map snd (placed tabulate out)) /\
        ((failed_suborders out = [] /\ List.length (placed tabulate out) = m /\
          List.length (remote_calls out) = m /\
          List.length (sleeps out) =
          (Z.to_nat (Z.min (Z.of_nat (a + m)) (n - 1)) - a)%nat) \/
         (exists (j : nat) (pre : list event),
             (a <= j < a + m)%nat /\
             out = pre ++ [Printed ERROR (MsgTwapOrderFailed (Z.of_nat j + 1))] /\
             failed_suborders pre = [] /\
             List.length (placed tabulate pre) = (j - a)%nat /\
             List.length (sleeps pre) = (j - a)%nat /\
             (List.length (remote_calls pre) <= j - a + 1)%nat /\
             ((qpo <=? 0) = false ->
              List.length (remote_calls pre) = (j - a + 1)%nat) /\
             ((qpo <=? 0) = true -> j = a /\ remote_calls pre = [])))) \/
       (exists e,
           r = Raise e /\ time_sleep wait = Some e /\ (Z.of_nat a < n - 1)%Z /\
           failed_suborders out = [] /\
           List.length (placed tabulate out) = 1%nat /\
           List.length (remote_calls out) = 1%nat /\
           sleeps out = [])).
Proof.
  induction m as [|m IH]; intros a orders h Hn.
  - exists (Return orders), []. cbn. rewrite app_nil_r.
    repeat split; auto. left. split; auto. left. repeat split; auto. lia.
  - cbn [seq map twap_loop].
    unfold bind at 1 2. unfold print_info at 1, emit. cbn [fst snd].
    destruct (place_market_order_run symbol side qpo
                (h ++ [Printed INFO (MsgTwapSlice (Z.of_nat a + 1) n)]))
      as (r & out & -> & Hs & Hf & Hplaced & Hcalls).
    assert (Hreq : Forall (eq (mkRequest symbol (upper side) "MARKET" None qpo None None))
                          (remote_calls out) /\
                   (List.length (remote_calls out) <= 1)%nat).
    { destruct Hcalls as [(-> & _) | (-> & _)]; cbn; auto. }
    destruct Hreq as [Hreq Hone].
    destruct Hplaced as [[-> Hp] | (item & items & -> & Hp)].
    + exists (Return orders),
        (([Printed INFO (MsgTwapSlice (Z.of_nat a + 1) n)] ++ out) ++
         [Printed ERROR (MsgTwapOrderFailed (Z.of_nat a + 1))]).
      split; [reflexivity|].
      read_run. rewrite Hp, Hs. cbn. rewrite ?app_nil_r.
      repeat split; auto. left. split; auto.
      right. exists a, ([Printed INFO (MsgTwapSlice (Z.of_nat a + 1) n)] ++ out).
      read_run. rewrite Hp, Hs, Hf, Nat.sub_diag. cbn.
      repeat split; auto; try lia.
      all: intros; destruct Hcalls as [(Hc0 & _ & Hbad) | (Hc1 & Hgood)];
        rewrite ?Hc0, ?Hc1; try congruence; reflexivity.
    + destruct Hcalls as [(_ & Hnone & _) | (Hc & Hq)]; [discriminate|].
      cbn [app].
      assert (Hstep :
                (exists e, time_sleep wait = Some e /\ (Z.of_nat a < n - 1)%Z) \/
                (exists pace,
                    (forall h',
                        (if (Z.of_nat a <? n - 1)%Z
                         then print_info (MsgTwapWaiting wait);; sleep time_sleep wait
                         else ret tt) h' = (Return tt, pace)) /\
                    placed tabulate pace = [] /\ remote_calls pace = [] /\
                    failed_suborders pace = [] /\ Forall (eq wait) (sleeps pace) /\
                    ((Z.of_nat a < n - 1)%Z ->
                     List.length (sleeps pace) = 1%nat /\ time_sleep wait = None) /\
                    ((n - 1 <= Z.of_nat a)%Z -> sleeps pace = []))).
      { destruct (Z.of_nat a <? n - 1)%Z eqn:Hlt.
        - apply Z.ltb_lt in Hlt. destruct (time_sleep wait) as [e|] eqn:Hclock.
          + left. eauto.
          + right. exists [Printed INFO (MsgTwapWaiting wait); Slept wait].
            split.
            { intros h'. unfold bind, print_info, emit, sleep. now rewrite Hclock. }
            cbn. repeat split; auto. lia.
        - apply Z.ltb_ge in Hlt. right. exists []. cbn. repeat split; auto; lia. }
      destruct Hstep as [(e & Hclock & Hlt) |
                         (pace & Hpace & Hq1 & Hq2 & Hq3 & Hq4 & Hq5 & Hq6)].
      * (* the clock refuses the delay *)
        exists (Raise e),
          ([Printed INFO (MsgTwapSlice (Z.of_nat a + 1) n)] ++ out ++
           [Printed INFO (MsgTwapWaiting wait)]).
        split.
        { unfold bind at 1. apply Z.ltb_lt in Hlt. rewrite Hlt.
          unfold bind, print_info, emit, sleep. rewrite Hclock. cbn.
          rewrite ?app_nil_r. reflexivity. }
        read_run. rewrite Hp, Hs, Hf, Hc. cbn.
        repeat split; auto. right. exists e. repeat split; auto.
      * unfold bind at 1. rewrite Hpace.
        match goal with
        | |- context [twap_loop _ _ _ _ _ _ _ _ _ ?os ?h'] =>
            destruct (IH (S a) os h')
              as (r' & out' & Hrun & Hr & Hsl & Hclock & Hend); [lia|]
        end.
        rewrite Hrun.
        exists r', ([Printed INFO (MsgTwapSlice (Z.of_nat a + 1) n)] ++
                    out ++ pace ++ out').
        split; [now destruct r'|].
        read_run. rewrite Hp, Hs, Hf, Hq1, Hq2, Hq3, Hc. cbn.
        split. { constructor; auto. }
        split. { apply Forall_app; auto. }
        split.
        { destruct Hclock as [-> | Hclock]; [|now right].
          rewrite app_nil_r.
          destruct (Z_lt_ge_dec (Z.of_nat a) (n - 1)) as [Hlt | Hge].
          - right. now apply Hq5.
          - left. apply Hq6. lia. }
        destruct Hend as [(-> & Hend) | (e & -> & Hsome & Hlt & _)].
        2:{ (* a delay was taken before: the clock accepts it *)
            destruct (Hq5 ltac:(lia)) as [_ Hnone]. congruence. }
        left. split. { now rewrite <- app_assoc. }
        destruct Hend as [(Hnone & Hall & Hcount & Hslept) |
                          (j & pre & Hj & -> & Hpre & Hpl & Hsp & Hrc & Hrc1 & Hrc0)].
        -- left. rewrite Hnone, Hall, Hcount, Hslept.
           repeat split; auto.
           destruct (Z_lt_ge_dec (Z.of_nat a) (n - 1)) as [Hlt | Hge].
           ++ destruct (Hq5 Hlt) as [-> _]. lia.
           ++ rewrite (Hq6 ltac:(lia)). cbn. lia.
        -- right. exists j, ([Printed INFO (MsgTwapSlice (Z.of_nat a + 1) n)] ++
                             out ++ pace ++ pre).
           split; [lia|].
           split. { cbn. now rewrite <- !app_assoc. }
           read_run. rewrite Hp, Hs, Hf, Hq1, Hq2, Hq3, Hc, Hpre, Hpl, Hsp. cbn.
           assert (Hlt : (Z.of_nat a < n - 1)%Z) by lia.
           destruct (Hq5 Hlt) as [-> _].
           repeat split; try lia.
           all: intros; try congruence.
           rewrite Hrc1 by assumption. lia.
Qed.

(** The three ways [place_twap_order] ends: an exception before the loop,
    reported and turned into [None]; the loop, whose list is returned after
    the two closing messages; or an exception out of the loop, reported and
    turned into [None] like the first. *)
Lemma place_twap_order_run (symbol side : string) (total : float) (n d : Z) (h : history) :
  (exists e said,
      place_twap_order_body client tabulate time_sleep symbol side total n d h =
      (Raise e, said) /\
      place_twap_order client tabulate time_sleep symbol side total n d h =
      (Return None, said ++ [Logged ERROR (MsgUnexpected "in TWAP order" e);
                             Printed ERROR (MsgUnexpected "in TWAP order" e)]) /\
      (said = [] \/
       said = [Logged INFO (MsgTwapStarting (upper side) total symbol n d)]) /\
      ((((total <=? 0) = true \/ (n <= 0)%Z \/ (d <= 0)%Z) /\ is_invalid_input e = true) \/
       ((total <=? 0) = false /\ (0 < n)%Z /\ (0 < d)%Z /\
        (float_of_int n = Raise e \/ int_truediv d n = Raise e \/
         int_truediv d 60 = Raise e)))) \/
  (exists qpo wait minutes orders out h',
      (total <=? 0) = false /\ (0 < n)%Z /\ (0 < d)%Z /\
      float_div_int total n = Return qpo /\
      int_truediv d n = Return wait /\
      int_truediv d 60 = Return minutes /\
      twap_loop client tabulate time_sleep symbol (upper side) qpo wait n (range n) [] h' =
      (Return orders, out) /\
      place_twap_order client tabulate time_sleep symbol side total n d h =
      (Return (Some orders),
       [Logged INFO (MsgTwapStarting (upper side) total symbol n d);
        Printed INFO (MsgTwapPlan total symbol n d minutes qpo wait)] ++
       out ++
       [Logged INFO (MsgTwapCompleted (List.length orders) n);
        Printed SUCCESS (MsgTwapCompleted (List.length orders) n)])) \/
  (exists qpo wait minutes e out h',
      (total <=? 0) = false /\ (0 < n)%Z /\ (0 < d)%Z /\
      float_div_int total n = Return qpo /\
      int_truediv d n = Return wait /\
      int_truediv d 60 = Return minutes /\
      twap_loop client tabulate time_sleep symbol (upper side) qpo wait n (range n) [] h' =
      (Raise e, out) /\
      place_twap_order client tabulate time_sleep symbol side total n d h =
      (Return None,
       [Logged INFO (MsgTwapStarting (upper side) total symbol n d);
        Printed INFO (MsgTwapPlan total symbol n d minutes qpo wait)] ++
       out ++
       [Logged ERROR (MsgUnexpected "in TWAP order" e);
        Printed ERROR (MsgUnexpected "in TWAP order" e)])).
Proof.
  unfold place_twap_order, place_twap_order_body, try_except, unexpected, bind, lift,
    raise, ret, logger_info, logger_error, print_info, print_error, print_success, emit.
  rewrite validate_quantity_cases.
  destruct (total <=? 0) eqn:Hq.
  { left. eexists _, []. repeat split; cbn; auto. }
  destruct (n <=? 0)%Z eqn:Hn.
  { apply Z.leb_le in Hn. left. eexists _, []. repeat split; cbn; auto. }
  destruct (d <=? 0)%Z eqn:Hd.
  { apply Z.leb_le in Hd. left. eexists _, []. repeat split; cbn; auto. }
  apply Z.leb_gt in Hn, Hd.
  unfold float_div_int.
  destruct (float_of_int n) as [y|e] eqn:Hy.
  2:{ left. exists e, []. repeat split; cbn; auto 10. }
  replace (n =? 0)%Z with false by (symmetry; apply Z.eqb_neq; lia).
  destruct (int_truediv d n) as [wait|e] eqn:Hw.
  2:{ left. exists e, []. repeat split; cbn; auto 10. }
  destruct (int_truediv d 60) as [minutes|e] eqn:Hm.
  2:{ left. exists e, [Logged INFO (MsgTwapStarting (upper side) total symbol n d)].
      repeat split; cbn; auto 10. }
  right.
  match goal with
  | |- context [twap_loop _ _ _ _ _ ?q ?w _ _ _ ?h'] =>
      destruct (twap_loop client tabulate time_sleep symbol (upper side) q w n
                          (range n) [] h') as [[orders | e] out] eqn:Hrun
  end.
  - left. exists (total / y), wait, minutes, orders, out. eexists.
    repeat (split; [solve [auto] |]).
    split; [exact Hrun|].
    cbn. reflexivity.
  - right. exists (total / y), wait, minutes, e, out. eexists.
    repeat (split; [solve [auto] |]).
    split; [exact Hrun|].
    cbn. rewrite <- ?app_assoc. reflexivity.
Qed.

(** What the loop over the whole of [range(intervals)] did, read off the
    run of the method. *)
Lemma twap_whole_loop (symbol side : string) (qpo wait : float) (n : Z) (h' : history)
  (r : result (list dict)) (out : list event) :
  (0 < n)%Z ->
  twap_loop client tabulate time_sleep symbol (upper side) qpo wait n (range n) [] h' =
  (r, out) ->
  Forall (eq (mkRequest symbol (upper side) "MARKET" None qpo None None))
         (remote_calls out) /\
  Forall (eq wait) (sleeps out) /\
  (sleeps out = [] \/ time_sleep wait = None) /\
  ((r = Return (map snd (placed tabulate out)) /\
    ((failed_suborders out = [] /\ List.length (placed tabulate out) = Z.to_nat n /\
      List.length (remote_calls out) = Z.to_nat n /\
      List.length (sleeps out) = (Z.to_nat n - 1)%nat) \/
     (exists (j : nat) (pre : list event),
         (j < Z.to_nat n)%nat /\
         out = pre ++ [Printed ERROR (MsgTwapOrderFailed (Z.of_nat j + 1))] /\
         failed_suborders pre = [] /\
         List.length (placed tabulate pre) = j /\
         List.length (sleeps pre) = j /\
         (List.length (remote_calls pre) <= j + 1)%nat /\
         ((qpo <=? 0) = false -> List.length (remote_calls pre) = (j + 1)%nat) /\
         ((qpo <=? 0) = true -> j = 0%nat /\ remote_calls pre = [])))) \/
   (exists e,
       r = Raise e /\ time_sleep wait = Some e /\ (2 <= n)%Z /\
       failed_suborders out = [] /\
       List.length (placed tabulate out) = 1%nat /\
       List.length (remote_calls out) = 1%nat /\
       sleeps out = [])).
Proof.
  intros Hn Hloop.
  destruct (twap_loop_run symbol (upper side) qpo wait n (Z.to_nat n) 0 [] h')
    as (r' & out' & Hloop' & Hreq & Hsl & Hclock & Hend); [lia|].
  fold (range n) in Hloop'. rewrite Hloop in Hloop'. injection Hloop' as <- <-.
  rewrite upper_idempotent in Hreq.
  repeat split; auto.
  destruct Hend as [(-> & [(Hnone & Hall & Hcount & Hslept) |
                           (j & pre & Hj & -> & Hpre & Hpl & Hsp & Hrc & Hrc1 & Hrc0)]) |
                    (e & -> & Hsome & Hlt & Hrest)].
  - left. split; [reflexivity|]. left. repeat split; auto. lia.
  - left. split; [reflexivity|]. right. exists j, pre.
    rewrite Nat.sub_0_r in *.
    repeat split; auto; try lia; try (now apply Hrc0).
  - right. exists e. repeat split; try tauto. lia.
Qed.

(** A run of [place_twap_order] that announces a failed sub-order: the
    list returned holds the orders placed before the announcement, one for
    each earlier sub-order; what follows the announcement is the closing
    count, in the log and on the console. *)
Lemma twap_failed_run (symbol side : string) (total : float) (n d : Z) (h : history)
  (pre post : list event) (k : Z) :
  snd (place_twap_order client tabulate time_sleep symbol side total n d h) =
  pre ++ Printed ERROR (MsgTwapOrderFailed k) :: post ->
  exists orders,
    fst (place_twap_order client tabulate time_sleep symbol side total n d h) =
    Return (Some orders) /\
    orders = map snd (placed tabulate pre) /\
    Z.of_nat (List.length orders) = (k - 1)%Z /\
    List.length (sleeps pre) = List.length orders /\
    (List.length (remote_calls pre) <= List.length orders + 1)%nat /\
    post = [Logged INFO (MsgTwapCompleted (List.length orders) n);
            Printed SUCCESS (MsgTwapCompleted (List.length orders) n)].
Proof.
  intros Hcut.
  destruct (place_twap_order_run symbol side total n d h)
    as [(e & said & _ & Hrun & Hsaid & _) |
        [(qpo & wait & minutes & orders & out & h' & _ & Hn & _ & _ & _ & _ & Hloop & Hrun) |
         (qpo & wait & minutes & e & out & h' & _ & Hn & _ & _ & _ & _ & Hloop & Hrun)]];
    rewrite Hrun in *; cbn [fst snd] in *.
  { apply (f_equal failed_suborders) in Hcut. revert Hcut. read_run.
    destruct Hsaid as [-> | ->]; cbn; now destruct (failed_suborders pre). }
  2:{ destruct (twap_whole_loop symbol side qpo wait n h' _ _ Hn Hloop)
        as (_ & _ & _ & [(Hr & _) | (e' & _ & _ & _ & Hnone & _)]); [discriminate|].
      apply (f_equal failed_suborders) in Hcut. revert Hcut. read_run.
      rewrite Hnone. cbn. now destruct (failed_suborders pre). }
  destruct (twap_whole_loop symbol side qpo wait n h' _ _ Hn Hloop)
    as (_ & _ & _ & [(Ho & Hend) | (e' & Hr & _)]); [|discriminate].
  injection Ho as Ho.
  destruct Hend as [(Hnone & _) | (j & pre0 & Hj & -> & Hpre0 & Hpl & Hsp & Hrc & _)].
  { apply (f_equal failed_suborders) in Hcut. revert Hcut. read_run.
    rewrite Hnone. cbn. now destruct (failed_suborders pre). }
  rewrite <- app_assoc in Hcut. cbn [app] in Hcut. symmetry in Hcut.
  match type of Hcut with
  | _ = ?e1 :: ?e2 :: pre0 ++ _ :: ?closing =>
      assert (Hsame : pre = e1 :: e2 :: pre0 /\ k = (Z.of_nat j + 1)%Z /\ post = closing)
        by (apply (cut_at_failure pre post (e1 :: e2 :: pre0) closing k (Z.of_nat j + 1) Hcut);
            [exact Hpre0 | reflexivity]);
      destruct Hsame as (-> & -> & ->)
  end.
  revert Ho. read_run. rewrite ?app_nil_r in *. intros Ho.
  exists orders. split; [reflexivity|].
  fold (placed tabulate pre0) (sleeps pre0) (remote_calls pre0).
  rewrite Ho, length_map, Hpl, Hsp.
  repeat split; auto; lia.
Qed.

(** ** The claims about the synthetic OCO order *)

(** C1, as amended. When the limit leg is placed and the stop-limit leg is
    not, [place_oco_order] returns the order of the limit leg itself, as the
    exchange returned it, and the failure of the stop-limit leg is told in
    a warning on the console, the last thing the run does. *)
Theorem oco_partial_failure_returns_limit_order
  (symbol side : string) (q p sp slp : float) (h : history) :
  leg_placed tabulate "LIMIT"
    (snd (place_oco_order client tabulate symbol side q p sp slp h)) = true ->
  leg_placed tabulate "STOP"
    (snd (place_oco_order client tabulate symbol side q p sp slp h)) = false ->
  exists limit_order before,
    place_oco_order client tabulate symbol side q p sp slp h =
    (Return (Some limit_order), before ++ [Printed WARNING MsgStopLegFailed]) /\
    placed tabulate (before ++ [Printed WARNING MsgStopLegFailed]) =
    [("LIMIT", limit_order)].
Proof.
  destruct (place_oco_order_run symbol side q p sp slp h)
    as (r & out & -> & _ & [(_ & Hp & _) | [(lo & -> & Hp & _ & before & ->)
                                            | (lo & so & _ & Hp & _)]]);
    unfold leg_placed; cbn [snd]; rewrite Hp; cbn; intros Hl Hs; try discriminate.
  exists lo, before. auto.
Qed.

(** C4. When the limit leg is not placed, [place_oco_order] returns [None]
    and no stop order is ever requested: the exchange was called for the
    limit leg at most. *)
Theorem oco_limit_failure_aborts
  (symbol side : string) (q p sp slp : float) (h : history) :
  leg_placed tabulate "LIMIT"
    (snd (place_oco_order client tabulate symbol side q p sp slp h)) = false ->
  fst (place_oco_order client tabulate symbol side q p sp slp h) = Return None /\
  Forall (fun req => req_type req <> "STOP")
    (remote_calls (snd (place_oco_order client tabulate symbol side q p sp slp h))) /\
  (remote_calls (snd (place_oco_order client tabulate symbol side q p sp slp h)) = [] \/
   remote_calls (snd (place_oco_order client tabulate symbol side q p sp slp h)) =
   [limit_leg symbol side q p]).
Proof.
  destruct (place_oco_order_run symbol side q p sp slp h)
    as (r & out & -> & _ & [(-> & Hp & Hc) | [(lo & -> & Hp & _)
                                             | (lo & so & _ & Hp & _)]]);
    unfold leg_placed; cbn [fst snd]; rewrite Hp; cbn; intros Hl; try discriminate.
  repeat split; auto.
  destruct Hc as [-> | ->]; repeat constructor. discriminate.
Qed.

(** What [place_oco_order] asks of the exchange when nothing stops it
    before: the limit leg, and the stop-limit leg after a limit leg that
    was placed. *)
Lemma oco_requests_when_valid (symbol side : string) (q p sp slp : float) (h : history) :
  (q <=? 0) = false -> (q / 2 <=? 0) = false ->
  (p <=? 0) = false -> (sp <=? 0) = false -> (slp <=? 0) = false ->
  remote_calls (snd (place_oco_order client tabulate symbol side q p sp slp h)) =
  limit_leg symbol side q p ::
  (if leg_placed tabulate "LIMIT"
        (snd (place_oco_order client tabulate symbol side q p sp slp h))
   then [stop_leg symbol side q sp slp] else []).
Proof.
  intros Hq Hhalf Hp Hsp Hslp.
  unfold place_oco_order, place_oco_order_body, try_except, unexpected, limit_leg,
    stop_leg, leg_placed, bind, lift, logger_info, logger_error, print_info,
    print_error, print_warning, print_success, emit, ret.
  rewrite validate_quantity_cases, !validate_price_cases, Hq, Hp, Hsp, Hslp.
  cbv beta iota zeta.
  match goal with
  | |- context [place_limit_order _ _ ?s ?sd ?q' ?p' ?h'] =>
      destruct (place_limit_order_run s sd q' p' h') as (rl & outl & Hl & Hsl & Hpl & Hcl)
  end.
  rewrite Hl. cbv beta iota zeta. rewrite upper_idempotent in Hcl.
  destruct Hcl as [(_ & _ & [Hbad | Hbad]) | (Hcl & _)]; try congruence.
  destruct Hpl as [[-> Hpl] | (item & items & -> & Hpl)]; cbv beta iota zeta.
  { cbn [fst snd]. read_run. rewrite Hpl, Hcl. reflexivity. }
  match goal with
  | |- context [place_stop_limit_order _ _ ?s ?sd ?q' ?sp' ?lp' ?h'] =>
      destruct (place_stop_limit_order_run s sd q' sp' lp' h')
        as (rs & outs & Hs & Hss & Hps & Hcs)
  end.
  rewrite Hs. cbv beta iota zeta. rewrite upper_idempotent in Hcs.
  destruct Hcs as [(_ & _ & [Hbad | [Hbad | Hbad]]) | (Hcs & _)]; try congruence.
  destruct Hps as [[-> Hps] | (item' & items' & -> & Hps)]; cbv beta iota zeta;
    cbn [fst snd]; read_run; rewrite Hpl, Hcl, Hcs; reflexivity.
Qed.

(** C7, as amended. Whatever the input, the exchange is asked for the
    limit leg first and then for the stop-limit leg, each with half the
    quantity, and for nothing else: the requests of a run are the first
    none, one or two of these. When the quantity, its half and the three
    prices pass the validators, the limit leg is requested, and the
    stop-limit leg is requested after it exactly when the limit leg was
    placed. *)
Theorem oco_halves_quantity
  (symbol side : string) (q p sp slp : float) (h : history) :
  is_prefix_of
    (remote_calls (snd (place_oco_order client tabulate symbol side q p sp slp h)))
    [limit_leg symbol side q p; stop_leg symbol side q sp slp] /\
  req_quantity (limit_leg symbol side q p) = q / 2 /\
  req_quantity (stop_leg symbol side q sp slp) = q / 2 /\
  ((q <=? 0) = false -> (q / 2 <=? 0) = false ->
   (p <=? 0) = false -> (sp <=? 0) = false -> (slp <=? 0) = false ->
   remote_calls (snd (place_oco_order client tabulate symbol side q p sp slp h)) =
   limit_leg symbol side q p ::
   (if leg_placed tabulate "LIMIT"
         (snd (place_oco_order client tabulate symbol side q p sp slp h))
    then [stop_leg symbol side q sp slp] else [])).
Proof.
  split; [|split; [reflexivity | split; [reflexivity|]]].
  - destruct (place_oco_order_run symbol side q p sp slp h)
      as (r & out & -> & _ & Hends).
    cbn [snd]. unfold is_prefix_of.
    destruct Hends as [(_ & _ & [-> | ->]) | [(lo & _ & _ & [-> | ->] & _)
                                             | (lo & so & _ & _ & ->)]];
      eexists; cbn; reflexivity.
  - apply oco_requests_when_valid.
Qed.

(** ** The claims about the time-sliced order *)


(** C3, as amended. When a run stops at a failed sub-order, the value
    returned is the list of the orders placed before it and nothing else;
    the count of executed and requested orders is written to the log and
    to the console, the last two things the run does. *)
Theorem twap_failure_returns_list_and_reports_count
  (symbol side : string) (total : float) (n d : Z) (h : history)
  (pre post : list event) (k : Z) :
  snd (place_twap_order client tabulate time_sleep symbol side total n d h) =
  pre ++ Printed ERROR (MsgTwapOrderFailed k) :: post ->
  fst (place_twap_order client tabulate time_sleep symbol side total n d h) =
  Return (Some (map snd (placed tabulate pre))) /\
  post = [Logged INFO (MsgTwapCompleted (List.length (placed tabulate pre)) n);
          Printed SUCCESS (MsgTwapCompleted (List.length (placed tabulate pre)) n)].
Proof.
  intros Hcut.
  destruct (twap_failed_run symbol side total n d h pre post k Hcut)
    as (orders & Hr & -> & _ & _ & _ & ->).
  rewrite length_map. auto.
Qed.

(** C5. With a number of intervals or a duration that is not positive, the
    body of [place_twap_order] raises [ValueError], the method returns
    [None], and the run neither calls the exchange nor sleeps. *)
Theorem twap_rejects_nonpositive_plan
  (symbol side : string) (total : float) (n d : Z) (h : history) :
  (n <= 0)%Z \/ (d <= 0)%Z ->
  raises_invalid_input
    (fst (place_twap_order_body client tabulate time_sleep symbol side total n d h)) = true /\
  fst (place_twap_order client tabulate time_sleep symbol side total n d h) = Return None /\
  remote_calls (snd (place_twap_order client tabulate time_sleep symbol side total n d h)) = [] /\
  sleeps (snd (place_twap_order client tabulate time_sleep symbol side total n d h)) = [].
Proof.
  intros Hbad.
  destruct (place_twap_order_run symbol side total n d h)
    as [(e & said & -> & -> & Hsaid & [[_ He] | (_ & Hn & Hd & _)]) |
        [(qpo & wait & minutes & orders & out & h' & _ & Hn & Hd & _) |
         (qpo & wait & minutes & e & out & h' & _ & Hn & Hd & _)]];
    try lia.
  cbn [fst snd]. destruct Hsaid as [-> | ->]; auto.
Qed.

(** C6. When a run returns a list, the quantity of a sub-order is
    [total / intervals] and the wait is [duration / intervals]: both are
    printed in the plan; the requests to the exchange are [k] market orders
    for that quantity, and the delays taken are [k - 1] waits of that
    length. At least one order is requested when the quantity of a
    sub-order passes the validator, and [k] is the number of intervals when
    no sub-order is announced as failed. For a total of 1.0 in 5 intervals
    over 300 seconds on an exchange that takes every order: five orders of
    0.2 and four delays of 60.0. *)
Theorem twap_slices_evenly
  (symbol side : string) (total : float) (n d : Z) (h : history)
  (orders : list dict) :
  fst (place_twap_order client tabulate time_sleep symbol side total n d h) =
  Return (Some orders) ->
  exists qpo wait minutes k,
    float_div_int total n = Return qpo /\
    int_truediv d n = Return wait /\
    In (Printed INFO (MsgTwapPlan total symbol n d minutes qpo wait))
       (snd (place_twap_order client tabulate time_sleep symbol side total n d h)) /\
    remote_calls (snd (place_twap_order client tabulate time_sleep symbol side total n d h)) =
    repeat (mkRequest symbol (upper side) "MARKET" None qpo None None) k /\
    sleeps (snd (place_twap_order client tabulate time_sleep symbol side total n d h)) =
    repeat wait (k - 1) /\
    (Z.of_nat k <= n)%Z /\
    ((qpo <=? 0) = false -> (1 <= k)%nat) /\
    (failed_suborders
       (snd (place_twap_order client tabulate time_sleep symbol side total n d h)) = [] ->
     Z.of_nat k = n /\ List.length orders = k) /\
    orders =
    map snd (placed tabulate
               (snd (place_twap_order client tabulate time_sleep symbol side total n d h))).
Proof.
  intros Hret.
  destruct (place_twap_order_run symbol side total n d h)
    as [(e & said & _ & Hrun & _) |
        [(qpo & wait & minutes & orders' & out & h' & _ & Hn & _ & Hq & Hw & _ & Hloop & Hrun) |
         (qpo & wait & minutes & e & out & h' & _ & _ & _ & _ & _ & _ & _ & Hrun)]];
    rewrite Hrun in *; try discriminate.
  cbn [fst snd] in *. injection Hret as <-.
  destruct (twap_whole_loop symbol side qpo wait n h' _ _ Hn Hloop)
    as (Hreq & Hsl & _ & [(Ho & Hend) | (e' & Hr & _)]); [|discriminate].
  injection Ho as Ho.
  apply Forall_eq_repeat in Hreq, Hsl.
  match goal with
  | |- context [remote_calls ?r] => set (run := r)
  end.
  assert (Hin : In (Printed INFO (MsgTwapPlan total symbol n d minutes qpo wait)) run)
    by (subst run; cbn; auto).
  assert (Hc : remote_calls run = remote_calls out)
    by (subst run; rewrite !remote_calls_app; cbn; now rewrite app_nil_r).
  assert (Hs : sleeps run = sleeps out)
    by (subst run; rewrite !sleeps_app; cbn; now rewrite app_nil_r).
  assert (Hf : failed_suborders run = failed_suborders out)
    by (subst run; rewrite !failed_suborders_app; cbn; now rewrite app_nil_r).
  assert (Hp : placed tabulate run = placed tabulate out)
    by (subst run; rewrite !placed_app; cbn; now rewrite app_nil_r).
  clearbody run.
  exists qpo, wait, minutes, (List.length (remote_calls out)).
  rewrite Hc, Hs, Hf, Hp, <- Ho.
  split; [exact Hq|]. split; [exact Hw|]. split; [exact Hin|]. split; [exact Hreq|].
  destruct Hend as [(Hnone & Hall & Hcount & Hslept) |
                    (j & pre & Hj & Hout & Hpre & Hpl & Hsp & Hrc & Hrc1 & Hrc0)].
  - replace (List.length (remote_calls out) - 1)%nat with (List.length (sleeps out))
      by lia.
    split; [exact Hsl|]. split; [lia|]. split; [lia|]. split; [|reflexivity].
    intros _. split; [lia|]. now rewrite Ho, length_map, Hall.
  - assert (Hc' : remote_calls out = remote_calls pre)
      by (rewrite Hout, remote_calls_app; cbn; now rewrite app_nil_r).
    assert (Hs' : sleeps out = sleeps pre)
      by (rewrite Hout, sleeps_app; cbn; now rewrite app_nil_r).
    assert (Hf' : failed_suborders out <> [])
      by (rewrite Hout, failed_suborders_app, Hpre; discriminate).
    rewrite Hc', Hs' in *.
    assert (Hk : (List.length (remote_calls pre) - 1 = List.length (sleeps pre))%nat).
    { destruct (qpo <=? 0) eqn:Hvalid.
      - destruct (Hrc0 eq_refl) as [-> Hnocall]. rewrite Hnocall, Hsp. reflexivity.
      - rewrite (Hrc1 eq_refl), Hsp. lia. }
    rewrite Hk.
    split; [exact Hsl|]. split; [lia|].
    split; [intros Hvalid; rewrite (Hrc1 Hvalid); lia|].
    split; [|reflexivity]. intros Hnone. contradiction.
Qed.

(** C10, as amended. [place_twap_order] returns [None] exactly when an
    exception is raised in its [try]: before the loop, when the total
    quantity, the number of intervals or the duration is zero or negative or
    one of the divisions [total / intervals], [duration / intervals],
    [duration / 60] has an operand or a result beyond the floats; or in the
    loop, when the clock refuses the wait [duration / intervals] after the
    first sub-order of at least two was placed. In the first case the
    exchange is never called; in the second one order was placed, and
    [None] is returned all the same. Every other run returns a list of at
    most [intervals] orders, and the empty list when the first sub-order
    fails. *)
Theorem twap_none_iff_exception
  (symbol side : string) (total : float) (n d : Z) (h : history) :
  (fst (place_twap_order client tabulate time_sleep symbol side total n d h) = Return None <->
   ((total <=? 0) = true \/ (n <= 0)%Z \/ (d <= 0)%Z \/
    (exists e, float_of_int n = Raise e) \/
    (exists e, int_truediv d n = Raise e) \/
    (exists e, int_truediv d 60 = Raise e)) \/
   (exists wait e,
       int_truediv d n = Return wait /\ time_sleep wait = Some e /\ (2 <= n)%Z /\
       placed tabulate
         (snd (place_twap_order client tabulate time_sleep symbol side total n d h)) <> [])) /\
  ((total <=? 0) = true \/ (n <= 0)%Z \/ (d <= 0)%Z \/
   (exists e, float_of_int n = Raise e) \/
   (exists e, int_truediv d n = Raise e) \/
   (exists e, int_truediv d 60 = Raise e) ->
   remote_calls (snd (place_twap_order client tabulate time_sleep symbol side total n d h)) = []) /\
  ((exists wait e,
       int_truediv d n = Return wait /\ time_sleep wait = Some e /\ (2 <= n)%Z /\
       placed tabulate
         (snd (place_twap_order client tabulate time_sleep symbol side total n d h)) <> []) ->
   List.length
     (placed tabulate
        (snd (place_twap_order client tabulate time_sleep symbol side total n d h))) = 1%nat /\
   List.length
     (remote_calls
        (snd (place_twap_order client tabulate time_sleep symbol side total n d h))) = 1%nat /\
   sleeps (snd (place_twap_order client tabulate time_sleep symbol side total n d h)) = []) /\
  (fst (place_twap_order client tabulate time_sleep symbol side total n d h) = Return None \/
   exists orders,
     fst (place_twap_order client tabulate time_sleep symbol side total n d h) =
     Return (Some orders) /\
     (Z.of_nat (List.length orders) <= n)%Z) /\
  (forall pre post,
      snd (place_twap_order client tabulate time_sleep symbol side total n d h) =
      pre ++ Printed ERROR (MsgTwapOrderFailed 1) :: post ->
      fst (place_twap_order client tabulate time_sleep symbol side total n d h) =
      Return (Some [])).
Proof.
  assert (Hfirst : forall pre post,
      snd (place_twap_order client tabulate time_sleep symbol side total n d h) =
      pre ++ Printed ERROR (MsgTwapOrderFailed 1) :: post ->
      fst (place_twap_order client tabulate time_sleep symbol side total n d h) =
      Return (Some [])).
  { intros pre post Hcut.
    destruct (twap_failed_run symbol side total n d h pre post 1 Hcut)
      as (orders & Hr & _ & Hk & _).
    rewrite Hr. destruct orders; [reflexivity | cbn in Hk; lia]. }
  destruct (place_twap_order_run symbol side total n d h)
    as [(e & said & _ & Hrun & Hsaid & Hwhy) |
        [(qpo & wait & minutes & orders & out & h' & Hq & Hn & Hd & Hqpo & Hw & Hm & Hloop & Hrun) |
         (qpo & wait & minutes & e & out & h' & Hq & Hn & Hd & Hqpo & Hw & Hm & Hloop & Hrun)]];
    rewrite Hrun in *; cbn [fst snd] in *.
  - (* an exception before the loop *)
    assert (Hnone : placed tabulate
                      (said ++ [Logged ERROR (MsgUnexpected "in TWAP order" e);
                                Printed ERROR (MsgUnexpected "in TWAP order" e)]) = [])
      by (destruct Hsaid as [-> | ->]; reflexivity).
    split; [|split; [|split; [|split]]]; auto.
    + split; [|reflexivity]. intros _. left.
      destruct Hwhy as [[Hbad _] | (_ & _ & _ & [He | [He | He]])];
        [tauto | eauto 10 ..].
    + intros _. rewrite remote_calls_app. now destruct Hsaid as [-> | ->].
    + intros (wait & e' & _ & _ & _ & Hplaced). now rewrite Hnone in Hplaced.
  - (* the loop returned its list *)
    assert (Hy : exists y, float_of_int n = Return y).
    { unfold float_div_int in Hqpo. destruct (float_of_int n); [eauto | discriminate]. }
    destruct Hy as [y Hy].
    destruct (twap_whole_loop symbol side qpo wait n h' _ _ Hn Hloop)
      as (_ & _ & Hclock & [(Ho & Hend) | (e' & Hr & _)]); [|discriminate].
    injection Ho as Ho.
    assert (Hpre : ~ ((total <=? 0) = true \/ (n <= 0)%Z \/ (d <= 0)%Z \/
                      (exists e, float_of_int n = Raise e) \/
                      (exists e, int_truediv d n = Raise e) \/
                      (exists e, int_truediv d 60 = Raise e))).
    { intros [Hbad | [Hbad | [Hbad | [[e He] | [[e He] | [e He]]]]]];
        try congruence; lia. }
    assert (Hno : ~ (exists wait' e,
                        int_truediv d n = Return wait' /\ time_sleep wait' = Some e /\
                        (2 <= n)%Z /\
                        placed tabulate
                          ([Logged INFO (MsgTwapStarting (upper side) total symbol n d);
                            Printed INFO (MsgTwapPlan total symbol n d minutes qpo wait)] ++
                           out ++
                           [Logged INFO (MsgTwapCompleted (List.length orders) n);
                            Printed SUCCESS (MsgTwapCompleted (List.length orders) n)])
                        <> [])).
    { intros (wait' & e & Hw' & Hsome & Htwo & Hplaced).
      rewrite Hw in Hw'. injection Hw' as <-.
      destruct Hclock as [Hquiet | Hok]; [|congruence].
      revert Hplaced. read_run. rewrite ?app_nil_r.
      destruct Hend as [(_ & _ & _ & Hslept) |
                        (j & pre & _ & -> & _ & Hpl & Hsp & _)].
      - rewrite Hquiet in Hslept. cbn in Hslept. lia.
      - revert Hquiet. read_run. rewrite ?app_nil_r. intros Hquiet.
        fold (sleeps pre) in Hquiet. fold (placed tabulate pre).
        rewrite Hquiet in Hsp. cbn in Hsp. subst j.
        destruct (placed tabulate pre); [tauto | discriminate]. }
    split; [|split; [|split; [|split]]]; auto.
    + split; [discriminate|]. intros [Hbad | Hbad]; [now apply Hpre in Hbad|].
      now apply Hno in Hbad.
    + intros Hbad. now apply Hpre in Hbad.
    + intros Hbad. now apply Hno in Hbad.
    + right. exists orders. split; [reflexivity|].
      rewrite Ho, length_map.
      destruct Hend as [(_ & Hall & _) | (j & pre & Hj & -> & _ & Hpl & _)].
      * rewrite Hall. lia.
      * rewrite placed_app, length_app, Hpl. cbn. lia.
  - (* the clock refused the wait *)
    destruct (twap_whole_loop symbol side qpo wait n h' _ _ Hn Hloop)
      as (_ & _ & _ & [(Ho & _) | (e' & Hr & Hsome & Htwo & Hquiet & Hone & Hcall & Hsl)]);
      [discriminate|].
    injection Hr as <-.
    assert (Hcount : List.length
                       (placed tabulate
                          ([Logged INFO (MsgTwapStarting (upper side) total symbol n d);
                            Printed INFO (MsgTwapPlan total symbol n d minutes qpo wait)] ++
                           out ++
                           [Logged ERROR (MsgUnexpected "in TWAP order" e);
                            Printed ERROR (MsgUnexpected "in TWAP order" e)])) = 1%nat)
      by (read_run; rewrite ?app_nil_r; fold (placed tabulate out); lia).
    split; [|split; [|split; [|split]]]; auto.
    + split; [|reflexivity]. intros _. right. exists wait, e.
      repeat split; auto. intros Hnil. rewrite Hnil in Hcount. discriminate.
    + intros [Hbad | [Hbad | [Hbad | [[e1 He] | [[e1 He] | [e1 He]]]]]];
        try congruence; try lia.
      unfold float_div_int in Hqpo. rewrite He in Hqpo. discriminate.
    + intros _. split; [exact Hcount|]. read_run. rewrite ?app_nil_r.
      now rewrite Hcall, Hsl.
Qed.

End Dispatcher.

(** ** The claims on concrete runs *)

(** C1, as stated, fails: on an exchange that takes the limit order and
    rejects the stop order, the value returned is the bare order of the
    limit leg, the very value [place_limit_order] returns for that leg on
    its own; no test of the returned value tells the two apart. *)
Lemma oco_partial_result_is_unflagged :
  leg_placed grid "LIMIT" (snd oco_without_stop) = true /\
  leg_placed grid "STOP" (snd oco_without_stop) = false /\
  fst oco_without_stop =
  Return (Some (new_order 1 (limit_leg "BTCUSDT" "SELL" 1 100))) /\
  fst limit_alone = fst oco_without_stop /\
  (forall flag : result (option dict) -> bool,
      flag (fst oco_without_stop) = flag (fst limit_alone)).
Proof.
  assert (Hsame : fst limit_alone = fst oco_without_stop) by (vm_compute; reflexivity).
  split; [|split; [|split; [|split]]]; try exact Hsame;
    try (intros flag; now rewrite Hsame); vm_compute; reflexivity.
Qed.

Lemma oco_partial_failure_witness :
  exists limit_order before,
    place_oco_order rejecting_stops grid "BTCUSDT" "SELL" 1 100 90 89 [] =
    (Return (Some limit_order), before ++ [Printed WARNING MsgStopLegFailed]) /\
    placed grid (before ++ [Printed WARNING MsgStopLegFailed]) =
    [("LIMIT", limit_order)].
Proof.
  apply (oco_partial_failure_returns_limit_order rejecting_stops grid
           "BTCUSDT" "SELL" 1 100 90 89 []); vm_compute; reflexivity.
Defined.

Lemma oco_limit_failure_witness :
  fst (place_oco_order (rejecting_from 1) grid "BTCUSDT" "SELL" 1 100 90 89 []) =
  Return None /\
  Forall (fun req => req_type req <> "STOP")
    (remote_calls
       (snd (place_oco_order (rejecting_from 1) grid "BTCUSDT" "SELL" 1 100 90 89 []))) /\
  (remote_calls
     (snd (place_oco_order (rejecting_from 1) grid "BTCUSDT" "SELL" 1 100 90 89 [])) = [] \/
   remote_calls
     (snd (place_oco_order (rejecting_from 1) grid "BTCUSDT" "SELL" 1 100 90 89 [])) =
   [limit_leg "BTCUSDT" "SELL" 1 100]).
Proof.
  apply (oco_limit_failure_aborts (rejecting_from 1) grid
           "BTCUSDT" "SELL" 1 100 90 89 []); vm_compute; reflexivity.
Defined.

(** C7, as stated, fails at the smallest quantity above zero: it passes
    the validator, its half rounds to zero and does not, so that
    [place_oco_order] returns [None] and no leg is requested. *)
Lemma oco_half_of_smallest_quantity_is_refused :
  validate_quantity 0x1p-1074 = Return 0x1p-1074 /\
  (0x1p-1074 / 2 <=? 0) = true /\
  fst (place_oco_order accepting grid "BTCUSDT" "SELL" 0x1p-1074 100 90 89 []) =
  Return None /\
  remote_calls
    (snd (place_oco_order accepting grid "BTCUSDT" "SELL" 0x1p-1074 100 90 89 [])) = [].
Proof.
  repeat split; vm_compute; reflexivity.
Qed.

Lemma oco_halves_one :
  remote_calls (snd (place_oco_order accepting grid "BTCUSDT" "SELL" 1 100 90 89 [])) =
  limit_leg "BTCUSDT" "SELL" 1 100 ::
  (if leg_placed grid "LIMIT"
        (snd (place_oco_order accepting grid "BTCUSDT" "SELL" 1 100 90 89 []))
   then [stop_leg "BTCUSDT" "SELL" 1 90 89] else []).
Proof.
  destruct (oco_halves_quantity accepting grid "BTCUSDT" "SELL" 1 100 90 89 [])
    as (_ & _ & _ & Hcalls).
  apply Hcalls; reflexivity.
Defined.

(** Both legs of that order are requested, each for 0.5. *)
Example oco_halves_one_run :
  map req_quantity
      (remote_calls (snd (place_oco_order accepting grid "BTCUSDT" "SELL" 1 100 90 89 []))) =
  [0.5; 0.5] /\
  map req_type
      (remote_calls (snd (place_oco_order accepting grid "BTCUSDT" "SELL" 1 100 90 89 []))) =
  ["LIMIT"; "STOP"].
Proof.
  split; vm_compute; reflexivity.
Qed.

(** Sub-order 3 of 5 fails: two orders are returned, the exchange was
    called three times, and two delays of 60 seconds were taken. *)
Example third_of_five_run :
  exists first second,
    fst third_of_five_fails = Return (Some [first; second]) /\
    List.length (remote_calls (snd third_of_five_fails)) = 3%nat /\
    sleeps (snd third_of_five_fails) = [60; 60] /\
    failed_suborders (snd third_of_five_fails) = [3%Z].
Proof.
  eexists _, _. repeat split; vm_compute; reflexivity.
Qed.


(** C3, as stated, fails: a run of three and a run of five sub-orders that
    both stop at the third return the same value, while their counts, 2/3
    and 2/5, go to the log; no reading of the returned value gives the
    number of orders requested. *)
Lemma twap_result_omits_requested_count :
  failed_suborders (snd third_of_three_fails) = [3%Z] /\
  failed_suborders (snd third_of_five_fails) = [3%Z] /\
  fst third_of_three_fails = fst third_of_five_fails /\
  In (Logged INFO (MsgTwapCompleted 2 3)) (snd third_of_three_fails) /\
  In (Logged INFO (MsgTwapCompleted 2 5)) (snd third_of_five_fails) /\
  (forall count : result (option (list dict)) -> Z * Z,
      count (fst third_of_three_fails) = count (fst third_of_five_fails)).
Proof.
  assert (Hsame : fst third_of_three_fails = fst third_of_five_fails)
    by (vm_compute; reflexivity).
  split; [|split; [|split; [|split; [|split]]]]; try exact Hsame;
    try (intros count; now rewrite Hsame); try (vm_compute; reflexivity);
    vm_compute; tauto.
Qed.

Lemma twap_failure_report_witness :
  fst third_of_five_fails =
  Return (Some (map snd (placed grid (firstn 26 (snd third_of_five_fails))))) /\
  skipn 27 (snd third_of_five_fails) =
  [Logged INFO
     (MsgTwapCompleted (List.length (placed grid (firstn 26 (snd third_of_five_fails)))) 5);
   Printed SUCCESS
     (MsgTwapCompleted (List.length (placed grid (firstn 26 (snd third_of_five_fails)))) 5)].
Proof.
  apply (twap_failure_returns_list_and_reports_count (rejecting_from 3) grid posix_sleep
           "BTCUSDT" "BUY" 5 5 300 []
           (firstn 26 (snd third_of_five_fails))
           (skipn 27 (snd third_of_five_fails)) 3).
  vm_compute; reflexivity.
Defined.

Lemma twap_rejects_zero_intervals :
  raises_invalid_input
    (fst (place_twap_order_body accepting grid posix_sleep "BTCUSDT" "BUY" 1 0 300 [])) = true /\
  fst (place_twap_order accepting grid posix_sleep "BTCUSDT" "BUY" 1 0 300 []) = Return None /\
  remote_calls (snd (place_twap_order accepting grid posix_sleep "BTCUSDT" "BUY" 1 0 300 [])) = [] /\
  sleeps (snd (place_twap_order accepting grid posix_sleep "BTCUSDT" "BUY" 1 0 300 [])) = [].
Proof.
  apply (twap_rejects_nonpositive_plan accepting grid posix_sleep "BTCUSDT" "BUY" 1 0 300 []).
  left. lia.
Defined.

Lemma twap_slices_one_in_five :
  float_div_int 1 5 = Return 0.2 /\
  int_truediv 300 5 = Return 60 /\
  remote_calls (snd (place_twap_order accepting grid posix_sleep "BTCUSDT" "BUY" 1 5 300 [])) =
  repeat (mkRequest "BTCUSDT" "BUY" "MARKET" None 0.2 None None) 5 /\
  sleeps (snd (place_twap_order accepting grid posix_sleep "BTCUSDT" "BUY" 1 5 300 [])) =
  repeat 60 4 /\
  List.length
    (placed grid
       (snd (place_twap_order accepting grid posix_sleep "BTCUSDT" "BUY" 1 5 300 []))) =
  5%nat.
Proof.
  destruct (twap_slices_evenly accepting grid posix_sleep "BTCUSDT" "BUY" 1 5 300 []
              (map snd (placed grid
                 (snd (place_twap_order accepting grid posix_sleep
                         "BTCUSDT" "BUY" 1 5 300 [])))))
    as (qpo & wait & minutes & k & Hq & Hw & _ & Hcalls & Hsleeps & _ & _ & Hall & _).
  { vm_compute. reflexivity. }
  assert (Hqpo : qpo = 0.2) by (vm_compute in Hq; now injection Hq as <-).
  assert (Hwait : wait = 60) by (vm_compute in Hw; now injection Hw as <-).
  destruct Hall as [Hk Hlen]; [vm_compute; reflexivity|].
  assert (Hfive : k = 5%nat) by lia.
  rewrite length_map in Hlen.
  subst qpo wait k. repeat split; assumption.
Defined.

(** The run of [place_twap_order] for 1.0 in 5 intervals over 300 seconds:
    five market orders of 0.2 each, four delays of 60.0 seconds. *)
Example one_in_five_run :
  map req_quantity
      (remote_calls (snd (place_twap_order accepting grid posix_sleep "BTCUSDT" "BUY" 1 5 300 []))) =
  [0.2; 0.2; 0.2; 0.2; 0.2] /\
  sleeps (snd (place_twap_order accepting grid posix_sleep "BTCUSDT" "BUY" 1 5 300 [])) =
  [60; 60; 60; 60].
Proof.
  split; vm_compute; reflexivity.
Qed.

(** C10, as stated, fails: with a positive quantity, a positive duration and
    a positive number of intervals too large for a float, the division
    [total_quantity / intervals] raises [OverflowError] and [None] is
    returned. *)
Lemma twap_none_on_float_overflow :
  (1 <=? 0) = false /\ (0 < 2 ^ 1024)%Z /\ (0 < 300)%Z /\
  place_twap_order accepting grid posix_sleep "BTCUSDT" "BUY" 1 (2 ^ 1024) 300 [] =
  (Return None,
   [Logged ERROR (MsgUnexpected "in TWAP order"
                    (OverflowError "int too large to convert to float"));
    Printed ERROR (MsgUnexpected "in TWAP order"
                     (OverflowError "int too large to convert to float"))]).
Proof.
  repeat split; vm_compute; reflexivity.
Qed.

(** Two sub-orders over 10^11 seconds: the wait of 5 * 10^10 seconds is
    beyond what the clock counts; the first order is placed, [time.sleep]
    raises, and the run returns [None]. *)
Example twap_none_after_an_order :
  int_truediv (10 ^ 11) 2 = Return 5e10 /\
  posix_sleep 5e10 =
  Some (OverflowError "timestamp too large to convert to C _PyTime_t") /\
  fst (place_twap_order accepting grid posix_sleep "BTCUSDT" "BUY" 1 2 (10 ^ 11) []) =
  Return None /\
  remote_calls
    (snd (place_twap_order accepting grid posix_sleep "BTCUSDT" "BUY" 1 2 (10 ^ 11) [])) =
  [mkRequest "BTCUSDT" "BUY" "MARKET" None 0.5 None None] /\
  placed grid
    (snd (place_twap_order accepting grid posix_sleep "BTCUSDT" "BUY" 1 2 (10 ^ 11) [])) =
  [("MARKET", new_order 1 (mkRequest "BTCUSDT" "BUY" "MARKET" None 0.5 None None))] /\
  failed_suborders
    (snd (place_twap_order accepting grid posix_sleep "BTCUSDT" "BUY" 1 2 (10 ^ 11) [])) = [].
Proof.
  repeat split; vm_compute; reflexivity.
Qed.

(** The clock of the examples takes the waits of an ordinary plan. *)
Example posix_sleep_takes_a_minute : posix_sleep 60 = None.
Proof. reflexivity. Qed.

(** When the first sub-order fails the list returned is empty, not [None]. *)
Example first_suborder_fails :
  place_twap_order (rejecting_from 1) grid posix_sleep "BTCUSDT" "BUY" 1 5 300 [] =
  (Return (Some []),
   [Logged INFO (MsgTwapStarting "BUY" 1 "BTCUSDT" 5 300);
    Printed INFO (MsgTwapPlan 1 "BTCUSDT" 5 300 5 0.2 60);
    Printed INFO (MsgTwapSlice 1 5);
    Logged INFO (MsgPlacing "MARKET" "BUY" 0.2 "BTCUSDT" []);
    Printed INFO (MsgPlacing "MARKET" "BUY" 0.2 "BTCUSDT" []);
    CreateOrder (mkRequest "BTCUSDT" "BUY" "MARKET" None 0.2 None None)
                (Raised (BinanceAPIException (-2019) "Margin is insufficient."));
    Logged ERROR (MsgApiError "Margin is insufficient." (-2019));
    Printed ERROR (MsgApiError "Margin is insufficient." (-2019));
    Printed ERROR (MsgTwapOrderFailed 1);
    Logged INFO (MsgTwapCompleted 0 5);
    Printed SUCCESS (MsgTwapCompleted 0 5)]).
Proof.
  vm_compute; reflexivity.
Qed.

(** * More of the code *)

(** ** [validate_symbol] returns a normal form *)

Lemma is_space_upper_char (c : ascii) : is_space (upper_char c) = is_space c.
Proof.
  destruct c as [[] [] [] [] [] [] [] []]; reflexivity.
Qed.

Lemma upper_lstrip (s : string) : upper (lstrip s) = lstrip (upper s).
Proof.
  induction s as [|c s IH]; simpl; [reflexivity|].
  rewrite is_space_upper_char. now destruct (is_space c).
Qed.

Lemma upper_rstrip (s : string) : upper (rstrip s) = rstrip (upper s).
Proof.
  induction s as [|c s IH]; simpl; [reflexivity|].
  rewrite <- IH, is_space_upper_char.
  destruct (rstrip s); simpl; [now destruct (is_space c) | reflexivity].
Qed.

Lemma upper_strip (s : string) : upper (strip s) = strip (upper s).
Proof.
  unfold strip. now rewrite upper_rstrip, upper_lstrip.
Qed.

Lemma rstrip_idempotent (s : string) : rstrip (rstrip s) = rstrip s.
Proof.
  induction s as [|c s IH]; simpl; [reflexivity|].
  destruct (rstrip s) as [|c' kept] eqn:Hs.
  - destruct (is_space c) eqn:Hc; simpl; [reflexivity | now rewrite Hc].
  - change (rstrip (String c (String c' kept)))
      with (match rstrip (String c' kept) with
            | EmptyString => if is_space c then EmptyString else String c EmptyString
            | k => String c k
            end).
    now rewrite IH.
Qed.

(** What [lstrip] leaves is empty or starts with a character that is not
    a space, and [rstrip] keeps such a first character. *)
Lemma lstrip_head (s : string) :
  lstrip s = "" \/ exists c rest, lstrip s = String c rest /\ is_space c = false.
Proof.
  induction s as [|c s IH]; simpl; [now left|].
  destruct (is_space c) eqn:Hc; [exact IH | right; eauto].
Qed.

Lemma rstrip_keeps_head (c : ascii) (rest : string) :
  is_space c = false -> exists kept, rstrip (String c rest) = String c kept.
Proof.
  intros Hc. simpl. destruct (rstrip rest); rewrite ?Hc; eauto.
Qed.

Lemma strip_idempotent (s : string) : strip (strip s) = strip s.
Proof.
  unfold strip.
  destruct (lstrip_head s) as [-> | (c & rest & -> & Hc)]; [reflexivity|].
  destruct (rstrip_keeps_head c rest Hc) as [kept Hk].
  rewrite Hk. simpl lstrip. rewrite Hc, <- Hk. apply rstrip_idempotent.
Qed.

(** X1. A symbol that [validate_symbol] returns is in upper case, has no
    whitespace around it, is at least six characters long, and is
    returned unchanged when validated again. *)
Theorem validate_symbol_returns_normal_form (symbol normal : string) :
  validate_symbol symbol = Return normal ->
  upper normal = normal /\ strip normal = normal /\ (6 <= len normal)%Z /\
  validate_symbol normal = Return normal.
Proof.
  unfold validate_symbol at 1. destruct symbol as [|c rest]; [discriminate|].
  assert (Hup : upper (strip (upper (String c rest))) = strip (upper (String c rest)))
    by now rewrite upper_strip, upper_idempotent.
  assert (Hst := strip_idempotent (upper (String c rest))).
  revert Hup Hst. generalize (strip (upper (String c rest))). intros t Hup Hst.
  destruct (len t <? 6)%Z eqn:Hlen; [discriminate|].
  intros H. injection H as <-. 
  repeat split; auto; [now apply Z.ltb_ge in Hlen|].
  destruct t as [|c' t']; [discriminate|].
  unfold validate_symbol. now rewrite Hup, Hst, Hlen.
Qed.

Lemma validate_symbol_normal_form_witness :
  upper "BTCUSDT" = "BTCUSDT" /\ strip "BTCUSDT" = "BTCUSDT" /\
  (6 <= len "BTCUSDT")%Z /\ validate_symbol "BTCUSDT" = Return "BTCUSDT".
Proof.
  apply (validate_symbol_returns_normal_form "  btcusdt " "BTCUSDT"). reflexivity.
Defined.

(** ** The single-order methods *)

Lemma remote_calls_in (out : list event) (req : request) (rep : reply) :
  In (CreateOrder req rep) out -> In req (remote_calls out).
Proof.
  induction out as [|e out IH]; [easy|].
  intros [-> | Hin]; [now left|].
  unfold remote_calls. simpl. apply in_or_app. right. now apply IH.
Qed.

Lemma placed_in (tabulate : dict -> result string) (out : list event)
  (kind : string) (order : dict) :
  In (kind, order) (placed tabulate out) ->
  exists req, In (CreateOrder req (Returned order)) out /\ req_type req = kind.
Proof.
  induction out as [|e out IH]; [easy|].
  unfold placed. simpl. intros Hin. apply in_app_or in Hin.
  destruct Hin as [Hin | Hin].
  - destruct e as [| | req rep |]; try easy.
    destruct rep as [o | ex]; [|easy]. simpl in Hin.
    destruct (getitem o "orderId"); [|easy].
    destruct (format_order_details tabulate o); [|easy].
    destruct Hin as [Hin | []]. injection Hin as <- <-.
    exists req. split; [now left | reflexivity].
  - destruct (IH Hin) as (req & Hreq & Hk). exists req. split; [now right | exact Hk].
Qed.

Section SingleOrders.

Variable client : history -> request -> reply.
Variable tabulate : dict -> result string.
Variable time_sleep : float -> option exn.

(** The one request of a run, when the order it returned was placed. *)
Lemma only_call_returned (out : list event) (kind : string) (order : dict)
  (req : request) :
  placed tabulate out = [(kind, order)] -> remote_calls out = [req] ->
  In (CreateOrder req (Returned order)) out.
Proof.
  intros Hp Hc.
  destruct (placed_in tabulate out kind order) as (req' & Hin & _);
    [rewrite Hp; now left|].
  assert (Hreq := remote_calls_in out req' _ Hin).
  rewrite Hc in Hreq. destruct Hreq as [-> | []]. exact Hin.
Qed.

(** X2. A quantity or a price that is zero or negative never reaches the
    exchange: each single-order method returns [None] without a call. The
    test is [x <= 0] and nothing else: when it fails for every number,
    which it does for a NaN too, the exchange is called once with the
    numbers as they are. *)
Theorem invalid_numbers_never_reach_exchange
  (symbol side : string) (q p sp lp : float) (h : history) :
  ((q <=? 0) = true ->
   fst (place_market_order client tabulate symbol side q h) = Return None /\
   remote_calls (snd (place_market_order client tabulate symbol side q h)) = []) /\
  ((q <=? 0) = true \/ (p <=? 0) = true ->
   fst (place_limit_order client tabulate symbol side q p h) = Return None /\
   remote_calls (snd (place_limit_order client tabulate symbol side q p h)) = []) /\
  ((q <=? 0) = true \/ (sp <=? 0) = true \/ (lp <=? 0) = true ->
   fst (place_stop_limit_order client tabulate symbol side q sp lp h) = Return None /\
   remote_calls (snd (place_stop_limit_order client tabulate symbol side q sp lp h)) = []) /\
  ((q <=? 0) = false ->
   remote_calls (snd (place_market_order client tabulate symbol side q h)) =
   [mkRequest symbol (upper side) "MARKET" None q None None]) /\
  ((q <=? 0) = false -> (p <=? 0) = false ->
   remote_calls (snd (place_limit_order client tabulate symbol side q p h)) =
   [mkRequest symbol (upper side) "LIMIT" (Some "GTC") q (Some p) None]) /\
  ((q <=? 0) = false -> (sp <=? 0) = false -> (lp <=? 0) = false ->
   remote_calls (snd (place_stop_limit_order client tabulate symbol side q sp lp h)) =
   [mkRequest symbol (upper side) "STOP" (Some "GTC") q (Some lp) (Some sp)]).
Proof.
  split; [|split; [|split; [|split; [|split]]]].
  4:{ intros Hq.
      destruct (place_market_order_run client tabulate symbol side q h)
        as (r & out & -> & _ & _ & _ & [(_ & _ & Hbad) | (Hc & _)]);
        [congruence | exact Hc]. }
  4:{ intros Hq Hp.
      destruct (place_limit_order_run client tabulate symbol side q p h)
        as (r & out & -> & _ & _ & [(_ & _ & [Hbad | Hbad]) | (Hc & _)]);
        [congruence | congruence | exact Hc]. }
  4:{ intros Hq Hsp Hlp.
      destruct (place_stop_limit_order_run client tabulate symbol side q sp lp h)
        as (r & out & -> & _ & _ & [(_ & _ & [Hbad | [Hbad | Hbad]]) | (Hc & _)]);
        [congruence | congruence | congruence | exact Hc]. }
  all: unfold place_market_order, place_market_order_body, place_limit_order,
    place_limit_order_body, place_stop_limit_order, place_stop_limit_order_body,
    try_except, bind, lift;
    rewrite ?validate_quantity_cases, ?validate_price_cases.
  - intros ->. cbn. auto.
  - intros [-> | Hp]; [cbn; auto|].
    destruct (q <=? 0); [cbn; auto|]. rewrite Hp. cbn. auto.
  - intros [-> | [Hp | Hp]]; [cbn; auto | |].
    + destruct (q <=? 0); [cbn; auto|]. rewrite Hp. cbn. auto.
    + destruct (q <=? 0); [cbn; auto|].
      destruct (sp <=? 0); [cbn; auto|]. rewrite Hp. cbn. auto.
Qed.

(** X3. No method of the dispatcher that places orders lets an exception
    out: each run ends with a value, the order or list or [None]. *)
Theorem place_methods_never_raise
  (symbol side : string) (q p sp lp : float) (n d : Z) (h : history) :
  (exists r, fst (place_market_order client tabulate symbol side q h) = Return r) /\
  (exists r, fst (place_limit_order client tabulate symbol side q p h) = Return r) /\
  (exists r, fst (place_stop_limit_order client tabulate symbol side q sp lp h) = Return r) /\
  (exists r, fst (place_oco_order client tabulate symbol side q p sp lp h) = Return r) /\
  (exists r, fst (place_twap_order client tabulate time_sleep symbol side q n d h) = Return r).
Proof.
  destruct (place_market_order_run client tabulate symbol side q h) as (r1 & o1 & -> & _).
  destruct (place_limit_order_run client tabulate symbol side q p h) as (r2 & o2 & -> & _).
  destruct (place_stop_limit_order_run client tabulate symbol side q sp lp h)
    as (r3 & o3 & -> & _).
  destruct (place_oco_order_run client tabulate symbol side q p sp lp h)
    as (r4 & o4 & -> & _).
  destruct (place_twap_order_run client tabulate time_sleep symbol side q n d h)
    as [(e & said & _ & -> & _) |
        [(? & ? & ? & orders & out & ? & _ & _ & _ & _ & _ & _ & _ & ->) |
         (? & ? & ? & e & out & ? & _ & _ & _ & _ & _ & _ & _ & ->)]];
    cbn [fst]; eauto 10.
Qed.

(** X4. When [place_stop_limit_order] returns an order, it called the
    exchange once, for a STOP order, good till cancelled, whose price is
    the limit price and whose stop price is the stop price, and the order
    is the one the exchange returned to that call. *)
Theorem stop_limit_order_is_the_reply
  (symbol side : string) (q sp lp : float) (h : history) (order : dict) :
  fst (place_stop_limit_order client tabulate symbol side q sp lp h) =
  Return (Some order) ->
  remote_calls (snd (place_stop_limit_order client tabulate symbol side q sp lp h)) =
  [mkRequest symbol (upper side) "STOP" (Some "GTC") q (Some lp) (Some sp)] /\
  In (CreateOrder (mkRequest symbol (upper side) "STOP" (Some "GTC") q (Some lp) (Some sp))
                  (Returned order))
     (snd (place_stop_limit_order client tabulate symbol side q sp lp h)).
Proof.
  destruct (place_stop_limit_order_run client tabulate symbol side q sp lp h)
    as (r & out & -> & _ & Hp & Hc). cbn [fst snd]. intros Hr.
  injection Hr as ->.
  destruct Hp as [[Hr _] | (item & items & Hr & Hp)]; [discriminate|].
  injection Hr as ->.
  destruct Hc as [(_ & Hr & _) | (Hc & _)]; [discriminate|].
  split; [exact Hc|]. eapply only_call_returned; eauto.
Qed.

(** A run with one call, read at that call. *)
Lemma placed_of_only_call (out : list event) (req req' : request) (rep : reply) :
  remote_calls out = [req] -> In (CreateOrder req' rep) out ->
  placed tabulate out =
  match taken tabulate rep with
  | Some order => [(req_type req', order)]
  | None => []
  end.
Proof.
  induction out as [|e out IH]; [easy|].
  intros Hc [-> | Hin].
  - unfold remote_calls in Hc. simpl in Hc. injection Hc as _ Hc.
    unfold placed. simpl.
    assert (Hnone : placed tabulate out = []).
    { clear IH. induction out as [|e out IH]; [reflexivity|].
      unfold remote_calls in Hc. simpl in Hc. apply app_eq_nil in Hc.
      destruct Hc as [He Hc]. unfold placed. simpl.
      fold (placed tabulate out). rewrite (IH Hc).
      destruct e; try reflexivity. discriminate He. }
    fold (placed tabulate out). rewrite Hnone. now rewrite app_nil_r.
  - destruct e as [| | req0 rep0 |];
      try (unfold placed; simpl; fold (placed tabulate out); apply IH; assumption).
    unfold remote_calls in Hc. simpl in Hc. injection Hc as _ Hc.
    apply (remote_calls_in out req' rep) in Hin.
    unfold remote_calls in Hin. rewrite Hc in Hin. destruct Hin.
Qed.

(** X5. [None] does not mean that nothing was placed: when the exchange
    returns an order that cannot be reported (it has no ["orderId"], or
    its table does not render), [place_market_order] returns [None]
    although the exchange has taken the order. *)
Theorem market_order_placed_but_unreported
  (symbol side : string) (q : float) (h : history) (req : request) (order : dict) :
  In (CreateOrder req (Returned order))
     (snd (place_market_order client tabulate symbol side q h)) ->
  taken tabulate (Returned order) = None ->
  fst (place_market_order client tabulate symbol side q h) = Return None.
Proof.
  destruct (place_market_order_run client tabulate symbol side q h)
    as (r & out & -> & _ & _ & Hp & Hc). cbn [fst snd]. intros Hin Hno.
  destruct Hc as [(Hc & -> & _) | (Hc & _)]; [reflexivity|].
  destruct Hp as [[-> _] | (item & items & _ & Hp)]; [reflexivity|].
  rewrite (placed_of_only_call out _ req (Returned order) Hc Hin), Hno in Hp.
  discriminate.
Qed.

End SingleOrders.

Lemma stop_limit_order_reply_witness :
  remote_calls (snd (place_stop_limit_order accepting grid "BTCUSDT" "sell" 1 90 89 [])) =
  [mkRequest "BTCUSDT" (upper "sell") "STOP" (Some "GTC") 1 (Some 89) (Some 90)] /\
  In (CreateOrder (mkRequest "BTCUSDT" (upper "sell") "STOP" (Some "GTC") 1 (Some 89) (Some 90))
                  (Returned (new_order 1 (mkRequest "BTCUSDT" "SELL" "STOP" (Some "GTC")
                                                    1 (Some 89) (Some 90)))))
     (snd (place_stop_limit_order accepting grid "BTCUSDT" "sell" 1 90 89 [])).
Proof.
  apply (stop_limit_order_is_the_reply accepting grid "BTCUSDT" "sell" 1 90 89 []).
  vm_compute; reflexivity.
Defined.

(** A NaN is not stopped by the test [x <= 0]: the order is sent with it. *)
Example nan_quantity_reaches_exchange :
  (nan <=? 0) = false /\
  remote_calls (snd (place_market_order accepting grid "BTCUSDT" "BUY" nan [])) =
  [mkRequest "BTCUSDT" "BUY" "MARKET" None nan None None].
Proof.
  split; vm_compute; reflexivity.
Qed.

Lemma market_order_unreported_witness :
  fst (place_market_order forgetful grid "BTCUSDT" "BUY" 1 []) = Return None.
Proof.
  apply (market_order_placed_but_unreported forgetful grid "BTCUSDT" "BUY" 1 []
           (mkRequest "BTCUSDT" "BUY" "MARKET" None 1 None None)
           [("symbol", PyStr "BTCUSDT"); ("status", PyStr "NEW")]).
  - vm_compute. tauto.
  - reflexivity.
Defined.

(** ** The composite methods *)

Lemma effects_app (a b : list event) : effects (a ++ b) = effects a ++ effects b.
Proof. apply flat_map_app. Qed.

(** A run that calls the exchange once and never sleeps. *)
Lemma effects_of_one_call (out : list event) (req : request) :
  remote_calls out = [req] -> sleeps out = [] -> effects out = [Ordered].
Proof.
  induction out as [|e out IH]; [easy|].
  unfold remote_calls, sleeps, effects. simpl.
  fold (remote_calls out) (sleeps out) (effects out).
  destruct e; simpl; auto; intros Hc Hs; try discriminate.
  injection Hc as _ Hc. f_equal.
  clear IH. induction out as [|e out IH]; [reflexivity|].
  unfold remote_calls, sleeps, effects in *. simpl in *.
  destruct e; simpl in *; auto; discriminate.
Qed.

Lemma effects_of_no_call (out : list event) :
  remote_calls out = [] -> sleeps out = [] -> effects out = [].
Proof.
  induction out as [|e out IH]; [easy|].
  unfold remote_calls, sleeps, effects in *. simpl.
  destruct e; simpl; auto; discriminate.
Qed.

Section Composites.

Variable client : history -> request -> reply.
Variable tabulate : dict -> result string.
Variable time_sleep : float -> option exn.

(** X6. When the stop-limit leg is placed, [place_oco_order] returns the
    dict that names both orders: the limit leg's under ["limit_order"], the
    stop-limit leg's under ["stop_order"], each as the exchange returned it
    to the request of that leg. *)
Theorem oco_both_legs_returns_combined
  (symbol side : string) (q p sp slp : float) (h : history) :
  leg_placed tabulate "STOP"
    (snd (place_oco_order client tabulate symbol side q p sp slp h)) = true ->
  exists limit_order stop_order result,
    fst (place_oco_order client tabulate symbol side q p sp slp h) =
    Return (Some result) /\
    dict_get result "oco_type" = Some (PyStr "MANUAL_OCO") /\
    dict_get result "limit_order" = Some (PyDict limit_order) /\
    dict_get result "stop_order" = Some (PyDict stop_order) /\
    In (CreateOrder (limit_leg symbol side q p) (Returned limit_order))
       (snd (place_oco_order client tabulate symbol side q p sp slp h)) /\
    In (CreateOrder (stop_leg symbol side q sp slp) (Returned stop_order))
       (snd (place_oco_order client tabulate symbol side q p sp slp h)).
Proof.
  destruct (place_oco_order_run client tabulate symbol side q p sp slp h)
    as (r & out & -> & _ & [(_ & Hp & _) | [(lo & _ & Hp & _)
                                            | (lo & so & -> & Hp & Hc)]]);
    unfold leg_placed; cbn [fst snd]; rewrite Hp; cbn; intros Hs; try discriminate.
  exists lo, so, (combined lo so). repeat split.
  - destruct (placed_in tabulate out "LIMIT" lo) as (req & Hin & Hk);
      [rewrite Hp; now left|].
    assert (Hreq := remote_calls_in out req _ Hin). rewrite Hc in Hreq.
    destruct Hreq as [<- | [<- | []]]; [exact Hin | discriminate Hk].
  - destruct (placed_in tabulate out "STOP" so) as (req & Hin & Hk);
      [rewrite Hp; right; now left|].
    assert (Hreq := remote_calls_in out req _ Hin). rewrite Hc in Hreq.
    destruct Hreq as [<- | [<- | []]]; [discriminate Hk | exact Hin].
Qed.

(** X7. [place_oco_order] checks the quantity and the three prices before
    it places anything: when one of them is zero or negative it returns
    [None] and the exchange is not called, for the limit leg either. *)
Theorem oco_invalid_input_places_nothing
  (symbol side : string) (q p sp slp : float) (h : history) :
  (q <=? 0) = true \/ (p <=? 0) = true \/ (sp <=? 0) = true \/ (slp <=? 0) = true ->
  fst (place_oco_order client tabulate symbol side q p sp slp h) = Return None /\
  remote_calls (snd (place_oco_order client tabulate symbol side q p sp slp h)) = [].
Proof.
  unfold place_oco_order, place_oco_order_body, try_except, unexpected, bind, lift.
  rewrite validate_quantity_cases, !validate_price_cases.
  intros Hbad.
  destruct (q <=? 0); [cbn; auto|].
  destruct (p <=? 0); [cbn; auto|].
  destruct (sp <=? 0); [cbn; auto|].
  destruct (slp <=? 0); [cbn; auto|].
  destruct Hbad as [H | [H | [H | H]]]; discriminate H.
Qed.

(** The loop over the last [m] indices of [range(n)], when the quantity
    of a sub-order passes validation: every sub-order calls the exchange,
    and a delay follows every call but the last of the range; a delay that
    the clock refuses ends the loop after the call. *)
Lemma twap_loop_paced (symbol side : string) (qpo wait : float) (n : Z) (m : nat) :
  (qpo <=? 0) = false ->
  forall (a : nat) (orders : list dict) (h : history),
    Z.of_nat (a + m) = n ->
    exists r out k,
      twap_loop client tabulate time_sleep symbol side qpo wait n
                (map Z.of_nat (seq a m)) orders h = (r, out) /\
      effects out = paced k /\ (k <= m)%nat /\ (1 <= m -> 1 <= k)%nat /\
      (forall orders',
          r = Return orders' -> failed_suborders out = [] ->
          k = m /\ List.length orders' = (List.length orders + m)%nat).
Proof.
  intros Hq. induction m as [|m IH]; intros a orders h Hn.
  - exists (Return orders), [], 0%nat. cbn. repeat split; auto; try lia.
    injection H as <-. lia.
  - cbn [seq map twap_loop].
    unfold bind at 1 2. unfold print_info at 1, emit. cbn [fst snd].
    destruct (place_market_order_run client tabulate symbol side qpo
                (h ++ [Printed INFO (MsgTwapSlice (Z.of_nat a + 1) n)]))
      as (r & out & -> & Hs & Hf & Hplaced & Hcalls).
    destruct Hcalls as [(_ & _ & Hbad) | (Hc & _)]; [congruence|].
    assert (He := effects_of_one_call out _ Hc Hs).
    destruct Hplaced as [[-> Hp] | (item & items & -> & Hp)].
    + exists (Return orders),
        (([Printed INFO (MsgTwapSlice (Z.of_nat a + 1) n)] ++ out) ++
         [Printed ERROR (MsgTwapOrderFailed (Z.of_nat a + 1))]), 1%nat.
      split; [reflexivity|].
      rewrite !effects_app, !failed_suborders_app, He. cbn.
      repeat split; try lia; destruct (failed_suborders out); discriminate.
    + cbn [app].
      destruct (Z.of_nat a <? n - 1)%Z eqn:Hlt;
        [destruct (time_sleep wait) as [e|] eqn:Hclock|].
      * (* the clock refuses the delay *)
        exists (Raise e),
          ([Printed INFO (MsgTwapSlice (Z.of_nat a + 1) n)] ++ out ++
           [Printed INFO (MsgTwapWaiting wait)]), 1%nat.
        split.
        { unfold bind, print_info, emit, sleep. rewrite Hclock. cbn.
          rewrite ?app_nil_r. reflexivity. }
        rewrite !effects_app, He. cbn.
        repeat split; try lia; discriminate.
      * assert (Hpace : forall h',
                   (print_info (MsgTwapWaiting wait);; sleep time_sleep wait) h' =
                   (Return tt, [Printed INFO (MsgTwapWaiting wait); Slept wait])).
        { intros h'. unfold bind, print_info, emit, sleep. now rewrite Hclock. }
        unfold bind at 1. rewrite Hpace.
        match goal with
        | |- context [twap_loop _ _ _ _ _ _ _ _ _ ?os ?h'] =>
            destruct (IH (S a) os h')
              as (r' & out' & k & Hrun & Hk & Hle & Hpos & Hall); [lia|]
        end.
        rewrite Hrun. apply Z.ltb_lt in Hlt.
        exists r', ([Printed INFO (MsgTwapSlice (Z.of_nat a + 1) n)] ++
                    out ++ [Printed INFO (MsgTwapWaiting wait); Slept wait] ++ out'),
          (S k).
        split; [now destruct r'|].
        rewrite !effects_app, !failed_suborders_app, He, Hk, Hf.
        cbn [app effects flat_map].
        destruct k as [|k]; [lia|].
        split; [reflexivity|]. split; [lia|]. split; [lia|].
        intros orders' -> Hnone. cbn in Hnone.
        destruct (Hall orders' eq_refl Hnone) as [Hk' Hlen].
        split; [lia|]. rewrite Hlen, length_app. cbn. lia.
      * unfold bind at 1. unfold ret at 1.
        match goal with
        | |- context [twap_loop _ _ _ _ _ _ _ _ _ ?os ?h'] =>
            destruct (IH (S a) os h')
              as (r' & out' & k & Hrun & Hk & Hle & Hpos & Hall); [lia|]
        end.
        rewrite Hrun. apply Z.ltb_ge in Hlt.
        assert (m = 0)%nat by lia. subst m. assert (k = 0)%nat by lia. subst k.
        exists r', ([Printed INFO (MsgTwapSlice (Z.of_nat a + 1) n)] ++ out ++ out'),
          1%nat.
        split; [now destruct r'|].
        rewrite !effects_app, !failed_suborders_app, He, Hk, Hf. cbn.
        repeat split; try lia.
        all: cbn in *; injection Hrun as <- <-; injection H as <-;
          rewrite length_app; cbn; lia.
Qed.

(** X8. The orders of a time-sliced run are paced: what the run does to the
    exchange and the clock is an order, a delay, an order, a delay and so
    on, ending with an order; never two orders without a delay between
    them, never a delay that no order follows, and never more orders than
    intervals. A run that returns a list and announces no failure has
    placed exactly [intervals] orders with [intervals - 1] delays. *)
Theorem twap_orders_are_paced
  (symbol side : string) (total : float) (n d : Z) (h : history) :
  exists k,
    effects (snd (place_twap_order client tabulate time_sleep symbol side total n d h)) =
    paced k /\
    (Z.of_nat k <= Z.max 0 n)%Z /\
    (forall orders,
        fst (place_twap_order client tabulate time_sleep symbol side total n d h) =
        Return (Some orders) ->
        failed_suborders
          (snd (place_twap_order client tabulate time_sleep symbol side total n d h)) = [] ->
        Z.of_nat k = n /\ List.length orders = k).
Proof.
  destruct (place_twap_order_run client tabulate time_sleep symbol side total n d h)
    as [(e & said & _ & -> & Hsaid & _) |
        [(qpo & wait & minutes & orders & out & h' & _ & Hn & _ & _ & _ & _ & Hloop & ->) |
         (qpo & wait & minutes & e & out & h' & _ & Hn & _ & _ & _ & _ & Hloop & ->)]];
    cbn [fst snd].
  { exists 0%nat. rewrite effects_app. destruct Hsaid as [-> | ->]; cbn.
    all: repeat split; try lia; discriminate. }
  - destruct (qpo <=? 0) eqn:Hq.
    + (* the first sub-order is stopped by the validator *)
      assert (Hrange : range n = 0%Z :: map Z.of_nat (seq 1 (Z.to_nat n - 1))).
      { unfold range. destruct (Z.to_nat n) as [|m] eqn:Hm; [lia|].
        cbn. now rewrite Nat.sub_0_r. }
      rewrite Hrange in Hloop.
      destruct (place_market_order_run client tabulate symbol (upper side) qpo
                  (h' ++ [Printed INFO (MsgTwapSlice (0 + 1) n)]))
        as (r & outm & Hm & Hs & _ & _ & Hcalls).
      destruct Hcalls as [(Hc & -> & _) | (_ & Hgood)]; [|congruence].
      rewrite (twap_loop_breaks_on_failure client tabulate time_sleep
                 _ _ _ _ _ _ _ _ _ _ Hm) in Hloop.
      injection Hloop as <- <-.
      exists 0%nat.
      pose proof (effects_of_no_call outm Hc Hs) as He.
      unfold effects, failed_suborders in *.
      repeat (rewrite ?flat_map_app; cbn [flat_map app]). rewrite He. cbn.
      repeat split; try lia.
      all: match goal with
           | Habs : _ ++ [] = [] |- _ =>
               rewrite app_nil_r in Habs; apply app_eq_nil in Habs;
               destruct Habs; discriminate
           end.
    + destruct (twap_loop_paced symbol (upper side) qpo wait n (Z.to_nat n) Hq 0 [] h')
        as (r' & out' & k & Hrun & Hk & Hle & _ & Hall); [lia|].
      fold (range n) in Hrun. rewrite Hloop in Hrun. injection Hrun as <- <-.
      exists k. rewrite !effects_app, !failed_suborders_app, Hk. cbn.
      rewrite app_nil_r. split; [reflexivity | split; [lia|]].
      intros orders' Ho Hnone. injection Ho as <-. rewrite app_nil_r in Hnone.
      destruct (Hall orders eq_refl Hnone) as [-> ->]. split; [lia | reflexivity].
  - (* the clock refused the wait after the first order *)
    destruct (qpo <=? 0) eqn:Hq.
    + assert (Hrange : range n = 0%Z :: map Z.of_nat (seq 1 (Z.to_nat n - 1))).
      { unfold range. destruct (Z.to_nat n) as [|m] eqn:Hm; [lia|].
        cbn. now rewrite Nat.sub_0_r. }
      rewrite Hrange in Hloop.
      destruct (place_market_order_run client tabulate symbol (upper side) qpo
                  (h' ++ [Printed INFO (MsgTwapSlice (0 + 1) n)]))
        as (r & outm & Hm & Hs & _ & _ & Hcalls).
      destruct Hcalls as [(Hc & -> & _) | (_ & Hgood)]; [|congruence].
      rewrite (twap_loop_breaks_on_failure client tabulate time_sleep
                 _ _ _ _ _ _ _ _ _ _ Hm) in Hloop.
      discriminate.
    + destruct (twap_loop_paced symbol (upper side) qpo wait n (Z.to_nat n) Hq 0 [] h')
        as (r' & out' & k & Hrun & Hk & Hle & _ & Hall); [lia|].
      fold (range n) in Hrun. rewrite Hloop in Hrun. injection Hrun as <- <-.
      exists k. rewrite !effects_app, Hk. cbn.
      rewrite app_nil_r. split; [reflexivity | split; [lia | discriminate]].
Qed.

(** X9. When a run returns a list and [total / intervals] is zero or
    negative (the share of a total above zero that is too small to be
    divided rounds to zero), the first sub-order is stopped by the
    validator: the list is empty, sub-order 1 is announced as failed and
    the exchange is never called. *)
Theorem twap_share_rounding_to_zero_places_nothing
  (symbol side : string) (total : float) (n d : Z) (h : history)
  (orders : list dict) (qpo : float) :
  fst (place_twap_order client tabulate time_sleep symbol side total n d h) = Return (Some orders) ->
  float_div_int total n = Return qpo ->
  (qpo <=? 0) = true ->
  orders = [] /\
  remote_calls (snd (place_twap_order client tabulate time_sleep symbol side total n d h)) = [] /\
  failed_suborders (snd (place_twap_order client tabulate time_sleep symbol side total n d h)) = [1%Z].
Proof.
  destruct (place_twap_order_run client tabulate time_sleep symbol side total n d h)
    as [(e & said & _ & -> & _) |
        [(qpo' & wait & minutes & orders' & out & h' & _ & Hn & _ & Hq' & _ & _ & Hloop & ->) |
         (qpo' & wait & minutes & e & out & h' & _ & Hn & _ & Hq' & _ & _ & Hloop & ->)]];
    cbn [fst snd]; try discriminate.
  intros Ho Hqpo Hq. injection Ho as ->. rewrite Hq' in Hqpo. injection Hqpo as ->.
  assert (Hrange : range n = 0%Z :: map Z.of_nat (seq 1 (Z.to_nat n - 1))).
  { unfold range. destruct (Z.to_nat n) as [|m] eqn:Hm; [lia|].
    cbn. now rewrite Nat.sub_0_r. }
  rewrite Hrange in Hloop.
  destruct (place_market_order_run client tabulate symbol (upper side) qpo
              (h' ++ [Printed INFO (MsgTwapSlice (0 + 1) n)]))
    as (r & outm & Hm & _ & Hf & _ & Hcalls).
  destruct Hcalls as [(Hc & -> & _) | (_ & Hgood)]; [|congruence].
  rewrite (twap_loop_breaks_on_failure client tabulate time_sleep _ _ _ _ _ _ _ _ _ _ Hm) in Hloop.
  injection Hloop as <- <-.
  unfold remote_calls, failed_suborders in *.
  repeat (rewrite ?flat_map_app; cbn [flat_map app]). rewrite Hc, Hf. cbn. auto.
Qed.

End Composites.

Lemma oco_both_legs_witness :
  exists limit_order stop_order result,
    fst (place_oco_order accepting grid "BTCUSDT" "SELL" 1 100 90 89 []) =
    Return (Some result) /\
    dict_get result "oco_type" = Some (PyStr "MANUAL_OCO") /\
    dict_get result "limit_order" = Some (PyDict limit_order) /\
    dict_get result "stop_order" = Some (PyDict stop_order) /\
    In (CreateOrder (limit_leg "BTCUSDT" "SELL" 1 100) (Returned limit_order))
       (snd (place_oco_order accepting grid "BTCUSDT" "SELL" 1 100 90 89 [])) /\
    In (CreateOrder (stop_leg "BTCUSDT" "SELL" 1 90 89) (Returned stop_order))
       (snd (place_oco_order accepting grid "BTCUSDT" "SELL" 1 100 90 89 [])).
Proof.
  apply (oco_both_legs_returns_combined accepting grid "BTCUSDT" "SELL" 1 100 90 89 []).
  vm_compute; reflexivity.
Defined.

Lemma oco_invalid_stop_price_witness :
  fst (place_oco_order accepting grid "BTCUSDT" "SELL" 1 100 (-90) 89 []) = Return None /\
  remote_calls (snd (place_oco_order accepting grid "BTCUSDT" "SELL" 1 100 (-90) 89 [])) = [].
Proof.
  apply (oco_invalid_input_places_nothing accepting grid "BTCUSDT" "SELL" 1 100 (-90) 89 []).
  right; right; left. reflexivity.
Defined.

Lemma twap_tiny_total_witness :
  @nil dict = [] /\
  remote_calls (snd (place_twap_order accepting grid posix_sleep "BTCUSDT" "BUY" 0x1p-1074 2 300 [])) = [] /\
  failed_suborders (snd (place_twap_order accepting grid posix_sleep "BTCUSDT" "BUY" 0x1p-1074 2 300 []))
  = [1%Z].
Proof.
  apply (twap_share_rounding_to_zero_places_nothing accepting grid posix_sleep
           "BTCUSDT" "BUY" 0x1p-1074 2 300 [] [] 0); vm_compute; reflexivity.
Defined.

(** Five sub-orders that are all placed: order, delay, ..., order. *)
Example five_orders_paced :
  effects (snd (place_twap_order accepting grid posix_sleep "BTCUSDT" "BUY" 1 5 300 [])) =
  [Ordered; Paused; Ordered; Paused; Ordered; Paused; Ordered; Paused; Ordered].
Proof.
  vm_compute; reflexivity.
Qed.

(** ** The console session *)

Module Console.

Import Bot.
Local Open Scope session_scope.

(** *** [get_user_confirmation] *)

(** X10. [get_user_confirmation] is decided by the first line that is an
    answer (yes, y, no or n, in any case, with any whitespace around):
    every line before it is answered by a warning, the lines after it are
    left unread, and the result is [True] exactly for yes and y. *)
Theorem confirmation_is_the_first_answer
  (q : question) (before : list string) (line : string) (rest : list string)
  (h : list cli_event) :
  forallb (fun l => negb (answers l)) before = true ->
  answers line = true ->
  get_user_confirmation q (before ++ line :: rest) h =
  ((Return (affirmative line), rest),
   asked_again q before ++ [Asked (Confirm q) (Some line)]).
Proof.
  revert h. induction before as [|l before IH]; intros h Hbefore Hline.
  - cbn [app get_user_confirmation asked_again flat_map].
    unfold answers, affirmative in *.
    destruct (one_of (strip (lower line)) "yes" "y"); [reflexivity|].
    cbn [orb] in Hline. now rewrite Hline.
  - cbn in Hbefore. apply andb_true_iff in Hbefore. destruct Hbefore as [Hl Hbefore].
    apply negb_true_iff in Hl. unfold answers, affirmative in Hl.
    apply orb_false_iff in Hl. destruct Hl as [Hy Hn].
    cbn [app get_user_confirmation]. rewrite Hy, Hn.
    rewrite (IH _ Hbefore Hline). reflexivity.
Qed.

(** X11. When no line of the input is an answer, [get_user_confirmation]
    never decides: it warns once for each line and ends with [EOFError]
    when the input is used up. *)
Theorem confirmation_without_answer
  (q : question) (inp : list string) (h : list cli_event) :
  forallb (fun l => negb (answers l)) inp = true ->
  get_user_confirmation q inp h =
  ((Raise EOFError, []), asked_again q inp ++ [Asked (Confirm q) None]).
Proof.
  revert h. induction inp as [|l inp IH]; intros h Hno; [reflexivity|].
  cbn in Hno. apply andb_true_iff in Hno. destruct Hno as [Hl Hno].
  apply negb_true_iff in Hl. unfold answers, affirmative in Hl.
  apply orb_false_iff in Hl. destruct Hl as [Hy Hn].
  cbn [get_user_confirmation]. rewrite Hy, Hn, (IH _ Hno).
  cbn [asked_again flat_map app]. reflexivity.
Qed.

Lemma confirmation_first_answer_witness :
  get_user_confirmation ConfirmOrder (["maybe"; ""] ++ " YES " :: ["no"]) [] =
  ((Return (affirmative " YES "), ["no"]),
   asked_again ConfirmOrder ["maybe"; ""] ++ [Asked (Confirm ConfirmOrder) (Some " YES ")]).
Proof.
  apply (confirmation_is_the_first_answer ConfirmOrder ["maybe"; ""] " YES " ["no"] []);
    reflexivity.
Defined.

Lemma confirmation_without_answer_witness :
  get_user_confirmation ConfirmOrder ["ok"; "sure"] [] =
  ((Raise EOFError, []),
   asked_again ConfirmOrder ["ok"; "sure"] ++ [Asked (Confirm ConfirmOrder) None]).
Proof.
  apply (confirmation_without_answer ConfirmOrder ["ok"; "sure"] []). reflexivity.
Defined.

(** *** Actions come after a yes *)

Lemma actions_app (a b : list cli_event) : actions (a ++ b) = actions a ++ actions b.
Proof. apply filter_app. Qed.

Lemma actions_core (out : list event) :
  remote_calls out = [] -> actions (map Core out) = [].
Proof.
  induction out as [|e out IH]; [reflexivity|].
  unfold remote_calls. simpl. destruct e; simpl; auto; discriminate.
Qed.

Lemma guarded_true (out : list cli_event) : guarded true out = true.
Proof.
  induction out as [|e out IH]; [reflexivity|].
  cbn. now rewrite orb_true_r, IH.
Qed.

Lemma guarded_weaken (c : bool) (out : list cli_event) :
  guarded false out = true -> guarded c out = true.
Proof.
  destruct c; [intros _; apply guarded_true | easy].
Qed.

Lemma guarded_app (c : bool) (a b : list cli_event) :
  guarded c (a ++ b) = guarded c a && guarded (c || existsb consents a) b.
Proof.
  revert c. induction a as [|e a IH]; intros c.
  - cbn. now rewrite orb_false_r.
  - cbn. rewrite IH, orb_assoc. now rewrite andb_assoc.
Qed.

Lemma guarded_free (c : bool) (out : list cli_event) :
  actions out = [] -> guarded c out = true.
Proof.
  revert c. induction out as [|e out IH]; intros c; [reflexivity|].
  unfold actions. cbn. destruct (acts e); [discriminate|]. intros H.
  cbn. now apply IH.
Qed.

(** What [guarded] says, read at an action. *)
Lemma guarded_after_consent (out : list cli_event) :
  guarded false out = true -> after_consent out.
Proof.
  intros Hg pre e post -> He.
  rewrite guarded_app in Hg. apply andb_true_iff in Hg. destruct Hg as [_ Hg].
  cbn in Hg. rewrite He in Hg. cbn in Hg.
  apply andb_true_iff in Hg. destruct Hg as [Hc _].
  apply existsb_exists in Hc. destruct Hc as (a & Hin & Ha).
  destruct a as [| [w | q] [line |] | | | | | |]; try discriminate.
  exists q, line. auto.
Qed.

Lemma free_ret {A : Type} (a : A) : OrderFree (ret a).
Proof. easy. Qed.

Lemma free_lift {A : Type} (r : result A) : OrderFree (lift r).
Proof. easy. Qed.

Lemma free_emit (e : cli_event) : acts e = false -> OrderFree (emit e).
Proof. intros He inp h. unfold actions. cbn. now rewrite He. Qed.

Lemma free_input (p : prompt) : OrderFree (input p).
Proof. intros [|line rest] h; reflexivity. Qed.

Lemma free_bind {A B : Type} (m : S A) (k : A -> S B) :
  OrderFree m -> (forall a, OrderFree (k a)) -> OrderFree (bind m k).
Proof.
  intros Hm Hk inp h. unfold bind. specialize (Hm inp h).
  destruct (m inp h) as [[[a | e] inp'] out]; cbn [fst snd] in *; [|exact Hm].
  specialize (Hk a inp' (h ++ out)).
  destruct (k a inp' (h ++ out)) as [[r inp''] out']. cbn [fst snd] in *.
  now rewrite actions_app, Hm, Hk.
Qed.

Lemma free_try {A : Type} (body : S A) (handler : exn -> S A) :
  OrderFree body -> (forall e, OrderFree (handler e)) ->
  OrderFree (try_except body handler).
Proof.
  intros Hm Hk inp h. unfold try_except. specialize (Hm inp h).
  destruct (body inp h) as [[[a | e] inp'] out]; cbn [fst snd] in *; [exact Hm|].
  specialize (Hk e inp' (h ++ out)).
  destruct (handler e inp' (h ++ out)) as [[r inp''] out']. cbn [fst snd] in *.
  now rewrite actions_app, Hm, Hk.
Qed.

Lemma free_confirmation (q : question) : OrderFree (get_user_confirmation q).
Proof.
  intros inp. induction inp as [|line rest IH]; intros h; [reflexivity|].
  cbn [get_user_confirmation].
  destruct (one_of (strip (lower line)) "yes" "y"); [reflexivity|].
  destruct (one_of (strip (lower line)) "no" "n"); [reflexivity|].
  specialize (IH (h ++ [Asked (Confirm q) (Some line);
                        Said WARNING (Note "Please enter 'yes' or 'no'")])).
  destruct (get_user_confirmation q rest _) as [[r inp'] out]. exact IH.
Qed.

Lemma guarded_of_free {A : Type} (m : S A) : OrderFree m -> Guarded m.
Proof. intros Hm inp h. apply guarded_free, Hm. Qed.

Lemma guarded_bind {A B : Type} (m : S A) (k : A -> S B) :
  OrderFree m -> (forall a, Guarded (k a)) -> Guarded (bind m k).
Proof.
  intros Hm Hk inp h. unfold bind. specialize (Hm inp h).
  destruct (m inp h) as [[[a | e] inp'] out]; cbn [fst snd] in *; [|now apply guarded_free].
  specialize (Hk a inp' (h ++ out)).
  destruct (k a inp' (h ++ out)) as [[r inp''] out']. cbn [fst snd] in *.
  rewrite guarded_app, (guarded_free _ _ Hm). now apply guarded_weaken.
Qed.

Lemma guarded_try {A : Type} (body : S A) (handler : exn -> S A) :
  Guarded body -> (forall e, OrderFree (handler e)) ->
  Guarded (try_except body handler).
Proof.
  intros Hm Hk inp h. unfold try_except. specialize (Hm inp h).
  destruct (body inp h) as [[[a | e] inp'] out]; cbn [fst snd] in *; [exact Hm|].
  specialize (Hk e inp' (h ++ out)).
  destruct (handler e inp' (h ++ out)) as [[r inp''] out']. cbn [fst snd] in *.
  rewrite guarded_app, Hm. now apply guarded_free.
Qed.

(** When [get_user_confirmation] says yes, a yes was its last event. *)
Lemma confirmation_consents (q : question) (inp : list string) (h : list cli_event) :
  fst (fst (get_user_confirmation q inp h)) = Return true ->
  existsb consents (snd (get_user_confirmation q inp h)) = true.
Proof.
  revert h. induction inp as [|line rest IH]; intros h; [discriminate|].
  cbn [get_user_confirmation].
  destruct (one_of (strip (lower line)) "yes" "y") eqn:Hy.
  { intros _. cbn. unfold affirmative. now rewrite Hy. }
  destruct (one_of (strip (lower line)) "no" "n"); [discriminate|].
  specialize (IH (h ++ [Asked (Confirm q) (Some line);
                        Said WARNING (Note "Please enter 'yes' or 'no'")])).
  destruct (get_user_confirmation q rest _) as [[r inp'] out]. cbn [fst snd] in *.
  intros Hr. cbn [app existsb]. rewrite (IH Hr). now rewrite !orb_true_r.
Qed.

(** Whatever is done after the confirmation is guarded by it. *)
Lemma guarded_confirmed (q : question) (place : S unit) (declined : string) :
  Guarded (confirmed q place declined).
Proof.
  intros inp h. unfold confirmed, bind.
  pose proof (free_confirmation q inp h) as Hfree.
  pose proof (confirmation_consents q inp h) as Hyes.
  destruct (get_user_confirmation q inp h) as [[[yes | e] inp'] out]; cbn [fst snd] in *;
    [|now apply guarded_free].
  destruct yes.
  - destruct (place inp' (h ++ out)) as [[r inp''] out']. cbn.
    rewrite guarded_app, (guarded_free _ _ Hfree), Hyes by reflexivity.
    apply guarded_true.
  - cbn. rewrite app_nil_r || idtac. rewrite guarded_app, (guarded_free _ _ Hfree).
    reflexivity.
Qed.

Section Handlers.

Variable client : exchange.
Variable tabulate : dict -> result string.
Variable parse_float : string -> option float.
Variable parse_int : string -> option Z.
Variable time_sleep : float -> option exn.

Lemma free_call (rep : reply) (e : cli_event) : acts e = false -> OrderFree (call rep e).
Proof. intros He inp h. unfold actions. cbn. now rewrite He. Qed.

Lemma free_api_failed {A : Type} (what : string) (e : exn) :
  OrderFree (@api_failed A what e).
Proof. destruct e; intros inp h; reflexivity. Qed.

Lemma free_handler_failed (what : string) (e : exn) : OrderFree (handler_failed what e).
Proof. destruct e; intros inp h; reflexivity. Qed.

Lemma free_get_current_price (symbol : string) :
  OrderFree (get_current_price client parse_float symbol).
Proof.
  apply free_try.
  - apply free_bind; [intros inp h; reflexivity|]. intros ticker.
    apply free_bind; [apply free_lift|]. intros value.
    apply free_bind; [apply free_lift|]. intros price.
    apply free_bind; [now apply free_emit|]. intros _. apply free_ret.
  - intros e inp h. reflexivity.
Qed.

Lemma free_get_order_status (symbol : string) (order_id : Z) :
  OrderFree (get_order_status client tabulate symbol order_id).
Proof.
  apply free_try; [|apply free_api_failed].
  apply free_bind; [intros inp h; reflexivity|]. intros order.
  apply free_bind; [apply free_lift|]. intros table.
  apply free_bind; [now apply free_emit|]. intros _. apply free_ret.
Qed.

Lemma free_ask_symbol (words : string) : OrderFree (ask_symbol words).
Proof. apply free_bind; [apply free_input | intros; apply free_lift]. Qed.

Lemma free_ask_float (words : string) : OrderFree (ask_float parse_float words).
Proof. apply free_bind; [apply free_input | intros; apply free_lift]. Qed.

Lemma free_ask_int (words : string) : OrderFree (ask_int parse_int words).
Proof. apply free_bind; [apply free_input | intros; apply free_lift]. Qed.

Lemma free_show_current_price (p : option float) : OrderFree (show_current_price p).
Proof.
  destruct p as [x|]; [|apply free_ret]. unfold show_current_price.
  destruct (float_truthy x); [now apply free_emit | apply free_ret].
Qed.

Lemma guarded_with_side (rest : string -> S unit) :
  (forall side, Guarded (rest side)) -> Guarded (with_side rest).
Proof.
  intros Hrest. apply guarded_bind; [apply free_input|]. intros line. cbv zeta.
  destruct (negb (one_of (upper (strip line)) "BUY" "SELL"));
    [apply guarded_of_free; now apply free_emit | apply Hrest].
Qed.

(** The steps of a handler, one after the other. *)
Ltac walk_handler :=
  repeat first
    [ apply guarded_confirmed
    | apply guarded_with_side; intros ?
    | apply guarded_try; [|intros ?; apply free_handler_failed]
    | apply guarded_bind;
      [ first [ apply free_ask_symbol | apply free_ask_float | apply free_ask_int
              | apply free_get_current_price | apply free_show_current_price
              | apply free_lift | apply free_emit; reflexivity ]
      | intros ? ]
    | match goal with
      | |- Guarded (match ?x with _ => _ end) => destruct x
      end
    | apply guarded_of_free; apply free_ret ].

(** X12. No handler of the console acts at the exchange without a yes:
    every order that a handler sends, and the cancellation that
    [handle_cancel_order] sends, comes after a line that
    [get_user_confirmation] took for a yes in that handler's run; the
    handlers of the price and of the order status never act. *)
Theorem handlers_act_after_consent (inp : list string) (h : list cli_event) :
  after_consent (snd (handle_market_order client tabulate parse_float inp h)) /\
  after_consent (snd (handle_limit_order client tabulate parse_float inp h)) /\
  after_consent (snd (handle_stop_limit_order client tabulate parse_float inp h)) /\
  after_consent (snd (handle_oco_order client tabulate parse_float inp h)) /\
  after_consent (snd (handle_twap_order client tabulate parse_float parse_int time_sleep inp h)) /\
  after_consent (snd (handle_cancel_order client parse_int inp h)) /\
  actions (snd (handle_price_command client parse_float inp h)) = [] /\
  actions (snd (handle_order_status client tabulate parse_int inp h)) = [].
Proof.
  repeat split.
  1-6: apply guarded_after_consent.
  - revert inp h. change (Guarded (handle_market_order client tabulate parse_float)).
    unfold handle_market_order. walk_handler.
  - revert inp h. change (Guarded (handle_limit_order client tabulate parse_float)).
    unfold handle_limit_order. walk_handler.
  - revert inp h. change (Guarded (handle_stop_limit_order client tabulate parse_float)).
    unfold handle_stop_limit_order. walk_handler.
  - revert inp h. change (Guarded (handle_oco_order client tabulate parse_float)).
    unfold handle_oco_order. walk_handler.
  - revert inp h.
    change (Guarded (handle_twap_order client tabulate parse_float parse_int time_sleep)).
    unfold handle_twap_order. walk_handler.
  - revert inp h. change (Guarded (handle_cancel_order client parse_int)).
    unfold handle_cancel_order. walk_handler.
  - revert inp h. change (OrderFree (handle_price_command client parse_float)).
    apply free_try; [|intros e; destruct e; now apply free_emit].
    apply free_bind; [apply free_ask_symbol|]. intros symbol.
    apply free_bind; [apply free_get_current_price|]. intros _. apply free_ret.
  - revert inp h. change (OrderFree (handle_order_status client tabulate parse_int)).
    apply free_try; [|intros e; apply free_handler_failed].
    apply free_bind; [now apply free_emit|]. intros _.
    apply free_bind; [apply free_ask_symbol|]. intros symbol.
    apply free_bind; [apply free_ask_int|]. intros order_id.
    apply free_bind; [apply free_get_order_status|]. intros _. apply free_ret.
Qed.

(** *** A handler stops at a bad symbol or side *)

Lemma ask_symbol_rejects (words line : string) (rest : list string)
  (h : list cli_event) (e : exn) :
  validate_symbol (upper (strip line)) = Raise e ->
  ask_symbol words (line :: rest) h = ((Raise e, rest), [Asked (Enter words) (Some line)]).
Proof.
  intros Hbad. unfold ask_symbol, bind, input, lift. now rewrite Hbad.
Qed.

Lemma ask_symbol_accepts (words line symbol : string) (rest : list string)
  (h : list cli_event) :
  validate_symbol (upper (strip line)) = Return symbol ->
  ask_symbol words (line :: rest) h =
  ((Return symbol, rest), [Asked (Enter words) (Some line)]).
Proof.
  intros Hok. unfold ask_symbol, bind, input, lift. now rewrite Hok.
Qed.

(** A failed validation is a [ValueError]. *)
Lemma validate_symbol_raises (s : string) (e : exn) :
  validate_symbol s = Raise e -> exists msg, e = ValueError msg.
Proof.
  unfold validate_symbol. destruct s; [intros H; injection H as <-; eauto|].
  destruct (len _ <? 6)%Z; [intros H; injection H as <-; eauto | discriminate].
Qed.

(** X13. A symbol that [validate_symbol] rejects ends every handler at
    once: nothing is asked of the exchange, not even the price, and no
    further line of the input is read. *)
Theorem handlers_stop_at_bad_symbol
  (line : string) (rest : list string) (h : list cli_event) (e : exn) :
  validate_symbol (upper (strip line)) = Raise e ->
  (remote (snd (handle_price_command client parse_float (line :: rest) h)) = [] /\
   snd (fst (handle_price_command client parse_float (line :: rest) h)) = rest) /\
  (remote (snd (handle_market_order client tabulate parse_float (line :: rest) h)) = [] /\
   snd (fst (handle_market_order client tabulate parse_float (line :: rest) h)) = rest) /\
  (remote (snd (handle_limit_order client tabulate parse_float (line :: rest) h)) = [] /\
   snd (fst (handle_limit_order client tabulate parse_float (line :: rest) h)) = rest) /\
  (remote (snd (handle_stop_limit_order client tabulate parse_float (line :: rest) h)) = [] /\
   snd (fst (handle_stop_limit_order client tabulate parse_float (line :: rest) h)) = rest) /\
  (remote (snd (handle_oco_order client tabulate parse_float (line :: rest) h)) = [] /\
   snd (fst (handle_oco_order client tabulate parse_float (line :: rest) h)) = rest) /\
  (remote (snd (handle_twap_order client tabulate parse_float parse_int time_sleep (line :: rest) h)) = [] /\
   snd (fst (handle_twap_order client tabulate parse_float parse_int time_sleep (line :: rest) h)) = rest) /\
  (remote (snd (handle_order_status client tabulate parse_int (line :: rest) h)) = [] /\
   snd (fst (handle_order_status client tabulate parse_int (line :: rest) h)) = rest) /\
  (remote (snd (handle_cancel_order client parse_int (line :: rest) h)) = [] /\
   snd (fst (handle_cancel_order client parse_int (line :: rest) h)) = rest).
Proof.
  intros Hbad. destruct (validate_symbol_raises _ _ Hbad) as [msg ->].
  unfold handle_price_command, handle_market_order, handle_limit_order,
    handle_stop_limit_order, handle_oco_order, handle_twap_order,
    handle_order_status, handle_cancel_order, try_except.
  unfold bind, print_header, print_info, emit.
  rewrite !(ask_symbol_rejects _ _ _ _ _ Hbad).
  cbn. repeat split; reflexivity.
Qed.

(** X14. After a valid symbol, a side that is neither BUY nor SELL once
    stripped and put in upper case ends every order handler: the exchange
    is not called, not even for the price, and the lines that follow stay
    unread. *)
Theorem handlers_stop_at_bad_side
  (symbol_line side_line symbol : string) (rest : list string) (h : list cli_event) :
  validate_symbol (upper (strip symbol_line)) = Return symbol ->
  one_of (upper (strip side_line)) "BUY" "SELL" = false ->
  let inp := symbol_line :: side_line :: rest in
  (remote (snd (handle_market_order client tabulate parse_float inp h)) = [] /\
   snd (fst (handle_market_order client tabulate parse_float inp h)) = rest) /\
  (remote (snd (handle_limit_order client tabulate parse_float inp h)) = [] /\
   snd (fst (handle_limit_order client tabulate parse_float inp h)) = rest) /\
  (remote (snd (handle_stop_limit_order client tabulate parse_float inp h)) = [] /\
   snd (fst (handle_stop_limit_order client tabulate parse_float inp h)) = rest) /\
  (remote (snd (handle_oco_order client tabulate parse_float inp h)) = [] /\
   snd (fst (handle_oco_order client tabulate parse_float inp h)) = rest) /\
  (remote (snd (handle_twap_order client tabulate parse_float parse_int time_sleep inp h)) = [] /\
   snd (fst (handle_twap_order client tabulate parse_float parse_int time_sleep inp h)) = rest).
Proof.
  intros Hok Hside inp. subst inp.
  unfold handle_market_order, handle_limit_order, handle_stop_limit_order,
    handle_oco_order, handle_twap_order, try_except.
  unfold bind, print_header, print_info, emit.
  rewrite !(ask_symbol_accepts _ _ _ _ _ Hok).
  unfold with_side, bind, input. rewrite Hside.
  cbn. repeat split; reflexivity.
Qed.

(** *** Runs that stop before the confirmation *)

Lemma idle_app (a b : list cli_event) : idle (a ++ b) = idle a && idle b.
Proof. apply forallb_app. Qed.

(** What [idle] says of a run. *)
Lemma idle_spec (out : list cli_event) :
  idle out = true ->
  actions out = [] /\ forall q line, ~ In (Asked (Confirm q) line) out.
Proof.
  induction out as [|e out IH]; [now split|].
  cbn. intros H. apply andb_true_iff in H. destruct H as [He Hout].
  apply andb_true_iff in He. destruct He as [Ha Hc].
  apply negb_true_iff in Ha. apply negb_true_iff in Hc.
  destruct (IH Hout) as [IHa IHc]. split.
  - unfold actions in *. cbn. now rewrite Ha.
  - intros q line [-> | Hin]; [discriminate | exact (IHc q line Hin)].
Qed.

Lemma idle_bind {A B : Type} (Q : A -> Prop) (inp : list string)
  (m : S A) (k : A -> S B) :
  Still m -> IdleOn inp m ->
  (forall h a, fst (fst (m inp h)) = Return a -> Q a) ->
  (forall a, Q a -> IdleOn inp (k a)) ->
  IdleOn inp (bind m k).
Proof.
  intros Hs Hm Hq Hk h. unfold bind.
  specialize (Hs inp h). specialize (Hm h). specialize (Hq h).
  destruct (m inp h) as [[[a | e] inp'] out]; cbn [fst snd] in *; [|exact Hm].
  subst inp'. specialize (Hk a (Hq a eq_refl) (h ++ out)).
  destruct (k a inp (h ++ out)) as [[r inp''] out']. cbn [fst snd] in *.
  now rewrite idle_app, Hm, Hk.
Qed.

Lemma idle_ask {A B : Type} (p : string) (f : string -> result A)
  (inp : list string) (k : A -> S B) :
  (forall line rest a, inp = line :: rest -> f line = Return a -> IdleOn rest (k a)) ->
  IdleOn inp (bind (bind (input (Enter p)) (fun line => lift (f line))) k).
Proof.
  intros Hk h. unfold bind, input, lift.
  destruct inp as [|line rest]; [reflexivity|].
  destruct (f line) as [a | e] eqn:Hf; [|reflexivity].
  specialize (Hk line rest a eq_refl Hf (h ++ [Asked (Enter p) (Some line)] ++ [])).
  destruct (k a rest _) as [[r inp''] out']. cbn [fst snd] in *.
  now rewrite !idle_app, Hk.
Qed.

Lemma idle_try {A : Type} (inp : list string) (body : S A) (handler : exn -> S A) :
  IdleOn inp body -> (forall e inp', IdleOn inp' (handler e)) ->
  IdleOn inp (try_except body handler).
Proof.
  intros Hm Hk h. unfold try_except. specialize (Hm h).
  destruct (body inp h) as [[[a | e] inp'] out]; cbn [fst snd] in *; [exact Hm|].
  specialize (Hk e inp' (h ++ out)).
  destruct (handler e inp' (h ++ out)) as [[r inp''] out']. cbn [fst snd] in *.
  now rewrite idle_app, Hm, Hk.
Qed.

Lemma idle_handler_failed (what : string) (e : exn) (inp : list string) :
  IdleOn inp (handler_failed what e).
Proof. intros h. destruct e; reflexivity. Qed.

Lemma idle_with_side (inp : list string) (R : string -> S unit) :
  (forall line rest, inp = line :: rest -> IdleOn rest (R (upper (strip line)))) ->
  IdleOn inp (with_side R).
Proof.
  intros Hk h. unfold with_side, bind, input.
  destruct inp as [|line rest]; [reflexivity|].
  specialize (Hk line rest eq_refl
                (h ++ [Asked (Enter "Enter side (BUY/SELL): ") (Some line)])).
  destruct (negb (one_of (upper (strip line)) "BUY" "SELL")); [reflexivity|].
  destruct (R _ rest _) as [[r inp''] out']. cbn [fst snd] in *.
  now rewrite idle_app, Hk.
Qed.

(** [get_current_price] calls the ticker once, reads no line and never
    raises; it gives a price only when the reply has one. *)
Lemma get_current_price_run (symbol : string) (inp : list string) (h : list cli_event) :
  let rep := on_symbol_ticker client h symbol in
  exists r said,
    get_current_price client parse_float symbol inp h =
    ((Return r, inp), Ticker symbol rep :: said) /\
    idle said = true /\ remote said = [] /\
    (priceless parse_float rep = true ->
     match r with
     | Some price => float_truthy price = false
     | None => True
     end).
Proof.
  unfold get_current_price, try_except, bind, futures_symbol_ticker, call, lift,
    print_info, logger_error, print_error, emit, ret, priceless.
  destruct (on_symbol_ticker client h symbol) as [ticker | e]; cbn.
  - destruct (getitem ticker "price") as [value | e]; cbn.
    + destruct (float_of_value parse_float value) as [price | e]; cbn.
      * exists (Some price). eexists. repeat split. now intros ->%negb_true_iff.
      * exists None. eexists. repeat split.
    + exists None. eexists. repeat split.
  - exists None. eexists. repeat split.
Qed.

Lemma still_get_current_price (symbol : string) :
  Still (get_current_price client parse_float symbol).
Proof.
  intros inp h. destruct (get_current_price_run symbol inp h) as (r & said & -> & _).
  reflexivity.
Qed.

Lemma idle_get_current_price (symbol : string) (inp : list string) :
  IdleOn inp (get_current_price client parse_float symbol).
Proof.
  intros h. destruct (get_current_price_run symbol inp h) as (r & said & -> & Hi & _).
  exact Hi.
Qed.

Lemma still_emit (e : cli_event) : Still (emit e).
Proof. easy. Qed.

Lemma still_lift {A : Type} (r : result A) : Still (lift r).
Proof. easy. Qed.

Lemma idle_lift {A : Type} (r : result A) (inp : list string) : IdleOn inp (lift r).
Proof. easy. Qed.

Lemma float_div_int_zero (x : float) :
  float_div_int x 0 = Raise (ZeroDivisionError "float division by zero").
Proof. reflexivity. Qed.

(** A print, in a handler: it changes nothing. *)
Ltac skip_print :=
  apply (idle_bind (fun _ => True));
  [apply still_emit | intros ?; reflexivity | easy | intros _ _].

(** X15. [handle_market_order] needs a price to go on: when the ticker
    gives none that counts (the call fails, the reply has no usable price,
    or the price is zero), the handler stops without asking for a
    confirmation and without placing anything, whatever is typed. *)
Theorem market_order_needs_a_price (inp : list string) (h : list cli_event) :
  (forall h' symbol, priceless parse_float (on_symbol_ticker client h' symbol) = true) ->
  actions (snd (handle_market_order client tabulate parse_float inp h)) = [] /\
  forall q line,
    ~ In (Asked (Confirm q) line)
         (snd (handle_market_order client tabulate parse_float inp h)).
Proof.
  intros Hno. apply idle_spec. revert h.
  change (IdleOn inp (handle_market_order client tabulate parse_float)).
  unfold handle_market_order.
  apply idle_try; [|intros; apply idle_handler_failed].
  skip_print.
  apply (idle_ask _ (fun line => validate_symbol (upper (strip line)))).
  intros symbol_line rest symbol _ _.
  apply idle_with_side. intros side_line rest' _.
  apply (idle_ask _ (fun line => float_of_str parse_float (strip line))).
  intros quantity_line rest'' quantity _ _.
  apply (idle_bind (fun r => match r with
                             | Some price => float_truthy price = false
                             | None => True
                             end)).
  - apply still_get_current_price.
  - apply idle_get_current_price.
  - intros h' r Hr.
    destruct (get_current_price_run symbol rest'' h') as (r' & said & Hrun & _ & _ & Hp).
    rewrite Hrun in Hr. injection Hr as <-. apply Hp, Hno.
  - intros [price |] Hp; [rewrite Hp|]; intros h'; reflexivity.
Qed.

(** X16. Zero intervals never reach [place_twap_order]: when the fourth
    line typed to [handle_twap_order] reads as 0, the summary divides by it
    and the handler ends before the confirmation; nothing is placed. *)
Theorem twap_handler_stops_at_zero_intervals
  (symbol_line side_line quantity_line intervals_line : string)
  (rest : list string) (h : list cli_event) :
  parse_int (strip intervals_line) = Some 0%Z ->
  let inp := symbol_line :: side_line :: quantity_line :: intervals_line :: rest in
  actions (snd (handle_twap_order client tabulate parse_float parse_int time_sleep inp h)) = [] /\
  forall q line,
    ~ In (Asked (Confirm q) line)
         (snd (handle_twap_order client tabulate parse_float parse_int time_sleep inp h)).
Proof.
  intros Hzero inp. apply idle_spec. revert h.
  change (IdleOn inp (handle_twap_order client tabulate parse_float parse_int time_sleep)).
  unfold handle_twap_order.
  apply idle_try; [|intros; apply idle_handler_failed].
  do 2 skip_print.
  apply (idle_ask _ (fun line => validate_symbol (upper (strip line)))).
  intros l1 r1 symbol E1 _. injection E1 as <- <-.
  apply idle_with_side. intros l2 r2 E2. injection E2 as <- <-.
  apply (idle_ask _ (fun line => float_of_str parse_float (strip line))).
  intros l3 r3 total E3 _. injection E3 as <- <-.
  apply (idle_ask _ (fun line => int_of_str parse_int (strip line))).
  intros l4 r4 intervals E4 Hn. injection E4 as <- <-.
  unfold int_of_str in Hn. rewrite Hzero in Hn. injection Hn as <-.
  apply (idle_ask _ (fun line => int_of_str parse_int (strip line))).
  intros l5 r5 duration _ _.
  apply (idle_bind (fun _ => True));
    [apply still_get_current_price | apply idle_get_current_price | easy | intros current _].
  do 6 skip_print.
  apply (idle_bind (fun _ => True)); [apply still_lift | apply idle_lift | easy | intros minutes _].
  skip_print.
  apply (idle_bind (fun _ => False)); [apply still_lift | apply idle_lift | | easy].
  intros h' share. unfold lift. cbn [fst]. rewrite float_div_int_zero. discriminate.
Qed.

(** *** Asking about an order and cancelling it *)

Lemma cancel_order_run (symbol : string) (order_id : Z)
  (inp : list string) (h : list cli_event) :
  exists said,
    cancel_order client symbol order_id inp h =
    ((Return match on_cancel_order client h symbol order_id with
             | Returned result => Some result
             | Raised _ => None
             end, inp),
     CancelOrder symbol order_id (on_cancel_order client h symbol order_id) :: said) /\
    remote said = [].
Proof.
  unfold cancel_order, try_except, bind, futures_cancel_order, call, api_failed,
    logger_info, print_success, emit, ret.
  destruct (on_cancel_order client h symbol order_id) as [result | e]; cbn.
  - eexists. split; reflexivity.
  - destruct e; cbn; eexists; split; reflexivity.
Qed.

(** X17. [cancel_order] and [get_order_status] never raise and read no
    input; each calls the exchange exactly once. [cancel_order] returns the
    reply of the exchange as it is, and [None] when the call raised;
    [get_order_status] returns the order it got, and [None] when the call
    raised or the order could not be rendered. *)
Theorem order_queries_call_once (symbol : string) (order_id : Z)
  (inp : list string) (h : list cli_event) :
  (fst (cancel_order client symbol order_id inp h) =
   (Return match on_cancel_order client h symbol order_id with
           | Returned result => Some result
           | Raised _ => None
           end, inp) /\
   remote (snd (cancel_order client symbol order_id inp h)) =
   [CancelOrder symbol order_id (on_cancel_order client h symbol order_id)]) /\
  (fst (get_order_status client tabulate symbol order_id inp h) =
   (Return match on_get_order client h symbol order_id with
           | Returned order =>
               match format_order_details tabulate order with
               | Return _ => Some order
               | Raise _ => None
               end
           | Raised _ => None
           end, inp) /\
   remote (snd (get_order_status client tabulate symbol order_id inp h)) =
   [GetOrder symbol order_id (on_get_order client h symbol order_id)]).
Proof.
  split.
  - destruct (cancel_order_run symbol order_id inp h) as (said & -> & Hs).
    cbn [fst snd]. split; [reflexivity|].
    unfold remote in *. cbn. now rewrite Hs.
  - unfold get_order_status, try_except, bind, futures_get_order, call, api_failed,
      lift, emit, ret.
    destruct (on_get_order client h symbol order_id) as [order | e]; cbn.
    + destruct (format_order_details tabulate order) as [table | e]; cbn;
        [now split|].
      destruct e; cbn; now split.
    + destruct e; cbn; now split.
Qed.

(** X18. With a valid symbol and order id, the first answer to the
    confirmation decides what [handle_cancel_order] does: on a yes it calls
    the exchange once, to cancel the order of that id on that symbol; on a
    no it makes no call at all. *)
Theorem cancel_handler_follows_the_answer
  (symbol_line id_line answer symbol : string) (order_id : Z)
  (rest : list string) (h : list cli_event) :
  validate_symbol (upper (strip symbol_line)) = Return symbol ->
  parse_int (strip id_line) = Some order_id ->
  answers answer = true ->
  let run :=
    handle_cancel_order client parse_int (symbol_line :: id_line :: answer :: rest) h in
  snd (fst run) = rest /\
  exists rep,
    remote (snd run) =
    if affirmative answer then [CancelOrder symbol order_id rep] else [].
Proof.
  intros Hsym Hid Hans run.
  assert (exists r out rep,
             run = ((r, rest), out) /\
             remote out = if affirmative answer
                          then [CancelOrder symbol order_id rep] else []) as
    (r & out & rep & -> & Hout); [|split; [reflexivity | now exists rep]].
  subst run. unfold handle_cancel_order, try_except.
  unfold bind at 1, print_header, emit.
  unfold bind at 1. rewrite (ask_symbol_accepts _ _ _ _ _ Hsym).
  unfold bind at 1, ask_int, int_of_str. unfold bind at 1, input, lift.
  rewrite Hid. unfold confirmed. unfold bind at 1. cbn [get_user_confirmation].
  unfold answers, affirmative in *.
  destruct (one_of (strip (lower answer)) "yes" "y").
  - unfold bind at 1.
    match goal with
    | |- context [cancel_order client symbol order_id ?i ?hh] =>
        destruct (cancel_order_run symbol order_id i hh) as (said & -> & Hs);
        eexists _, _, (on_cancel_order client hh symbol order_id)
    end.
    cbn. split; [reflexivity|]. unfold remote in *. cbn. now rewrite app_nil_r, Hs.
  - cbn in Hans. rewrite Hans. cbn. eexists _, _, (Raised EOFError).
    split; reflexivity.
Qed.

(** *** What the handlers send is what was typed *)

Lemma orders_app (a b : list cli_event) : orders (a ++ b) = orders a ++ orders b.
Proof. unfold orders, cores, remote_calls. now rewrite !flat_map_app. Qed.

Lemma orders_core (out : list event) : orders (map Core out) = remote_calls out.
Proof.
  unfold orders, cores. f_equal.
  induction out as [|e out IH]; [reflexivity|]. cbn. now rewrite IH.
Qed.

Lemma orders_free (out : list cli_event) : actions out = [] -> orders out = [].
Proof.
  induction out as [|e out IH]; [reflexivity|].
  change (e :: out) with ([e] ++ out). rewrite actions_app, orders_app.
  intros [He Hout]%app_eq_nil. rewrite (IH Hout), app_nil_r.
  destruct e as [[] | | | | | | |]; try reflexivity; discriminate.
Qed.

Section Sends.

Variable Q : list request -> Prop.
Hypothesis nothing : Q [].

Lemma sends_free {A : Type} (inp : list string) (m : S A) :
  OrderFree m -> SendsOn Q inp m.
Proof. intros Hm h. now rewrite (orders_free _ (Hm inp h)). Qed.

Lemma sends_bind {A B : Type} (inp : list string) (m : S A) (k : A -> S B) :
  Still m -> OrderFree m -> (forall a, SendsOn Q inp (k a)) -> SendsOn Q inp (bind m k).
Proof.
  intros Hs Hm Hk h. unfold bind.
  specialize (Hs inp h). specialize (Hm inp h).
  destruct (m inp h) as [[[a | e] inp'] out]; cbn [fst snd] in *;
    [|now rewrite (orders_free _ Hm)].
  subst inp'. specialize (Hk a (h ++ out)).
  destruct (k a inp (h ++ out)) as [[r inp''] out']. cbn [fst snd] in *.
  now rewrite orders_app, (orders_free _ Hm).
Qed.

Lemma sends_bind_any {A B : Type} (inp : list string) (m : S A) (k : A -> S B) :
  OrderFree m -> (forall a inp', SendsOn Q inp' (k a)) -> SendsOn Q inp (bind m k).
Proof.
  intros Hm Hk h. unfold bind. specialize (Hm inp h).
  destruct (m inp h) as [[[a | e] inp'] out]; cbn [fst snd] in *;
    [|now rewrite (orders_free _ Hm)].
  specialize (Hk a inp' (h ++ out)).
  destruct (k a inp' (h ++ out)) as [[r inp''] out']. cbn [fst snd] in *.
  now rewrite orders_app, (orders_free _ Hm).
Qed.

Lemma sends_ask {A B : Type} (p : string) (f : string -> result A)
  (inp : list string) (k : A -> S B) :
  (forall line rest a, inp = line :: rest -> f line = Return a -> SendsOn Q rest (k a)) ->
  SendsOn Q inp (bind (bind (input (Enter p)) (fun line => lift (f line))) k).
Proof.
  intros Hk h. unfold bind, input, lift.
  destruct inp as [|line rest]; [exact nothing|].
  destruct (f line) as [a | e] eqn:Hf; [|exact nothing].
  specialize (Hk line rest a eq_refl Hf (h ++ [Asked (Enter p) (Some line)] ++ [])).
  destruct (k a rest _) as [[r inp''] out']. cbn [fst snd] in *.
  now rewrite !orders_app.
Qed.

Lemma sends_with_side (inp : list string) (R : string -> S unit) :
  (forall line rest, inp = line :: rest ->
                     one_of (upper (strip line)) "BUY" "SELL" = true ->
                     SendsOn Q rest (R (upper (strip line)))) ->
  SendsOn Q inp (with_side R).
Proof.
  intros Hk h. unfold with_side, bind, input.
  destruct inp as [|line rest]; [exact nothing|].
  specialize (Hk line rest eq_refl).
  destruct (one_of (upper (strip line)) "BUY" "SELL"); [|exact nothing].
  specialize (Hk eq_refl (h ++ [Asked (Enter "Enter side (BUY/SELL): ") (Some line)])).
  cbn [negb]. destruct (R _ rest _) as [[r inp''] out']. cbn [fst snd] in *.
  now rewrite orders_app.
Qed.

Lemma sends_try {A : Type} (inp : list string) (body : S A) (handler : exn -> S A) :
  SendsOn Q inp body -> (forall e, OrderFree (handler e)) ->
  SendsOn Q inp (try_except body handler).
Proof.
  intros Hm Hk h. unfold try_except. specialize (Hm h).
  destruct (body inp h) as [[[a | e] inp'] out]; cbn [fst snd] in *; [exact Hm|].
  specialize (Hk e inp' (h ++ out)).
  destruct (handler e inp' (h ++ out)) as [[r inp''] out']. cbn [fst snd] in *.
  now rewrite orders_app, (orders_free _ Hk), app_nil_r.
Qed.

(** After the question, the method of the dispatcher runs or does not. *)
Lemma sends_confirmed {A : Type} (q : question) (declined : string) (inp : list string)
  (method : (history -> request -> reply) -> (dict -> result string) -> M A) :
  (forall c h0, Q (remote_calls (snd (method c tabulate h0)))) ->
  SendsOn Q inp
    (confirmed q (bind (order_executor client tabulate method) (fun _ => ret tt)) declined).
Proof.
  intros Hm. apply sends_bind_any; [apply free_confirmation|].
  intros [|] inp' h; [|exact nothing].
  unfold bind, order_executor, ret.
  specialize (Hm (fun done req => on_create_order client (h ++ map Core done) req) []).
  destruct (method _ tabulate []) as [[a | e] out]; cbn [fst snd] in *.
  - now rewrite app_nil_r, orders_core.
  - now rewrite orders_core.
Qed.

End Sends.

Lemma still_show_current_price (p : option float) : Still (show_current_price p).
Proof.
  intros inp h. destruct p as [x|]; [|reflexivity]. unfold show_current_price.
  now destruct (float_truthy x).
Qed.

(** The steps of a handler before the question. *)
Ltac pass_by :=
  repeat (apply sends_bind;
          [ assumption
          | first [ apply still_emit | apply still_get_current_price
                  | apply still_show_current_price | apply still_lift ]
          | first [ apply free_emit; reflexivity | apply free_get_current_price
                  | apply free_show_current_price | apply free_lift ]
          | intros ? ]).

Ltac name_sent sent Q :=
  pattern sent; match goal with |- ?F _ => set (Q := F) end.

Ltac read_line g :=
  apply sends_ask with (f := g); [assumption|].

Ltac read_symbol := read_line (fun line => validate_symbol (upper (strip line))).
Ltac read_float := read_line (fun line => float_of_str parse_float (strip line)).

Lemma float_of_str_inv (s : string) (x : float) :
  float_of_str parse_float s = Return x -> parse_float s = Some x.
Proof.
  unfold float_of_str. destruct (parse_float s); [|discriminate].
  now intros [= ->].
Qed.

(** X19. What an order handler sends is what was typed. Whatever the
    input, the handlers of the market, limit and stop-limit orders send
    nothing or one order, and [handle_oco_order] sends nothing, the limit
    leg, or the limit leg and then the stop-limit leg; an order that is
    sent carries the symbol that [validate_symbol] returned for the first
    line, the side of the second line, stripped and in upper case, and the
    numbers read from the lines after them, in the order of the prompts. *)
Theorem order_handlers_send_what_was_typed (inp : list string) (h : list cli_event) :
  (let sent := orders (snd (handle_market_order client tabulate parse_float inp h)) in
   sent = [] \/
   exists symbol side q rest,
     entered parse_float inp symbol side [q] rest /\
     sent = [mkRequest symbol side "MARKET" None q None None]) /\
  (let sent := orders (snd (handle_limit_order client tabulate parse_float inp h)) in
   sent = [] \/
   exists symbol side q p rest,
     entered parse_float inp symbol side [q; p] rest /\
     sent = [mkRequest symbol side "LIMIT" (Some "GTC") q (Some p) None]) /\
  (let sent := orders (snd (handle_stop_limit_order client tabulate parse_float inp h)) in
   sent = [] \/
   exists symbol side q stop_price limit_price rest,
     entered parse_float inp symbol side [q; stop_price; limit_price] rest /\
     sent = [mkRequest symbol side "STOP" (Some "GTC") q
               (Some limit_price) (Some stop_price)]) /\
  (let sent := orders (snd (handle_oco_order client tabulate parse_float inp h)) in
   sent = [] \/
   exists symbol side q p stop_price stop_limit_price rest,
     entered parse_float inp symbol side [q; p; stop_price; stop_limit_price] rest /\
     (sent = [limit_leg symbol side q p] \/
      sent = [limit_leg symbol side q p;
              stop_leg symbol side q stop_price stop_limit_price])).
Proof.
  repeat split; cbv zeta.
  - name_sent (orders (snd (handle_market_order client tabulate parse_float inp h))) Q.
    assert (HQ : Q []) by now left.
    revert h. change (SendsOn Q inp (handle_market_order client tabulate parse_float)).
    unfold handle_market_order.
    apply sends_try; [|intros; apply free_handler_failed].
    pass_by. read_symbol. intros l1 r1 symbol E1 Hsym.
    apply sends_with_side; [assumption|]. intros l2 r2 E2 Hside.
    read_float. intros l3 r3 q E3 Hq%float_of_str_inv.
    apply sends_bind;
      [assumption | apply still_get_current_price | apply free_get_current_price|].
    intros [price |]; [destruct (float_truthy price)|];
      try (apply sends_free; [assumption | apply free_ret]).
    pass_by. apply sends_confirmed; [assumption|]. intros c h0.
    destruct (place_market_order_run c tabulate symbol (upper (strip l2)) q h0)
      as (r & out & Hrun & _ & _ & _ & Hc).
    rewrite Hrun. cbn [snd]. destruct Hc as [(-> & _) | (-> & _)]; [now left|].
    right. exists symbol, (upper (strip l2)), q, r3. split.
    + exists l1, l2, [l3]. subst. cbn. now rewrite Hq.
    + cbn. now rewrite upper_idempotent.
  - name_sent (orders (snd (handle_limit_order client tabulate parse_float inp h))) Q.
    assert (HQ : Q []) by now left.
    revert h. change (SendsOn Q inp (handle_limit_order client tabulate parse_float)).
    unfold handle_limit_order.
    apply sends_try; [|intros; apply free_handler_failed].
    pass_by. read_symbol. intros l1 r1 symbol E1 Hsym.
    apply sends_with_side; [assumption|]. intros l2 r2 E2 Hside.
    read_float. intros l3 r3 q E3 Hq%float_of_str_inv.
    read_float. intros l4 r4 p E4 Hp%float_of_str_inv.
    pass_by. apply sends_confirmed; [assumption|]. intros c h0.
    destruct (place_limit_order_run c tabulate symbol (upper (strip l2)) q p h0)
      as (r & out & Hrun & _ & _ & Hc).
    rewrite Hrun. cbn [snd]. destruct Hc as [(-> & _) | (-> & _)]; [now left|].
    right. exists symbol, (upper (strip l2)), q, p, r4. split.
    + exists l1, l2, [l3; l4]. subst. cbn. now rewrite Hq, Hp.
    + cbn. now rewrite upper_idempotent.
  - name_sent (orders (snd (handle_stop_limit_order client tabulate parse_float inp h))) Q.
    assert (HQ : Q []) by now left.
    revert h. change (SendsOn Q inp (handle_stop_limit_order client tabulate parse_float)).
    unfold handle_stop_limit_order.
    apply sends_try; [|intros; apply free_handler_failed].
    pass_by. read_symbol. intros l1 r1 symbol E1 Hsym.
    apply sends_with_side; [assumption|]. intros l2 r2 E2 Hside.
    read_float. intros l3 r3 q E3 Hq%float_of_str_inv.
    read_float. intros l4 r4 sp E4 Hsp%float_of_str_inv.
    read_float. intros l5 r5 lp E5 Hlp%float_of_str_inv.
    pass_by. apply sends_confirmed; [assumption|]. intros c h0.
    destruct (place_stop_limit_order_run c tabulate symbol (upper (strip l2)) q sp lp h0)
      as (r & out & Hrun & _ & _ & Hc).
    rewrite Hrun. cbn [snd]. destruct Hc as [(-> & _) | (-> & _)]; [now left|].
    right. exists symbol, (upper (strip l2)), q, sp, lp, r5. split.
    + exists l1, l2, [l3; l4; l5]. subst. cbn. now rewrite Hq, Hsp, Hlp.
    + cbn. now rewrite upper_idempotent.
  - name_sent (orders (snd (handle_oco_order client tabulate parse_float inp h))) Q.
    assert (HQ : Q []) by now left.
    revert h. change (SendsOn Q inp (handle_oco_order client tabulate parse_float)).
    unfold handle_oco_order.
    apply sends_try; [|intros; apply free_handler_failed].
    pass_by. read_symbol. intros l1 r1 symbol E1 Hsym.
    apply sends_with_side; [assumption|]. intros l2 r2 E2 Hside.
    read_float. intros l3 r3 q E3 Hq%float_of_str_inv.
    read_float. intros l4 r4 p E4 Hp%float_of_str_inv.
    read_float. intros l5 r5 sp E5 Hsp%float_of_str_inv.
    read_float. intros l6 r6 slp E6 Hslp%float_of_str_inv.
    pass_by. apply sends_confirmed; [assumption|]. intros c h0.
    assert (Hin : entered parse_float inp symbol (upper (strip l2)) [q; p; sp; slp] r6).
    { exists l1, l2, [l3; l4; l5; l6]. subst. cbn. now rewrite Hq, Hp, Hsp, Hslp. }
    destruct (place_oco_order_run c tabulate symbol (upper (strip l2)) q p sp slp h0)
      as (r & out & Hrun & _ & Hc).
    rewrite Hrun. cbn [snd].
    destruct Hc as [(_ & _ & [-> | ->]) |
                    [(lo & _ & _ & [-> | ->] & _) | (lo & so & _ & _ & ->)]];
      [now left | right ..]; exists symbol, (upper (strip l2)), q, p, sp, slp, r6; auto.
Qed.

Ltac read_int := read_line (fun line => int_of_str parse_int (strip line)).

Lemma int_of_str_inv (s : string) (n : Z) :
  int_of_str parse_int s = Return n -> parse_int s = Some n.
Proof.
  unfold int_of_str. destruct (parse_int s); [|discriminate].
  now intros [= ->].
Qed.

(** The requests of a time-sliced order, on any exchange: none, or market
    orders for the share of one interval. *)
Lemma twap_requests (c : history -> request -> reply) (symbol side : string)
  (total : float) (n d : Z) (h0 : history) :
  remote_calls (snd (place_twap_order c tabulate time_sleep symbol side total n d h0)) = [] \/
  exists share,
    float_div_int total n = Return share /\
    Forall (eq (mkRequest symbol (upper side) "MARKET" None share None None))
           (remote_calls
              (snd (place_twap_order c tabulate time_sleep symbol side total n d h0))).
Proof.
  destruct (place_twap_order_run c tabulate time_sleep symbol side total n d h0)
    as [(e & said & _ & -> & Hsaid & _) |
        [(qpo & wait & minutes & placed_orders & out & h' & _ & Hn & _ & Hq & _ & _ &
          Hloop & ->) |
         (qpo & wait & minutes & e & out & h' & _ & Hn & _ & Hq & _ & _ & Hloop & ->)]];
    cbn [snd].
  - left. rewrite remote_calls_app. destruct Hsaid as [-> | ->]; reflexivity.
  - right. exists qpo. split; [exact Hq|].
    destruct (twap_whole_loop c tabulate time_sleep symbol side qpo wait n h' _ _ Hn Hloop)
      as (Hreq & _).
    rewrite !remote_calls_app. cbn. now rewrite app_nil_r.
  - right. exists qpo. split; [exact Hq|].
    destruct (twap_whole_loop c tabulate time_sleep symbol side qpo wait n h' _ _ Hn Hloop)
      as (Hreq & _).
    rewrite !remote_calls_app. cbn. now rewrite app_nil_r.
Qed.

(** X20. What [handle_twap_order] sends is what was typed: whatever the
    input, it sends nothing, or market orders that are all alike, for the
    symbol and side of the first two lines and for the share
    [total / intervals] of the total of the third line and the intervals
    of the fourth. *)
Theorem twap_handler_sends_equal_shares (inp : list string) (h : list cli_event) :
  let sent := orders (snd (handle_twap_order client tabulate parse_float parse_int time_sleep inp h)) in
  sent = [] \/
  exists symbol side total intervals_line duration_line intervals duration share rest,
    entered parse_float inp symbol side [total] (intervals_line :: duration_line :: rest) /\
    parse_int (strip intervals_line) = Some intervals /\
    parse_int (strip duration_line) = Some duration /\
    float_div_int total intervals = Return share /\
    Forall (eq (mkRequest symbol side "MARKET" None share None None)) sent.
Proof.
  cbv zeta.
  name_sent (orders (snd (handle_twap_order client tabulate parse_float parse_int time_sleep inp h))) Q.
  assert (HQ : Q []) by now left.
  revert h. change (SendsOn Q inp (handle_twap_order client tabulate parse_float parse_int time_sleep)).
  unfold handle_twap_order.
  apply sends_try; [|intros; apply free_handler_failed].
  pass_by. read_symbol. intros l1 r1 symbol E1 Hsym.
  apply sends_with_side; [assumption|]. intros l2 r2 E2 Hside.
  read_float. intros l3 r3 total E3 Htotal%float_of_str_inv.
  read_int. intros l4 r4 n E4 Hn%int_of_str_inv.
  read_int. intros l5 r5 d E5 Hd%int_of_str_inv.
  pass_by. apply sends_confirmed; [assumption|]. intros c h0.
  destruct (twap_requests c symbol (upper (strip l2)) total n d h0)
    as [-> | (share & Hshare & Hall)]; [now left|].
  right. exists symbol, (upper (strip l2)), total, l4, l5, n, d, share, r5.
  repeat split; auto.
  - exists l1, l2, [l3]. subst. cbn. now rewrite Htotal.
  - now rewrite upper_idempotent in Hall.
Qed.


End Handlers.

(** *** The balance *)

Section Balances.

Variable client : exchange.
Variable parse_float : string -> option float.
Variable fixed8 : float -> string.
Variable tabulate_rows : list (list pyval) -> list string -> result string.

Lemma truthy_entries (b : dict) (data : list dict) :
  truthy (PyList (map PyDict (b :: data))) = true.
Proof. reflexivity. Qed.

Lemma balance_rows_nonpositive (data : list dict) :
  Forall (fun b => exists x,
              and_then (getitem b "balance") (float_of_value parse_float) = Return x /\
              (0 <? x) = false) data ->
  balance_rows parse_float fixed8 (map PyDict data) = Return [].
Proof.
  induction 1 as [|b data (x & Hx & Hle) _ IH]; [reflexivity|].
  cbn [map balance_rows]. unfold balance_row at 1, float_at at 1. cbn [subscript].
  rewrite Hx. cbn [and_then]. rewrite Hle. cbn [and_then]. now rewrite IH.
Qed.

(** X21. [format_balance] shows an entry only for a balance above zero:
    when no entry has one, because the balances are zero, negative or not
    a number, the text is "No non-zero balances found", and neither the
    asset nor the available balance of an entry is read. *)
Theorem format_balance_hides_nonpositive (data : list dict) :
  data <> [] ->
  Forall (fun b => exists x,
              and_then (getitem b "balance") (float_of_value parse_float) = Return x /\
              (0 <? x) = false) data ->
  format_balance parse_float fixed8 tabulate_rows (PyList (map PyDict data)) =
  Return "No non-zero balances found".
Proof.
  intros Hdata Hall. destruct data as [|b data]; [contradiction|].
  unfold format_balance. rewrite truthy_entries. cbn [negb iterate and_then].
  now rewrite (balance_rows_nonpositive _ Hall).
Qed.

Lemma balance_rows_well_formed (data : list dict) :
  Forall (fun b => exists asset balance available,
              well_formed parse_float b asset balance available) data ->
  balance_rows parse_float fixed8 (map PyDict data) =
  Return (flat_map (fun b => if balance_above_zero parse_float b
                             then [shown_row parse_float fixed8 b] else []) data).
Proof.
  induction 1 as [|b data (asset & balance & available & Ha & Hb & Hv) _ IH];
    [reflexivity|].
  cbn [map balance_rows flat_map]. rewrite IH.
  unfold balance_row, float_at, balance_above_zero, shown_row, amount, get_or.
  cbn [subscript]. rewrite Hb, Hv, Ha. cbn [and_then].
  unfold getitem. rewrite Ha. cbn [and_then].
  destruct (0 <? balance); reflexivity.
Qed.

(** X22. On entries that have their three keys and numbers for both
    amounts, [format_balance] tabulates one row for each entry with a
    balance above zero, in the order of the entries, under the headers
    Asset, Balance and Available; the empty list and a list without such an
    entry give their two messages instead. *)
Theorem format_balance_rows (data : list dict) :
  Forall (fun b => exists asset balance available,
              well_formed parse_float b asset balance available) data ->
  format_balance parse_float fixed8 tabulate_rows (PyList (map PyDict data)) =
  match data with
  | [] => Return "No balance data available"
  | _ =>
      match flat_map (fun b => if balance_above_zero parse_float b
                               then [shown_row parse_float fixed8 b] else []) data with
      | [] => Return "No non-zero balances found"
      | rows => tabulate_rows rows ["Asset"; "Balance"; "Available"]
      end
  end.
Proof.
  intros Hall. destruct data as [|b data]; [reflexivity|].
  unfold format_balance. rewrite truthy_entries. cbn [negb iterate and_then].
  rewrite (balance_rows_well_formed _ Hall). cbn [and_then].
  now destruct (flat_map _ (b :: data)).
Qed.

(** X23. [get_account_balance] never raises and reads no input. It
    returns the balances only when the account was fetched, had one of the
    shapes it reads, and [format_balance] could render its balances: it has
    then asked the exchange once. In every other case it returns [None]
    and has asked the exchange for the account a second time. *)
Theorem get_account_balance_asks_again (inp : list string) (h : list cli_event) :
  exists r,
    fst (get_account_balance client parse_float fixed8 tabulate_rows inp h) =
    (Return r, inp) /\
    match r with
    | Some balances =>
        exists account table,
          on_account client h = Returned account /\
          balances_of account = Return balances /\
          format_balance parse_float fixed8 tabulate_rows balances = Return table /\
          remote (snd (get_account_balance client parse_float fixed8 tabulate_rows inp h)) =
          [Account (Returned account)]
    | None =>
        exists again,
          remote (snd (get_account_balance client parse_float fixed8 tabulate_rows inp h)) =
          [Account (on_account client h); Account again]
    end.
Proof.
  unfold get_account_balance, try_except, bind, futures_account, call, lift,
    print_header, print, print_error, print_warning, logger_error, emit, ret.
  destruct (on_account client h) as [account | e] eqn:Hfirst; cbn.
  - destruct (balances_of account) as [balances | e] eqn:Hb; cbn.
    + destruct (format_balance parse_float fixed8 tabulate_rows balances)
        as [table | e] eqn:Hf; cbn.
      * exists (Some balances). split; [reflexivity|]. now exists account, table.
      * repeat (match goal with
                | |- context [on_account client ?h'] => destruct (on_account client h')
                | |- context [contains ?a ?k] => destruct (contains a k)
                | |- context [getitem ?a ?k] => destruct (getitem a k)
                end; cbn);
          exists None; (split; [reflexivity|]); eexists; reflexivity.
    + repeat (match goal with
              | |- context [on_account client ?h'] => destruct (on_account client h')
              | |- context [contains ?a ?k] => destruct (contains a k)
              | |- context [getitem ?a ?k] => destruct (getitem a k)
              end; cbn);
        exists None; (split; [reflexivity|]); eexists; reflexivity.
  - repeat (match goal with
            | |- context [on_account client ?h'] => destruct (on_account client h')
            | |- context [contains ?a ?k] => destruct (contains a k)
            | |- context [getitem ?a ?k] => destruct (getitem a k)
            end; cbn);
      exists None; (split; [reflexivity|]); eexists; reflexivity.
Qed.


End Balances.

Lemma format_balance_nonpositive_witness :
  format_balance read_whole eight_places row_count
    (PyList (map PyDict [[("asset", PyStr "USDT"); ("balance", PyStr "0")];
                         [("balance", PyFloat (-1))];
                         [("asset", PyStr "BNB"); ("balance", PyFloat nan)]])) =
  Return "No non-zero balances found".
Proof.
  apply (format_balance_hides_nonpositive read_whole eight_places row_count
           [[("asset", PyStr "USDT"); ("balance", PyStr "0")];
            [("balance", PyFloat (-1))];
            [("asset", PyStr "BNB"); ("balance", PyFloat nan)]]).
  - discriminate.
  - repeat constructor.
    + exists 0. split; reflexivity.
    + exists (-1). split; reflexivity.
    + exists nan. split; reflexivity.
Defined.

Lemma format_balance_rows_witness :
  format_balance read_whole eight_places row_count
    (PyList (map PyDict
       [[("asset", PyStr "USDT"); ("balance", PyStr "2"); ("availableBalance", PyStr "1")];
        [("asset", PyStr "BTC"); ("balance", PyStr "0"); ("availableBalance", PyStr "0")];
        [("asset", PyStr "BNB"); ("balance", PyInt 1); ("availableBalance", PyFloat 1)]])) =
  Return "two rows".
Proof.
  apply (format_balance_rows read_whole eight_places row_count
           [[("asset", PyStr "USDT"); ("balance", PyStr "2"); ("availableBalance", PyStr "1")];
            [("asset", PyStr "BTC"); ("balance", PyStr "0"); ("availableBalance", PyStr "0")];
            [("asset", PyStr "BNB"); ("balance", PyInt 1); ("availableBalance", PyFloat 1)]]).
  repeat constructor.
  - exists (PyStr "USDT"), 2, 1. repeat split; reflexivity.
  - exists (PyStr "BTC"), 0, 0. repeat split; reflexivity.
  - exists (PyStr "BNB"), 1, 1. repeat split; reflexivity.
Defined.

Lemma handlers_stop_at_bad_symbol_witness :
  remote (snd (handle_limit_order (desk (PyStr "100")) grid read_whole
                 ["btc"; "BUY"; "1"; "100"; "yes"] [])) = [] /\
  snd (fst (handle_limit_order (desk (PyStr "100")) grid read_whole
              ["btc"; "BUY"; "1"; "100"; "yes"] [])) = ["BUY"; "1"; "100"; "yes"].
Proof.
  apply (handlers_stop_at_bad_symbol (desk (PyStr "100")) grid read_whole read_int posix_sleep
           "btc" ["BUY"; "1"; "100"; "yes"] []
           (ValueError "Symbol too short. Example: BTCUSDT")).
  reflexivity.
Defined.

Lemma handlers_stop_at_bad_side_witness :
  remote (snd (handle_oco_order (desk (PyStr "100")) grid read_whole
                 [" ethusdt"; "long"; "1"] [])) = [] /\
  snd (fst (handle_oco_order (desk (PyStr "100")) grid read_whole
              [" ethusdt"; "long"; "1"] [])) = ["1"].
Proof.
  apply (handlers_stop_at_bad_side (desk (PyStr "100")) grid read_whole read_int posix_sleep
           " ethusdt" "long" "ETHUSDT" ["1"] []); reflexivity.
Defined.

Lemma market_order_needs_a_price_witness :
  actions (snd (handle_market_order (desk (PyStr "0")) grid read_whole
                  ["BTCUSDT"; "BUY"; "1"; "yes"] [])) = [] /\
  forall q line,
    ~ In (Asked (Confirm q) line)
         (snd (handle_market_order (desk (PyStr "0")) grid read_whole
                 ["BTCUSDT"; "BUY"; "1"; "yes"] [])).
Proof.
  apply (market_order_needs_a_price (desk (PyStr "0")) grid read_whole
           ["BTCUSDT"; "BUY"; "1"; "yes"] []).
  intros h' symbol. reflexivity.
Defined.

Lemma twap_handler_zero_intervals_witness :
  actions (snd (handle_twap_order (desk (PyStr "100")) grid read_whole read_int posix_sleep
                  ["BTCUSDT"; "BUY"; "1"; " 0 "; "60"; "yes"] [])) = [] /\
  forall q line,
    ~ In (Asked (Confirm q) line)
         (snd (handle_twap_order (desk (PyStr "100")) grid read_whole read_int posix_sleep
                 ["BTCUSDT"; "BUY"; "1"; " 0 "; "60"; "yes"] [])).
Proof.
  apply (twap_handler_stops_at_zero_intervals (desk (PyStr "100")) grid read_whole read_int posix_sleep
           "BTCUSDT" "BUY" "1" " 0 " ["60"; "yes"] []).
  reflexivity.
Defined.

Lemma cancel_handler_answer_witness :
  snd (fst (handle_cancel_order (desk (PyStr "100")) read_int
              ["btcusdt "; "42"; "Y"; "exit"] [])) = ["exit"] /\
  exists rep,
    remote (snd (handle_cancel_order (desk (PyStr "100")) read_int
                   ["btcusdt "; "42"; "Y"; "exit"] [])) =
    if affirmative "Y" then [CancelOrder "BTCUSDT" 42 rep] else [].
Proof.
  apply (cancel_handler_follows_the_answer (desk (PyStr "100")) read_int
           "btcusdt " "42" "Y" "BTCUSDT" 42 ["exit"] []); reflexivity.
Defined.

(** *** The configuration *)

(** X24. After [Config.validate] has returned, [Config.display] returns
    too: the key is set and not empty, and the line of the key shows its
    first eight and last four characters; the words NOT SET are not
    reached. *)
Theorem display_after_validate (cls : Config) (inp : list string) (h : list cli_event) :
  validate cls = Return true ->
  exists key,
    API_KEY cls = Some key /\ key <> EmptyString /\
    fst (display cls inp h) = (Return tt, inp) /\
    In (Said PLAIN
          (Note ("API Key: " ++ first_chars 8 key ++ "..." ++ last_chars 4 key)%string))
       (snd (display cls inp h)).
Proof.
  unfold validate, display, bind, print, emit, lift, key_line.
  destruct (API_KEY cls) as [[|c key] |]; cbn [unset orb]; try discriminate.
  intros _. exists (String c key). split; [reflexivity|]. split; [discriminate|].
  cbn. auto 10.
Qed.

(** X25. Without a key in the environment [Config.display] raises: the
    key is sliced before it is tested, so the run ends with a [TypeError]
    after the line of the testnet mode, and the words NOT SET are shown for
    the empty key only, which [Config.validate] rejects like the missing
    one. *)
Theorem display_needs_a_key (cls : Config) (inp : list string) (h : list cli_event) :
  (API_KEY cls = None ->
   fst (display cls inp h) =
   (Raise (TypeError "'NoneType' object is not subscriptable"), inp) /\
   last (snd (display cls inp h)) (Said PLAIN (Note "")) =
   Said PLAIN (Line "Testnet Mode" [ShownValue (PyBool (TESTNET cls))])) /\
  (API_KEY cls = Some EmptyString ->
   fst (display cls inp h) = (Return tt, inp) /\
   In (Said PLAIN (Note "API Key: ...NOT SET")) (snd (display cls inp h))) /\
  (unset (API_KEY cls) = true -> exists msg, validate cls = Raise (ValueError msg)).
Proof.
  unfold validate, display, bind, print, emit, lift, key_line.
  split; [|split].
  - intros ->. now split.
  - intros ->. split; [reflexivity|]. cbn. auto 10.
  - intros ->. cbn. eauto.
Qed.

(** *** The loop of commands *)

Section Loop.

Variable client : exchange.
Variable tabulate : dict -> result string.
Variable parse_float : string -> option float.
Variable parse_int : string -> option Z.
Variable time_sleep : float -> option exn.
Variable fixed8 : float -> string.
Variable tabulate_rows : list (list pyval) -> list string -> result string.
Variable cls : Config.

Lemma turn_at_end (h : list cli_event) :
  (turn client tabulate parse_float parse_int time_sleep fixed8 tabulate_rows cls) [] h = ((Return false, []), stuck_turn).
Proof. reflexivity. Qed.

(** X26. At the end of the input the loop of [run_cli] does not end: the
    [EOFError] of [input] is caught like any error of a command, and the
    next turn asks again. Whatever the number of turns, the run has not
    returned and has printed and logged the error once per turn. *)
Theorem run_cli_spins_at_end_of_input (fuel : nat) (h : list cli_event) :
  (run_cli client tabulate parse_float parse_int time_sleep fixed8 tabulate_rows cls) fuel [] h = (None, greeting ++ List.concat (repeat stuck_turn fuel)).
Proof.
  unfold run_cli. generalize (h ++ greeting). clear h.
  assert (H : forall h, (cli_loop client tabulate parse_float parse_int time_sleep fixed8 tabulate_rows cls) fuel [] h =
                        (None, List.concat (repeat stuck_turn fuel))).
  { induction fuel as [|fuel IH]; intros h; [reflexivity|].
    cbn [cli_loop]. rewrite turn_at_end, IH. reflexivity. }
  intros h. now rewrite H.
Qed.

(** A turn never raises, and it leaves the loop only on exit or quit. *)
Lemma turn_run (inp : list string) (h : list cli_event) :
  exists leave inp' out,
    (turn client tabulate parse_float parse_int time_sleep fixed8 tabulate_rows cls) inp h = ((Return leave, inp'), out) /\
    (leave = true ->
     exists pre line,
       out = pre ++ [Asked (Enter "Enter command: ") (Some line);
                     Said INFO (Note "Shutting down bot...")] /\
       one_of (lower (strip line)) "exit" "quit" = true).
Proof.
  unfold turn, try_except. unfold bind at 1, print at 1, emit at 1.
  unfold bind at 1, input at 1.
  destruct inp as [|line rest].
  { eexists false, _, _. split; [reflexivity | discriminate]. }
  cbv zeta. destruct (one_of (lower (strip line)) "exit" "quit") eqn:Hexit.
  - eexists true, _, _. split; [reflexivity|]. intros _.
    eexists [_], line. split; [reflexivity | exact Hexit].
  - unfold bind at 1.
    match goal with
    | |- context [dispatch _ _ _ _ _ _ _ _ ?c ?i ?hh] =>
        destruct ((dispatch client tabulate parse_float parse_int time_sleep fixed8 tabulate_rows cls) c i hh) as [[[[] | e] inp'] out]
    end; eexists false, _, _; (split; [reflexivity | discriminate]).
Qed.

(** X27. [run_cli] returns only after a command that reads exit or quit,
    once stripped and put in lower case: a run that has returned has
    returned normally, and its last two events are that line being read
    and the words "Shutting down bot...". *)
Theorem run_cli_returns_only_after_exit
  (fuel : nat) (inp : list string) (h : list cli_event)
  (r : result unit) (rest : list string) :
  fst ((run_cli client tabulate parse_float parse_int time_sleep fixed8 tabulate_rows cls) fuel inp h) = Some (r, rest) ->
  r = Return tt /\
  exists pre line,
    snd ((run_cli client tabulate parse_float parse_int time_sleep fixed8 tabulate_rows cls) fuel inp h) =
    pre ++ [Asked (Enter "Enter command: ") (Some line);
            Said INFO (Note "Shutting down bot...")] /\
    one_of (lower (strip line)) "exit" "quit" = true.
Proof.
  unfold run_cli.
  assert (H : forall inp h,
             fst ((cli_loop client tabulate parse_float parse_int time_sleep fixed8 tabulate_rows cls) fuel inp h) = Some (r, rest) ->
             r = Return tt /\
             exists pre line,
               snd ((cli_loop client tabulate parse_float parse_int time_sleep fixed8 tabulate_rows cls) fuel inp h) =
               pre ++ [Asked (Enter "Enter command: ") (Some line);
                       Said INFO (Note "Shutting down bot...")] /\
               one_of (lower (strip line)) "exit" "quit" = true).
  { clear inp h. induction fuel as [|fuel IH]; intros inp h; [discriminate|].
    cbn [cli_loop].
    destruct (turn_run inp h) as (leave & inp' & out & -> & Hexit).
    destruct leave.
    - cbn [fst snd]. intros [= <- <-]. split; [reflexivity|]. now apply Hexit.
    - specialize (IH inp' (h ++ out)).
      destruct ((cli_loop client tabulate parse_float parse_int time_sleep fixed8 tabulate_rows cls) fuel inp' (h ++ out)) as [res out']. cbn [fst snd] in *.
      intros Hres. destruct (IH Hres) as (-> & pre & line & -> & Hline).
      split; [reflexivity|]. exists (out ++ pre), line. now rewrite app_assoc. }
  specialize (H inp (h ++ greeting)).
  destruct ((cli_loop client tabulate parse_float parse_int time_sleep fixed8 tabulate_rows cls) fuel inp (h ++ greeting)) as [res out]. cbn [fst snd] in *.
  intros Hres. destruct (H Hres) as (-> & pre & line & -> & Hline).
  split; [reflexivity|]. exists (greeting ++ pre), line. now rewrite app_assoc.
Qed.






(** X29. The command exit, or quit, ends [run_cli] at once: the run
    returns normally, the exchange has not been called, and the lines after
    the command stay unread. *)
Theorem run_cli_leaves_on_exit
  (fuel : nat) (line : string) (rest : list string) (h : list cli_event) :
  one_of (lower (strip line)) "exit" "quit" = true ->
  fuel <> 0%nat ->
  fst ((run_cli client tabulate parse_float parse_int time_sleep fixed8 tabulate_rows cls) fuel (line :: rest) h) = Some (Return tt, rest) /\
  remote (snd ((run_cli client tabulate parse_float parse_int time_sleep fixed8 tabulate_rows cls) fuel (line :: rest) h)) = [].
Proof.
  intros Hexit Hfuel. destruct fuel as [|fuel]; [contradiction|].
  assert (H : exists out, (turn client tabulate parse_float parse_int time_sleep fixed8 tabulate_rows cls) (line :: rest) (h ++ greeting) =
                          ((Return true, rest), out) /\ remote out = []).
  { unfold turn, try_except. unfold bind at 1, print at 1, emit at 1.
    unfold bind at 1, input at 1. cbv zeta. rewrite Hexit.
    eexists. split; reflexivity. }
  destruct H as (out & Hturn & Hout).
  unfold run_cli. cbn [cli_loop]. rewrite Hturn. cbn [fst snd].
  split; [reflexivity|]. unfold remote in *. rewrite filter_app, Hout. reflexivity.
Qed.

End Loop.

Lemma display_after_validate_witness :
  exists key,
    API_KEY (mkConfig (Some "0123456789abcdefXYZW") (Some "s3cret") true) = Some key /\
    key <> EmptyString /\
    fst (display (mkConfig (Some "0123456789abcdefXYZW") (Some "s3cret") true) [] []) =
    (Return tt, []) /\
    In (Said PLAIN
          (Note ("API Key: " ++ first_chars 8 key ++ "..." ++ last_chars 4 key)%string))
       (snd (display (mkConfig (Some "0123456789abcdefXYZW") (Some "s3cret") true) [] [])).
Proof.
  apply (display_after_validate
           (mkConfig (Some "0123456789abcdefXYZW") (Some "s3cret") true) [] []).
  reflexivity.
Defined.

Lemma run_cli_exit_witness :
  Return tt = Return tt /\
  exists pre line,
    snd (run_cli (desk (PyStr "100")) grid read_whole read_int posix_sleep eight_places row_count
           (mkConfig (Some "0123456789abcdefXYZW") (Some "s3cret") true)
           5 ["help"; "price"; "BTCUSDT"; " Quit "; "market"] []) =
    pre ++ [Asked (Enter "Enter command: ") (Some line);
            Said INFO (Note "Shutting down bot...")] /\
    one_of (lower (strip line)) "exit" "quit" = true.
Proof.
  apply (run_cli_returns_only_after_exit
           (desk (PyStr "100")) grid read_whole read_int posix_sleep eight_places row_count
           (mkConfig (Some "0123456789abcdefXYZW") (Some "s3cret") true)
           5 ["help"; "price"; "BTCUSDT"; " Quit "; "market"] []
           (Return tt) ["market"]).
  vm_compute. reflexivity.
Defined.

Lemma run_cli_leaves_on_exit_witness :
  fst (run_cli (desk (PyStr "100")) grid read_whole read_int posix_sleep eight_places row_count
         (mkConfig (Some "0123456789abcdefXYZW") (Some "s3cret") true)
         1 [" EXIT"; "market"] []) = Some (Return tt, ["market"]) /\
  remote (snd (run_cli (desk (PyStr "100")) grid read_whole read_int posix_sleep eight_places row_count
                 (mkConfig (Some "0123456789abcdefXYZW") (Some "s3cret") true)
                 1 [" EXIT"; "market"] [])) = [].
Proof.
  apply (run_cli_leaves_on_exit
           (desk (PyStr "100")) grid read_whole read_int posix_sleep eight_places row_count
           (mkConfig (Some "0123456789abcdefXYZW") (Some "s3cret") true)
           1 " EXIT" ["market"] []).
  - reflexivity.
  - discriminate.
Defined.

End Console.
